(* ===== verification/_CoqProject ===== *)
-Q . S2P
Prelude.v
JsString.v
Regex.v
Types.v
Http.v
RateLimit.v
Recommend.v
SuggestApi.v
Dom.v
Scholar.v
ScholarApi.v
ResumePatterns.v
ResumeParser.v
ResumeApi.v
Redux.v
