(* ===== verification/Prelude.v ===== *)
(** * ScholarSync: a verification development of the extraction and
      recommendation core

    The program (src/src/ of the repository) is a Next.js application.  It
    has five parts:

    - the résumé parser [src/src/pages/api/parse-resume.ts]
      ([PdfParser.extractResumeData], [DocxParser], [ResumeParserFactory] and
      the API [handler]).  It turns the decoded text of a PDF or DOCX into a
      [ResumeData] record with regular expressions: name, e-mail, phone,
      skills (section split, then a keyword fallback), education and
      experience blocks;
    - the Scholar scraper [src/src/pages/api/fetch-scholar-data.ts]
      ([ScholarScraper.scrapeProfile] and its [handler]).  It reads a parsed
      Google Scholar page (cheerio selections) into a [ScholarData] record:
      name, publications, citation metrics at fixed positions, interests, and
      a fallback path when all three are empty;
    - the recommendation engine [src/src/pages/api/generate-suggestions.ts]
      ([SkillsBasedStrategy], [PublicationsBasedStrategy], [HybridStrategy],
      [RecommendationEngine], [handler]).  It maps the two records to a list
      of [Project] suggestions, each with a fresh uuid;
    - the rate limiter [src/src/utils/rateLimit.ts].  It is an LRU cache with
      a TTL from token to a one-cell array.  Each check mutates the cached
      array in place, and the two API handlers call it with a fixed token;
    - the Redux store [src/src/redux/] (three slices and three thunks), which
      keeps the client-side state of each request.

    The parts interact by values: the text goes to the parser, then a
    [ResumeData]; the HTML goes to the scraper, then a [ScholarData]; both go
    to the engine, then [Project] lists.  The only shared mutable state is the
    rate limiter's cache (one per API module) and the HTTP response object
    that the limiter writes into before the handler does.

    ** Library layout (verification/_CoqProject order)

    - [Prelude] (this file): the scope [ss_scope], the id supply monad
      [Gen] that models [uuidv4], the hint database [scholarsync], the
      tactics, and generic lemmas on lists, booleans and round trips.
    - [JsString]: JavaScript strings as lists of UTF-16 code units ([jstr])
      with the [String.prototype] operations the code calls, [parseInt] into
      a model of JavaScript numbers ([num]), and [String(n)] of a count.
    - [Regex]: ECMAScript regular expressions, an AST and a backtracking
      matcher in list-of-results form (greedy and lazy quantifiers,
      lookahead, [\b], captures, the [i] flag), with [match], [test],
      [matchAll], [split] and [replace].  The repetition loop runs on fuel
      [min + (length input - pos) + 1]; [m_repeat_fuel_enough] shows any
      larger fuel gives the same results, so the bound is never reached.
    - [Types]: the records of [src/src/types/index.ts].
    - [Http]: the shared [NextApiResponse] (status, headers, one body, the
      throw of a second answer) and the JSON values of [JSON.stringify].
    - [RateLimit]: [src/src/utils/rateLimit.ts] over an LRU cache with TTL
      and a heap of arrays (the cached array is mutated in place), and the
      fixed-window counter it refines.
    - [Recommend]: the three strategies of
      [src/src/pages/api/generate-suggestions.ts], the interface
      [RecommendationStrategy] (a class) and the engine; the rule table of
      the spec is the abstract specification of the skills strategy.
    - [SuggestApi]: the suggestions route over the module limiter.
    - [Dom]: the parsed HTML tree and cheerio's class and tag selections.
    - [Scholar], [ScholarApi]: [ScholarScraper.scrapeProfile] and the route
      of [src/src/pages/api/fetch-scholar-data.ts].
    - [ResumePatterns], [ResumeParser], [ResumeApi]: the regular-expression
      literals of [src/src/pages/api/parse-resume.ts], [extractResumeData],
      and the factory, the two parsers and the route (decoders and file
      system as section variables).
    - [Redux]: the three slices of [src/src/redux/slices/] over plain
      objects, the root reducer of [store.ts], the three thunks as the
      actions they dispatch, reachability by any sequence of actions, and
      the decoders that read the resume slice back as [ResumeData].

    ** What the theorems show

    - Recommendation: the skills strategy refines the rule table (C1), with
      one to five suggestions (C2), fresh ids (C3), invariance under
      set-equal skills and any Scholar record (C4, C5), distinct titles
      (C6); the keyword counting of the publications strategy (C7, C8) and
      the hybrid composition (C12).
    - Rate limiter: one [check] simulates one step of a fixed-window
      counter (C9), hence the exact window (C10) and its reset (C11).
    - Suggestions and Scholar routes: answers, method guards, the shared
      ledger and the double answer after a refusal (C13–C17, C24–C26).
    - Scholar scraper: positional metrics, well-formedness, the fallback
      path and the errors (C18–C23).
    - Résumé parser and route: a section needs a following header (C27),
      the skill split (C28), the factory and allow-list (C29), the answers
      of the route and the temporary file (C30–C32).
    - Store: a type invariant of every reachable state (C33), the JSON
      round trip of the résumé (C34), the upload from route to store (C35),
      the last answer winning (C36) and the skills guard of the suggestions
      thunk (C37).

    ** Modelling conventions

    - A JavaScript string is a [list N] of UTF-16 code units.  A literal is
      written [js "..."]; a non-ASCII code unit is written as its number.
    - The case mappings of the engine ([toUpperCase], [toLowerCase]) are
      modelled exactly on ASCII.  Non-ASCII code units whose uppercase is
      ASCII are listed (ß, ı, ſ, the ﬀ–ﬆ ligatures), as is the Kelvin sign
      for lowercase.  Other non-ASCII code units are left unchanged.  This is
      exact for every comparison the program makes with an ASCII literal; see
      [JsString].
    - [uuidv4] is a draw from a supply of identifiers: [Gen A] is a state
      monad over the number of ids drawn so far.  Collisions of random uuids
      are not modelled.
    - Untyped JSON bodies are not modelled: an API receives the typed records
      the client sends.

    ** Not modelled

    The React components and pages: they render the store and call the
    thunks, and hold no logic the theorems could be about beyond the input
    checks the routes repeat.  Byte decoding and upload parsing (pdf-parse,
    mammoth, formidable) and the file system are section variables of
    [ResumeApi]; axios is modelled by its outcome on the route's answer (a
    network error is not).  The HTML parser (cheerio's [load]: the model
    starts from the parsed tree), the WHATWG URL parser (adding [hl=en]),
    the serializable-check middleware of the store (it only warns), and
    console logging.  The observer of the scraper only logs. *)

From stdpp Require Export base list option gmap strings.
From Stdlib Require Export ZArith NArith Lia Sorted.

Declare Scope ss_scope.
Delimit Scope ss_scope with ss.

Create HintDb scholarsync discriminated.
Create Rewrite HintDb scholarsync_rw.

(** ** The identifier supply: [uuidv4] as a state monad *)

(** [Gen A] is a computation that draws identifiers.  The state is the
    number of identifiers drawn so far, and [uuidv4] returns it and
    increments it. *)
Definition Gen (A : Type) : Type := nat -> A * nat.

#[export] Instance Gen_ret : MRet Gen := fun A x g => (x, g).
#[export] Instance Gen_bind : MBind Gen :=
  fun A B f m g => let '(x, g') := m g in f x g'.

Definition uuidv4 : Gen nat := fun g => (g, S g).

(** Running a computation. *)
Definition run_gen {A} (m : Gen A) (g : nat) : A := fst (m g).

Lemma gen_bind_run {A B} (f : A -> Gen B) (m : Gen A) g :
  (m ≫= f) g = f (fst (m g)) (snd (m g)).
Proof. unfold mbind, Gen_bind. by destruct (m g). Qed.

Lemma gen_ret_run {A} (x : A) g : (mret x : Gen A) g = (x, g).
Proof. reflexivity. Qed.

Lemma uuidv4_run g : uuidv4 g = (g, S g).
Proof. reflexivity. Qed.

#[export] Hint Rewrite @gen_bind_run @gen_ret_run uuidv4_run : scholarsync_rw.

(** ** Generic lemmas on lists and booleans *)

Lemma existsb_In_iff {A} (f : A -> bool) (l : list A) :
  existsb f l = true <-> exists x, In x l /\ f x = true.
Proof. apply existsb_exists. Qed.

Lemma existsb_ext_in {A} (f g : A -> bool) (l : list A) :
  (forall x, In x l -> f x = g x) -> existsb f l = existsb g l.
Proof.
  induction l as [|x l IH]; simpl; intros H; [done|].
  rewrite H by auto. f_equal. apply IH. auto.
Qed.

Lemma flat_map_ext_in {A B} (f g : A -> list B) (l : list A) :
  (forall x, In x l -> f x = g x) -> flat_map f l = flat_map g l.
Proof.
  induction l as [|x l IH]; simpl; intros H; [done|].
  rewrite H by auto. f_equal. apply IH. auto.
Qed.

Lemma flat_map_nil_in {A B} (f : A -> list B) (l : list A) :
  (forall x, In x l -> f x = []) -> flat_map f l = [].
Proof.
  induction l as [|x l IH]; simpl; intros H; [done|].
  rewrite H by auto. apply IH. auto.
Qed.

Lemma NoDup_seq_app (a n m : nat) :
  NoDup (seq a n ++ seq (a + n) m).
Proof. rewrite <- seq_app. apply NoDup_seq. Qed.

Lemma length_filter_le {A} (f : A -> bool) (l : list A) :
  length (List.filter f l) <= length l.
Proof.
  induction l as [|x l IH]; simpl; [lia|]. destruct (f x); simpl; lia.
Qed.

Lemma filter_partition_perm {A} (f : A -> bool) (l : list A) :
  Permutation (List.filter f l ++ List.filter (fun x => negb (f x)) l) l.
Proof.
  induction l as [|x l IH]; simpl; [done|].
  destruct (f x); simpl; [by rewrite IH|].
  rewrite <- Permutation_middle. by rewrite IH.
Qed.

Lemma StronglySorted_app_rel {A} (R : A -> A -> Prop) (l1 l2 : list A) :
  Sorted.StronglySorted R (l1 ++ l2) -> forall a b, In a l1 -> In b l2 -> R a b.
Proof.
  induction l1 as [|x l1 IH]; simpl; intros H a b Ha Hb; [done|].
  apply Sorted.StronglySorted_inv in H as [H Hx]. destruct Ha as [<-|Ha].
  - rewrite Forall_forall in Hx. apply Hx, list_elem_of_In, in_app_iff. by right.
  - by apply IH.
Qed.

(** Two lists with the same members. *)
Definition same_elems {A} (l1 l2 : list A) : Prop :=
  forall x, In x l1 <-> In x l2.

#[export] Instance same_elems_equiv {A} : Equivalence (@same_elems A).
Proof.
  split; unfold same_elems.
  - intros l x. tauto.
  - intros l1 l2 H x. specialize (H x). tauto.
  - intros l1 l2 l3 H1 H2 x. specialize (H1 x). specialize (H2 x). tauto.
Qed.

Lemma same_elems_existsb {A} (f : A -> bool) (l1 l2 : list A) :
  same_elems l1 l2 -> existsb f l1 = existsb f l2.
Proof.
  intros H. apply Bool.eq_iff_eq_true. rewrite !existsb_exists.
  split; intros [x [Hx Hf]]; exists x; split; auto; apply H; auto.
Qed.

#[export] Instance existsb_proper {A} (f : A -> bool) :
  Proper (same_elems ==> eq) (existsb f).
Proof. intros l1 l2 H. by apply same_elems_existsb. Qed.

Lemma same_elems_cons_in {A} (x : A) (l : list A) :
  In x l -> same_elems (x :: l) l.
Proof. intros Hx y. simpl. split; [intros [<-|H]|]; auto. Qed.

#[export] Hint Resolve same_elems_cons_in : scholarsync.

(** ** Tactics *)

(** Case analysis on every boolean test of the goal, keeping the
    equations. *)
Ltac case_bools :=
  repeat match goal with
    | |- context [if ?b then _ else _] =>
        lazymatch b with
        | true => fail
        | false => fail
        | _ => let E := fresh "E" in destruct b eqn:E
        end
    end.

(** Unfold the [Gen] monad in the goal. *)
Ltac gen_simpl :=
  repeat (unfold mbind, mret, Gen_bind, Gen_ret, uuidv4 in *; simpl in *).

(** ** Round trips *)

(** A decoder that inverts an encoder on each element inverts it on lists. *)
Lemma mapM_map_Some {A B} (f : A -> option B) (g : B -> A) (l : list B) :
  (forall x, f (g x) = Some x) -> mapM f (map g l) = Some l.
Proof. intros H. induction l as [|x l IH]; simpl; [done|]. by rewrite H; simpl; rewrite IH. Qed.
