(* ===== verification/JsString.v ===== *)
(** * JavaScript strings and numbers

    A JavaScript string is a sequence of UTF-16 code units, and here it is a
    [list N].  The functions below are the [String.prototype] methods and the
    global [parseInt] that the program calls.  They are modelled from
    ECMA-262 (2023) and belong to the language, not to the program.
    Literals are written [js "..."], which converts an ASCII Rocq string code
    unit by code unit.

    The case mappings [to_upper] and [to_lower] are exact on ASCII.  The
    non-ASCII code units whose uppercase is ASCII (ß, ı, ſ, U+FB00–FB06) are
    listed, and so is the Kelvin sign (U+212A), whose lowercase is ASCII.
    Latin-1, Latin Extended-A and the basic Cyrillic letters are mapped by
    their Unicode case pairs.  Other code units are left unchanged.  As a
    result, comparing the image of a string with an ASCII literal gives the
    engine's answer, since no other code unit has an ASCII image. *)

From S2P Require Import Prelude.

Abbreviation jstr := (list N).

Definition js (s : string) : jstr :=
  map Ascii.N_of_ascii (String.list_ascii_of_string s).

Definition jstr_eqb (a b : jstr) : bool := bool_decide (a = b).
Infix "=s?" := jstr_eqb (at level 70) : ss_scope.
Open Scope ss_scope.

Lemma jstr_eqb_eq a b : (a =s? b) = true <-> a = b.
Proof. unfold jstr_eqb. apply bool_decide_eq_true. Qed.

Lemma jstr_eqb_refl a : (a =s? a) = true.
Proof. by apply jstr_eqb_eq. Qed.

Lemma jstr_eqb_sym a b : (a =s? b) = (b =s? a).
Proof. unfold jstr_eqb. apply bool_decide_ext. split; congruence. Qed.

Lemma jstr_eqb_neq a b : a <> b -> (a =s? b) = false.
Proof. intros H. apply not_true_iff_false. by rewrite jstr_eqb_eq. Qed.

#[export] Hint Resolve jstr_eqb_refl : scholarsync.
#[export] Hint Rewrite jstr_eqb_refl : scholarsync_rw.

(** A string is truthy when it is not empty. *)
Definition truthy (s : jstr) : bool := negb (bool_decide (s = [])).

Lemma truthy_true s : truthy s = true <-> s <> [].
Proof. unfold truthy. rewrite negb_true_iff, bool_decide_eq_false. done. Qed.

(** [Array.prototype.includes] on an array of strings (SameValueZero is
    string equality). *)
Definition arr_includes (l : list jstr) (x : jstr) : bool :=
  existsb (fun y => y =s? x) l.

Lemma arr_includes_In l x : arr_includes l x = true <-> In x l.
Proof.
  unfold arr_includes. rewrite existsb_exists. split.
  - intros [y [Hy E]]. apply jstr_eqb_eq in E. by subst.
  - intros Hx. exists x. split; auto with scholarsync.
Qed.

#[export] Instance arr_includes_proper :
  Proper (same_elems ==> eq ==> eq) arr_includes.
Proof. intros l1 l2 H x ? <-. unfold arr_includes. by rewrite H. Qed.

(** A boolean test for pairwise distinct strings. *)
Fixpoint nodupb (l : list jstr) : bool :=
  match l with
  | [] => true
  | x :: l' => negb (arr_includes l' x) && nodupb l'
  end.

Lemma nodupb_NoDup l : nodupb l = true -> NoDup l.
Proof.
  induction l as [|x l IH]; simpl; [constructor|].
  intros [Hx Hl]%andb_prop. constructor; [|auto].
  intros Hin%list_elem_of_In. apply arr_includes_In in Hin. by rewrite Hin in Hx.
Qed.

(** ** White space: WhiteSpace and LineTerminator (§12.2, §12.3).  The same
    set is the regular-expression class [\s]. *)
Definition is_ws (c : N) : bool :=
  (c =? 9)%N || (c =? 10)%N || (c =? 11)%N || (c =? 12)%N || (c =? 13)%N
  || (c =? 32)%N || (c =? 160)%N || (c =? 0x1680)%N
  || ((0x2000 <=? c)%N && (c <=? 0x200A)%N)
  || (c =? 0x2028)%N || (c =? 0x2029)%N || (c =? 0x202F)%N
  || (c =? 0x205F)%N || (c =? 0x3000)%N || (c =? 0xFEFF)%N.

(** [TrimString] (§22.1.3.32.1). *)
Fixpoint trim_start (s : jstr) : jstr :=
  match s with
  | c :: s' => if is_ws c then trim_start s' else s
  | [] => []
  end.

Definition trim_end (s : jstr) : jstr := rev (trim_start (rev s)).

Definition trim (s : jstr) : jstr := trim_end (trim_start s).

(** ** Searching *)

Fixpoint is_prefix (p s : jstr) : bool :=
  match p, s with
  | [], _ => true
  | c :: p', d :: s' => (c =? d)%N && is_prefix p' s'
  | _ :: _, [] => false
  end.

(** [String.prototype.indexOf] from position 0, as an option. *)
Fixpoint index_of (s p : jstr) : option nat :=
  if is_prefix p s then Some 0
  else match s with
       | [] => None
       | _ :: s' => S <$> index_of s' p
       end.

(** [String.prototype.includes]. *)
Definition includes (s p : jstr) : bool :=
  match index_of s p with Some _ => true | None => false end.

(** [String.prototype.replace] with a string pattern and a replacement
    without [$] patterns: the first occurrence only. *)
Definition replace_first (s pat rep : jstr) : jstr :=
  match index_of s pat with
  | Some i => take i s ++ rep ++ drop (i + length pat) s
  | None => s
  end.

(** ** [String.prototype.split] with a string separator (§22.1.3.23).
    [skip] counts the code units of a separator still to be passed, so the
    recursion is structural on the string. *)
Fixpoint split_go (sep s : jstr) (skip : nat) (cur : jstr) : list jstr :=
  match s with
  | [] => [rev cur]
  | c :: s' =>
      match skip with
      | S k => split_go sep s' k cur
      | O =>
          if is_prefix sep s then rev cur :: split_go sep s' (pred (length sep)) []
          else split_go sep s' 0 (c :: cur)
      end
  end.

Definition split (s sep : jstr) : list jstr :=
  match sep with
  | [] => map (fun c => [c]) s
  | _ => split_go sep s 0 []
  end.

(** [Array.prototype.join]. *)
Fixpoint join (sep : jstr) (l : list jstr) : jstr :=
  match l with
  | [] => []
  | [x] => x
  | x :: l' => x ++ sep ++ join sep l'
  end.

(** ** Case mappings *)

Definition in_range (lo hi c : N) : bool := (lo <=? c)%N && (c <=? hi)%N.

(** Latin Extended-A pairs an uppercase letter with the next code unit, on
    even code units in U+0100–012F, U+0132–0137 and U+014A–0177 and on odd
    ones in U+0139–0148 and U+0179–017E (İ and ı are not a pair). *)
Definition extA_upper (c : N) : bool :=
  (in_range 0x100 0x12F c && N.even c) || (in_range 0x132 0x137 c && N.even c) || (in_range 0x139 0x148 c && N.odd c)
  || (in_range 0x14A 0x177 c && N.even c) || (in_range 0x179 0x17E c && N.odd c).

Definition lower_unit (c : N) : jstr :=
  if in_range 65 90 c then [c + 32]%N
  else if (in_range 0xC0 0xDE c && negb (c =? 0xD7)%N) then [c + 32]%N
  else if extA_upper c then [c + 1]%N
  else if (c =? 0x130)%N then [0x69; 0x307]%N
  else if (c =? 0x178)%N then [0xFF]%N
  else if in_range 0x410 0x42F c then [c + 32]%N
  else if in_range 0x400 0x40F c then [c + 80]%N
  else if (c =? 0x212A)%N then [107]%N
  else [c].

Definition upper_unit (c : N) : jstr :=
  if in_range 97 122 c then [c - 32]%N
  else if (in_range 0xE0 0xFE c && negb (c =? 0xF7)%N) then [c - 32]%N
  else if (c =? 0xFF)%N then [0x178]%N
  else if (c =? 0xB5)%N then [0x39C]%N
  else if (c =? 0xDF)%N then js "SS"
  else if extA_upper (c - 1) && negb (c =? 0)%N then [c - 1]%N
  else if (c =? 0x131)%N then js "I"
  else if (c =? 0x17F)%N then js "S"
  else if in_range 0x430 0x44F c then [c - 32]%N
  else if in_range 0x450 0x45F c then [c - 80]%N
  else if (c =? 0xFB00)%N then js "FF"
  else if (c =? 0xFB01)%N then js "FI"
  else if (c =? 0xFB02)%N then js "FL"
  else if (c =? 0xFB03)%N then js "FFI"
  else if (c =? 0xFB04)%N then js "FFL"
  else if (c =? 0xFB05)%N || (c =? 0xFB06)%N then js "ST"
  else [c].

(** [String.prototype.toLowerCase] and [toUpperCase]. *)
Definition to_lower (s : jstr) : jstr := flat_map lower_unit s.
Definition to_upper (s : jstr) : jstr := flat_map upper_unit s.

(** ** Numbers

    A JavaScript number that holds an integer: a finite value, an infinity,
    or NaN.  [-0] is [NFin 0]; the program never tells the two apart. *)
Inductive num : Type :=
| NFin (z : Z)
| NInf (positive : bool)
| NaN.

Definition num_eq_dec : EqDecision num.
Proof. solve_decision. Defined.
#[export] Existing Instance num_eq_dec.

Definition isNaN (n : num) : bool := match n with NaN => true | _ => false end.

(** [n > 0]. *)
Definition num_gt0 (n : num) : bool :=
  match n with NFin z => (0 <? z)%Z | NInf b => b | NaN => false end.

(** Round an integer to the nearest double (ties to even), with overflow to
    an infinity: [𝔽] of §6.1.6.1 on integers. *)
Definition round_mag (m : Z) : Z :=
  let k := (Z.log2 m - 52)%Z in
  if (k <=? 0)%Z then m
  else
    let q := Z.shiftr m k in
    let r := (m - Z.shiftl q k)%Z in
    let half := Z.shiftl 1 (k - 1) in
    let q' := if (half <? r)%Z || ((r =? half)%Z && Z.odd q) then (q + 1)%Z else q in
    Z.shiftl q' k.

Definition to_double (z : Z) : num :=
  let m := round_mag (Z.abs z) in
  if (2 ^ 1024 <=? m)%Z then NInf (0 <=? z)%Z else NFin (Z.sgn z * m).

Definition is_digit (c : N) : bool := in_range 48 57 c.

Fixpoint take_digits (s : jstr) : jstr :=
  match s with
  | c :: s' => if is_digit c then c :: take_digits s' else []
  | [] => []
  end.

Definition digits_value (d : jstr) : Z :=
  fold_left (fun acc c => acc * 10 + Z.of_N (c - 48))%Z d 0%Z.

(** [parseInt(s, 10)] (§19.2.5). *)
Definition parseInt (s : jstr) : num :=
  let s1 := trim_start s in
  let '(neg, s2) :=
    match s1 with
    | 45%N :: r => (true, r)
    | 43%N :: r => (false, r)
    | _ => (false, s1)
    end in
  match take_digits s2 with
  | [] => NaN
  | d => to_double ((if neg then -1 else 1) * digits_value d)%Z
  end.

(** ** [Array.prototype.sort] with a comparator (§23.1.3.30)

    A stable insertion sort: each element, in array order, goes before the
    first element it compares below.  When the comparator is consistent,
    the specification fixes the result, and every stable sort gives this
    one. *)
Fixpoint insert_by {A} (cmp : A -> A -> Z) (x : A) (l : list A) : list A :=
  match l with
  | [] => [x]
  | y :: l' => if (cmp x y <? 0)%Z then x :: l else y :: insert_by cmp x l'
  end.

Definition sort_by {A} (cmp : A -> A -> Z) (l : list A) : list A :=
  fold_left (fun acc x => insert_by cmp x acc) l [].

Section SortBy.
Context {A : Type}.

Lemma insert_by_perm (cmp : A -> A -> Z) x l : Permutation (insert_by cmp x l) (x :: l).
Proof.
  induction l as [|y l IH]; simpl; [done|].
  destruct (cmp x y <? 0)%Z; [done|]. rewrite IH. constructor.
Qed.

Lemma sort_by_perm_acc (cmp : A -> A -> Z) l : forall acc,
  Permutation (fold_left (fun acc x => insert_by cmp x acc) l acc) (acc ++ l).
Proof.
  induction l as [|x l IH]; intros acc; simpl; [by rewrite app_nil_r|].
  rewrite IH, insert_by_perm. simpl. apply Permutation_middle.
Qed.

Lemma sort_by_perm (cmp : A -> A -> Z) l : Permutation (sort_by cmp l) l.
Proof. apply sort_by_perm_acc. Qed.

Lemma insert_by_ext (cmp1 cmp2 : A -> A -> Z) x l :
  (forall y, In y l -> cmp1 x y = cmp2 x y) -> insert_by cmp1 x l = insert_by cmp2 x l.
Proof.
  induction l as [|y l IH]; intros H; simpl; [done|].
  rewrite (H y) by (left; done). destruct (cmp2 x y <? 0)%Z; [done|].
  f_equal. apply IH. intros z Hz. apply H. by right.
Qed.

Lemma sort_by_ext_acc (cmp1 cmp2 : A -> A -> Z) l : forall acc,
  (forall a b, In a (acc ++ l) -> In b (acc ++ l) -> cmp1 a b = cmp2 a b) ->
  fold_left (fun acc x => insert_by cmp1 x acc) l acc =
  fold_left (fun acc x => insert_by cmp2 x acc) l acc.
Proof.
  induction l as [|x l IH]; intros acc H; simpl; [done|].
  assert (Hin : forall y, In y (insert_by cmp2 x acc ++ l) -> In y (acc ++ x :: l)).
  { intros y Hy. rewrite in_app_iff in Hy |- *. destruct Hy as [Hy|Hy]; [|by right; right].
    apply (Permutation_in _ (insert_by_perm cmp2 x acc)) in Hy as [<-|Hy];
      [right; left|left]; done. }
  rewrite (insert_by_ext cmp1 cmp2).
  - apply IH. intros a b Ha Hb. apply H; auto.
  - intros y Hy. apply H; rewrite in_app_iff; [by right; left|by left].
Qed.

Lemma sort_by_ext (cmp1 cmp2 : A -> A -> Z) l :
  (forall a b, In a l -> In b l -> cmp1 a b = cmp2 a b) -> sort_by cmp1 l = sort_by cmp2 l.
Proof. intros H. apply sort_by_ext_acc. exact H. Qed.

(** With the comparator [key b - key a], the result is sorted by
    non-increasing key. *)
Context (key : A -> Z).

Definition desc_cmp (a b : A) : Z := (key b - key a)%Z.
Definition key_ge (a b : A) : Prop := (key b <= key a)%Z.

Lemma insert_by_sorted x l :
  Sorted key_ge l -> Sorted key_ge (insert_by desc_cmp x l).
Proof.
  induction 1 as [|y l Hl IH Hhd]; simpl; [repeat constructor|].
  unfold desc_cmp at 1. destruct (Z.ltb_spec (key y - key x) 0).
  - apply Sorted_cons; [by apply Sorted_cons|constructor; unfold key_ge; lia].
  - apply Sorted_cons; [done|]. destruct l as [|z l]; simpl.
    + constructor. unfold key_ge. lia.
    + inversion Hhd; subst. unfold desc_cmp at 1.
      destruct (Z.ltb_spec (key z - key x) 0); constructor; unfold key_ge in *; lia.
Qed.

Lemma sort_by_sorted l : Sorted key_ge (sort_by desc_cmp l).
Proof.
  unfold sort_by. assert (H : Sorted key_ge []) by constructor. revert H.
  generalize (@nil A). induction l as [|x l IH]; intros acc Hacc; simpl; [done|].
  apply IH, insert_by_sorted, Hacc.
Qed.

Lemma sort_by_strongly_sorted l : StronglySorted key_ge (sort_by desc_cmp l).
Proof.
  apply Sorted_StronglySorted; [|apply sort_by_sorted].
  intros a b c H1 H2. unfold key_ge in *. lia.
Qed.
End SortBy.

(** ** Lemmas on [trim] *)

(** A string starts with a character that is not white space. *)
Definition starts_nonws (s : jstr) : Prop :=
  match s with [] => True | c :: _ => is_ws c = false end.

Lemma trim_start_starts_nonws s : starts_nonws (trim_start s).
Proof. induction s as [|c s IH]; simpl; [done|]. destruct (is_ws c) eqn:E; simpl; auto. Qed.

Lemma trim_start_id s : starts_nonws s -> trim_start s = s.
Proof. destruct s as [|c s]; simpl; [done|]. by intros ->. Qed.

Lemma trim_start_idem s : trim_start (trim_start s) = trim_start s.
Proof. apply trim_start_id, trim_start_starts_nonws. Qed.

Lemma trim_start_suffix s : exists w, s = w ++ trim_start s.
Proof.
  induction s as [|c s [w Hw]]; simpl; [by exists []|].
  destruct (is_ws c); [exists (c :: w); simpl; by rewrite <- Hw|by exists []].
Qed.

Lemma trim_end_prefix s : exists w, s = trim_end s ++ w.
Proof.
  destruct (trim_start_suffix (rev s)) as [w Hw]. exists (rev w).
  unfold trim_end. rewrite <- rev_app_distr, <- Hw. by rewrite rev_involutive.
Qed.

Lemma trim_end_starts_nonws s : starts_nonws s -> starts_nonws (trim_end s).
Proof.
  destruct (trim_end_prefix s) as [w Hw]. intros Hs.
  destruct (trim_end s) as [|c t] eqn:E; [done|]. rewrite Hw in Hs. exact Hs.
Qed.

Lemma trim_end_idem s : trim_end (trim_end s) = trim_end s.
Proof. unfold trim_end. by rewrite rev_involutive, trim_start_idem. Qed.

Lemma trim_idem s : trim (trim s) = trim s.
Proof.
  unfold trim. rewrite (trim_start_id (trim_end _)).
  - apply trim_end_idem.
  - apply trim_end_starts_nonws, trim_start_starts_nonws.
Qed.

#[export] Hint Rewrite trim_idem : scholarsync_rw.

(** ** Lemmas on searching *)

Lemma is_prefix_refl p : is_prefix p p = true.
Proof. induction p; simpl; [done|by rewrite N.eqb_refl]. Qed.

Lemma index_of_cons c s p :
  index_of (c :: s) p = if is_prefix p (c :: s) then Some 0 else S <$> index_of s p.
Proof. reflexivity. Qed.

Lemma index_of_refl p : index_of p p = Some 0.
Proof. destruct p; simpl; [done|]. by rewrite N.eqb_refl, is_prefix_refl. Qed.

(** [String(n)] of a non-negative integer: its decimal digits.  The fuel,
    one more than the bit length of [n], is more than its decimal length. *)
Fixpoint dec_go (fuel : nat) (n : N) (acc : jstr) : jstr :=
  match fuel with
  | O => acc
  | S f =>
      let acc' := (48 + n mod 10)%N :: acc in
      if (n <? 10)%N then acc' else dec_go f (n / 10)%N acc'
  end.

Definition N_to_dec (n : N) : jstr := dec_go (S (N.size_nat n)) n [].
