(* ===== verification/Regex.v ===== *)
(** * ECMAScript regular expressions, as the program uses them

    The resume parser, the Scholar handler and the input forms test and
    match strings against regular-expression literals.  This file gives the
    pattern syntax they use, the backtracking semantics of ECMAScript
    (§22.2.2), and the [String.prototype] methods built on it: [match] with
    and without the [g] flag, [test], [replace] of the first match and
    [split] (§22.2.6).

    The matcher of §22.2.2 is a continuation-passing backtracking search.
    Here it is written in the equivalent list-of-results form: [m r x] is
    the list of states in which [r] can end when started in [x], in the
    order in which the backtracking search tries them.  The first element
    is the match the ECMAScript matcher returns.  Lookahead keeps the first
    result of its body.  Backreferences and lookbehind do not occur in the
    program and are not part of the syntax.

    [RepeatMatcher] recurses once per iteration.  An iteration that matches
    the empty string when [min] is 0 is refused, so the number of iterations
    is bounded by [min] plus the length of the input.  The model gives that
    bound as fuel ([rep_go]), and [rep_go_fuel] proves that more fuel never
    changes the result.

    Case-insensitive matching ([i] flag, without [u]) compares
    [Canonicalize] images (§22.2.2.7.3).  A class matches when one of its
    members has the canonical image of the input character.  The members to
    try are computed from the character ([candidates]), and
    [candidates_complete] checks for every code unit that none is
    missed. *)

From S2P Require Import Prelude JsString.

(** ** Syntax *)

Inductive class_item : Type :=
| CChar (c : N)              (** a character, escaped or not *)
| CRange (lo hi : N)         (** [a-z] *)
| CDigit | CNotDigit         (** [\d] [\D] *)
| CSpace | CNotSpace         (** [\s] [\S] *)
| CWord | CNotWord.          (** [\w] [\W] *)

Inductive regex : Type :=
| Empty
| Char (c : N)
| Dot                               (** [.]: any code unit but a line terminator *)
| Class (negated : bool) (items : list class_item)
| Seq (r1 r2 : regex)
| Alt (r1 r2 : regex)
| Repeat (r : regex) (min : nat) (max : option nat) (greedy : bool)
| Group (index : nat) (r : regex)   (** capturing group number [index] *)
| Look (r : regex)                  (** [(?=r)] *)
| Bol                               (** [^] *)
| Eol                               (** [$] *)
| WordB.                            (** [\b] *)

(** A literal word, and alternatives. *)
Fixpoint lit (s : jstr) : regex :=
  match s with [] => Empty | [c] => Char c | c :: s' => Seq (Char c) (lit s') end.

Fixpoint alts (rs : list regex) : regex :=
  match rs with [] => Class false [] | [r] => r | r :: rs' => Alt r (alts rs') end.

Fixpoint seqs (rs : list regex) : regex :=
  match rs with [] => Empty | [r] => r | r :: rs' => Seq r (seqs rs') end.

Definition star (r : regex) : regex := Repeat r 0 None true.
Definition plus (r : regex) : regex := Repeat r 1 None true.
Definition opt (r : regex) : regex := Repeat r 0 (Some 1) true.
Definition lazy_star (r : regex) : regex := Repeat r 0 None false.
Definition esc_s : regex := Class false [CSpace].
Definition esc_d : regex := Class false [CDigit].
Definition esc_w : regex := Class false [CWord].
Definition any_char : regex := Class false [CSpace; CNotSpace].   (** [[\s\S]] *)

(** The group numbers inside a pattern. *)
Fixpoint groups (r : regex) : list nat :=
  match r with
  | Seq r1 r2 | Alt r1 r2 => groups r1 ++ groups r2
  | Repeat r _ _ _ | Look r => groups r
  | Group n r => n :: groups r
  | _ => []
  end.

(** ** Characters *)

(** [Canonicalize(ch)] without the [u] flag. *)
Definition canon (c : N) : N :=
  match upper_unit c with
  | [u] => if (128 <=? c)%N && (u <? 128)%N then c else u
  | _ => c
  end.

Definition is_word_char (c : N) : bool :=
  in_range 65 90 c || in_range 97 122 c || in_range 48 57 c || (c =? 95)%N.

Definition item_mem (it : class_item) (c : N) : bool :=
  match it with
  | CChar a => (a =? c)%N
  | CRange lo hi => in_range lo hi c
  | CDigit => in_range 48 57 c
  | CNotDigit => negb (in_range 48 57 c)
  | CSpace => is_ws c
  | CNotSpace => negb (is_ws c)
  | CWord => is_word_char c
  | CNotWord => negb (is_word_char c)
  end.

(** The code units that may have the canonical image of [c]. *)
Definition candidates (c : N) : list N :=
  let u := canon c in
  c :: u :: lower_unit u ++ (if (u =? 0x39C)%N then [0xB5%N] else []).

(** [CharacterSetMatcher]: some member [a] with [Canonicalize(a) =
    Canonicalize(ch)]. *)
Definition class_has (ic : bool) (items : list class_item) (c : N) : bool :=
  if ic
  then existsb (fun a => existsb (fun it => item_mem it a) items && (canon a =? canon c)%N)
         (candidates c)
  else existsb (fun it => item_mem it c) items.

Definition is_line_terminator (c : N) : bool :=
  (c =? 10)%N || (c =? 13)%N || (c =? 0x2028)%N || (c =? 0x2029)%N.

Definition char_eq (ic : bool) (a c : N) : bool :=
  if ic then (canon a =? canon c)%N else (a =? c)%N.

(** ** States and the matcher *)

Record state : Type := mkState { pos : nat; caps : gmap nat (nat * nat) }.

Definition advance (x : state) : state := mkState (S (pos x)) (caps x).

(** [RepeatMatcher] (§22.2.2.3.1) with [fuel] iterations at most; [mr] is
    the matcher of the repeated atom, [grp] its groups, reset before each
    iteration. *)
Fixpoint rep_go (mr : state -> list state) (grp : list nat) (fuel mn : nat) (mx : option nat)
    (greedy : bool) (x : state) : list state :=
  match fuel with
  | O => []
  | S fuel' =>
      if bool_decide (mx = Some 0) then [x] else
      let xr := mkState (pos x) (foldr delete (caps x) grp) in
      let tries := flat_map (fun y =>
                      if (mn =? 0)%nat && (pos y =? pos x)%nat then []
                      else rep_go mr grp fuel' (pred mn) (pred <$> mx) greedy y) (mr xr) in
      if negb (mn =? 0)%nat then tries
      else if greedy then tries ++ [x] else x :: tries
  end.

Section Matcher.
Variable ic : bool.          (** the [i] flag *)
Variable input : jstr.

Definition at_word (i : nat) : bool :=
  match input !! i with Some c => is_word_char c | None => false end.

(** The iterations a repetition may need from position [p]. *)
Definition rep_fuel (mn p : nat) : nat := mn + (length input - p) + 1.

Fixpoint m (r : regex) (x : state) : list state :=
  match r with
  | Empty => [x]
  | Char c =>
      match input !! pos x with
      | Some d => if char_eq ic c d then [advance x] else []
      | None => []
      end
  | Dot =>
      match input !! pos x with
      | Some d => if is_line_terminator d then [] else [advance x]
      | None => []
      end
  | Class neg items =>
      match input !! pos x with
      | Some d => if xorb neg (class_has ic items d) then [advance x] else []
      | None => []
      end
  | Seq r1 r2 => flat_map (m r2) (m r1 x)
  | Alt r1 r2 => m r1 x ++ m r2 x
  | Repeat r1 mn mx greedy =>
      rep_go (m r1) (groups r1) (rep_fuel mn (pos x)) mn mx greedy x
  | Group n r1 =>
      map (fun y => mkState (pos y) (<[n := (pos x, pos y)]> (caps y))) (m r1 x)
  | Look r1 =>
      match m r1 x with
      | y :: _ => [mkState (pos x) (caps y)]
      | [] => []
      end
  | Bol => if (pos x =? 0)%nat then [x] else []
  | Eol => if (pos x =? length input)%nat then [x] else []
  | WordB =>
      if xorb (match pos x with O => false | S i => at_word i end) (at_word (pos x))
      then [x] else []
  end.

(** The match attempt at one index: the first result. *)
Definition match_at (r : regex) (i : nat) : option state :=
  head (m r (mkState i ∅)).

(** [RegExpBuiltinExec] (§22.2.7.2): the first index from [i] where the
    pattern matches, with the end state. *)
Fixpoint search (r : regex) (fuel i : nat) : option (nat * state) :=
  match fuel with
  | O => None
  | S fuel' =>
      match match_at r i with
      | Some y => Some (i, y)
      | None => if (i <? length input)%nat then search r fuel' (S i) else None
      end
  end.

Definition exec_from (r : regex) (i : nat) : option (nat * state) :=
  if (length input <? i)%nat then None else search r (S (length input - i)) i.

(** The text between two indices. *)
Definition substr (i j : nat) : jstr := take (j - i) (drop i input).

(** [String.prototype.match] without [g]: [match[0]] and the groups
    [1..n] ([None] is [undefined]). *)
Definition str_match (r : regex) (ngroups : nat) : option (jstr * list (option jstr)) :=
  match exec_from r 0 with
  | Some (i, y) =>
      Some (substr i (pos y),
            map (fun k => (fun '(a, b) => substr a b) <$> caps y !! k) (seq 1 ngroups))
  | None => None
  end.

(** [RegExp.prototype.test] *)
Definition test (r : regex) : bool := match exec_from r 0 with Some _ => true | None => false end.

(** [String.prototype.match] with [g] (§22.2.6.8): every match, the next
    search starting at the end of the last one, one further after an
    empty match.  [None] is [null], when nothing matches. *)
Fixpoint match_all_go (r : regex) (fuel lastIndex : nat) : list jstr :=
  match fuel with
  | O => []
  | S fuel' =>
      match exec_from r lastIndex with
      | Some (i, y) =>
          substr i (pos y) ::
          match_all_go r fuel' (if (pos y =? i)%nat then S (pos y) else pos y)
      | None => []
      end
  end.

Definition match_all (r : regex) : option (list jstr) :=
  match match_all_go r (S (S (length input))) 0 with [] => None | l => Some l end.

(** [String.prototype.replace] with a non-global pattern and a
    replacement without [$]. *)
Definition replace_re (r : regex) (rep : jstr) : jstr :=
  match exec_from r 0 with
  | Some (i, y) => take i input ++ rep ++ drop (pos y) input
  | None => input
  end.

(** [RegExp.prototype[@@split]] (§22.2.6.14) for a pattern without
    groups: the sticky match at each [q], a piece cut at each match that
    does not end at the previous cut. *)
Fixpoint split_re_go (r : regex) (fuel p q : nat) : list jstr :=
  match fuel with
  | O => [substr p (length input)]
  | S fuel' =>
      if (q <? length input)%nat then
        match match_at r q with
        | Some y =>
            if (pos y =? p)%nat then split_re_go r fuel' p (S q)
            else substr p q :: split_re_go r fuel' (pos y) (pos y)
        | None => split_re_go r fuel' p (S q)
        end
      else [substr p (length input)]
  end.

Definition split_re (r : regex) : list jstr :=
  match input with
  | [] => match match_at r 0 with Some _ => [] | None => [[]] end
  | _ => split_re_go r (2 * length input + 2) 0 0
  end.
End Matcher.

(** ** The repetition loop: bounds and fuel *)

Section RepGo.
Variable len : nat.
Variable mr : state -> list state.
(** The atom ends at or after its start, inside the input. *)
Hypothesis Hmr : forall x y, pos x <= len -> In y (mr x) -> pos x <= pos y <= len.

Lemma rep_go_bounds grp fuel mn mx greedy x y :
  pos x <= len -> In y (rep_go mr grp fuel mn mx greedy x) -> pos x <= pos y <= len.
Proof.
  revert mn mx x y. induction fuel as [|fuel IH]; intros mn mx x y Hx Hy; [done|].
  simpl in Hy. destruct (bool_decide (mx = Some 0)); [destruct Hy as [<-|[]]; lia|].
  assert (Htries : forall z, In z (flat_map (fun y =>
            if (mn =? 0)%nat && (pos y =? pos x)%nat then []
            else rep_go mr grp fuel (pred mn) (pred <$> mx) greedy y)
            (mr (mkState (pos x) (foldr delete (caps x) grp)))) -> pos x <= pos z <= len).
  { intros z (w & Hw & Hz)%in_flat_map.
    pose proof (Hmr (mkState (pos x) (foldr delete (caps x) grp)) w Hx Hw) as Hb. simpl in Hb.
    destruct (_ && _); [done|]. pose proof (IH _ _ _ _ (proj2 Hb) Hz). lia. }
  destruct (negb _); [by apply Htries|].
  destruct greedy; [apply in_app_or in Hy as [Hy|[<-|[]]]|destruct Hy as [<-|Hy]];
    (by apply Htries) || lia.
Qed.

(** [rep_fuel] iterations are enough: more fuel gives the same results. *)
Lemma rep_go_fuel grp fuel fuel' mn mx greedy x :
  pos x <= len -> mn + (len - pos x) + 1 <= fuel -> fuel <= fuel' ->
  rep_go mr grp fuel mn mx greedy x = rep_go mr grp fuel' mn mx greedy x.
Proof.
  revert fuel' mn mx x. induction fuel as [|fuel IH]; intros fuel' mn mx x Hx Hf Hf'; [lia|].
  destruct fuel' as [|fuel']; [lia|]. cbn [rep_go].
  destruct (bool_decide _); [done|].
  erewrite (flat_map_ext_in _ (fun y => if (mn =? 0)%nat && (pos y =? pos x)%nat then []
             else rep_go mr grp fuel' (pred mn) (pred <$> mx) greedy y)); [done|].
  intros y Hy. pose proof (Hmr (mkState (pos x) (foldr delete (caps x) grp)) y Hx Hy) as Hb.
  simpl in Hb. destruct (mn =? 0)%nat eqn:Em, (pos y =? pos x)%nat eqn:Ep; simpl; try done;
    apply IH; try lia; apply Nat.eqb_neq in Ep || apply Nat.eqb_neq in Em; lia.
Qed.
End RepGo.

(** ** Soundness of positions and termination of repetition *)

Lemma m_bounds ic input r x y :
  pos x <= length input -> In y (m ic input r x) -> pos x <= pos y <= length input.
Proof.
  revert x y. induction r as [| c | | neg items | r1 IH1 r2 IH2 | r1 IH1 r2 IH2
    | r1 IH1 mn mx greedy | n r1 IH1 | r1 IH1 | | | ]; intros x y Hx Hy; simpl in Hy.
  - destruct Hy as [<-|[]]; lia.
  - destruct (input !! pos x) as [d|] eqn:E; [|done].
    apply lookup_lt_Some in E. destruct (char_eq _ _ _); [|done].
    destruct Hy as [<-|[]]. simpl. lia.
  - destruct (input !! pos x) as [d|] eqn:E; [|done].
    apply lookup_lt_Some in E. destruct (is_line_terminator _); [done|].
    destruct Hy as [<-|[]]. simpl. lia.
  - destruct (input !! pos x) as [d|] eqn:E; [|done].
    apply lookup_lt_Some in E. destruct (xorb _ _); [|done].
    destruct Hy as [<-|[]]. simpl. lia.
  - apply in_flat_map in Hy as (z & Hz & Hy).
    pose proof (IH1 _ _ Hx Hz). pose proof (IH2 z y ltac:(lia) Hy). lia.
  - apply in_app_or in Hy as [Hy|Hy]; [by apply IH1|by apply IH2].
  - eapply rep_go_bounds; [|exact Hx|exact Hy]. intros; by apply IH1.
  - apply in_map_iff in Hy as (z & <- & Hz). simpl. by apply IH1.
  - destruct (m ic input r1 x); [done|]. destruct Hy as [<-|[]]. simpl. lia.
  - destruct (pos x =? 0)%nat; [destruct Hy as [<-|[]]; lia|done].
  - destruct (pos x =? length input)%nat; [destruct Hy as [<-|[]]; lia|done].
  - destruct (xorb _ _); [destruct Hy as [<-|[]]; lia|done].
Qed.

(** The repetition loop terminates within its fuel.  The loop of
    [RepeatMatcher] stops after [min + (length input - pos) + 1]
    iterations; running it with any larger bound gives the same list of
    results.  So the bounded loop computes the unbounded one. *)
Theorem m_repeat_fuel_enough ic input r mn mx greedy x fuel :
  pos x <= length input -> rep_fuel input mn (pos x) <= fuel ->
  m ic input (Repeat r mn mx greedy) x = rep_go (m ic input r) (groups r) fuel mn mx greedy x.
Proof.
  intros Hx Hf. simpl. unfold rep_fuel in *. apply (rep_go_fuel (length input)); [|done|lia|done].
  intros; by eapply m_bounds.
Qed.

(** The check over every code unit: each one is among the candidates of
    its own canonical image. *)
Definition candidates_of_image (u : N) : list N :=
  u :: lower_unit u ++ (if (u =? 0x39C)%N then [0xB5%N] else []).

Definition covered (a : N) : bool :=
  existsb (N.eqb a) (candidates_of_image (canon a)) &&
  forallb (fun b => (b <? 65536)%N) (candidates_of_image (canon a)).

Fixpoint covered_from (n : nat) (a : N) : bool :=
  match n with O => true | S n' => covered a && covered_from n' (a + 1)%N end.

Lemma all_units_covered : covered_from (N.to_nat 65536) 0 = true.
Proof. vm_compute. reflexivity. Qed.

Lemma covered_from_spec n a0 a :
  covered_from n a0 = true -> (a0 <= a < a0 + N.of_nat n)%N -> covered a = true.
Proof.
  revert a0. induction n as [|n IH]; intros a0 H Ha; [lia|].
  simpl in H. apply andb_true_iff in H as [Hc Hr].
  destruct (N.eq_dec a a0) as [->|Hne]; [done|]. apply (IH (a0 + 1)%N); [done|lia].
Qed.

Lemma covered_unit a : (a < 65536)%N -> covered a = true.
Proof. intros Ha. apply (covered_from_spec _ 0 a all_units_covered). simpl. lia. Qed.

Lemma candidates_image c : candidates c = c :: candidates_of_image (canon c).
Proof. reflexivity. Qed.

(** Every code unit with the canonical image of [c] is a candidate of
    [c], and the candidates of a code unit are code units. *)
Lemma candidates_complete a c :
  (a < 65536)%N -> canon a = canon c -> In a (candidates c).
Proof.
  intros Ha Hac. pose proof (covered_unit a Ha) as [H _]%andb_true_iff.
  apply existsb_exists in H as (b & Hb & ->%N.eqb_eq).
  rewrite candidates_image, <- Hac. by right.
Qed.

Lemma candidates_bounded c b : (c < 65536)%N -> In b (candidates c) -> (b < 65536)%N.
Proof.
  intros Hc Hb. rewrite candidates_image in Hb. destruct Hb as [<-|Hb]; [done|].
  pose proof (covered_unit c Hc) as [_ H]%andb_true_iff.
  rewrite forallb_forall in H. by apply N.ltb_lt, H.
Qed.

(** With the [i] flag a class matches a code unit exactly when one of
    its members has the same [Canonicalize] image (§22.2.2.7.3,
    [CharacterSetMatcher]); the finite candidate list decides it. *)
Theorem class_has_ci items c :
  (c < 65536)%N ->
  class_has true items c = true <->
  exists a, (a < 65536)%N /\ existsb (fun it => item_mem it a) items = true /\ canon a = canon c.
Proof.
  intros Hc. unfold class_has. rewrite existsb_exists. split.
  - intros (a & Ha & [Hm Heq%N.eqb_eq]%andb_true_iff).
    exists a. split_and!; [by eapply candidates_bounded|done|done].
  - intros (a & Ha & Hm & Heq). exists a. split; [by apply candidates_complete|].
    by rewrite Hm, Heq, N.eqb_refl.
Qed.

(** ** Splitting on a one-character class *)

(** The reference: cut at every code unit that satisfies [p]. *)
Fixpoint split_on (p : N -> bool) (s : jstr) : list jstr :=
  match s with
  | [] => [[]]
  | c :: s' =>
      if p c then [] :: split_on p s'
      else match split_on p s' with
           | w :: ws => (c :: w) :: ws
           | [] => [[c]]
           end
  end.

Definition prepend (w : jstr) (l : list jstr) : list jstr :=
  match l with [] => [w] | x :: xs => (w ++ x) :: xs end.

Lemma split_on_ext p q s : (forall c, p c = q c) -> split_on p s = split_on q s.
Proof. intros H. induction s as [|c s IH]; simpl; [done|]. by rewrite H, IH. Qed.

Lemma split_on_cons_false p c s : p c = false -> split_on p (c :: s) = prepend [c] (split_on p s).
Proof. simpl. intros ->. by destruct (split_on p s). Qed.

Lemma split_on_nonempty p s : split_on p s <> [].
Proof. destruct s as [|c s]; simpl; [done|]. destruct (p c); [done|]. by destruct (split_on p s). Qed.

Lemma prepend_nil l : l <> [] -> prepend [] l = l.
Proof. by destruct l. Qed.

Lemma prepend_app w1 w2 l : prepend (w1 ++ w2) l = prepend w1 (prepend w2 l).
Proof. destruct l; simpl; by rewrite ?app_nil_r, ?app_assoc. Qed.

Lemma substr_snoc input p q d :
  p <= q -> input !! q = Some d -> substr input p (S q) = substr input p q ++ [d].
Proof.
  intros Hpq Hd. unfold substr. replace (S q - p) with (S (q - p)) by lia.
  apply take_S_r. rewrite lookup_drop. by replace (p + (q - p)) with q by lia.
Qed.

Lemma match_at_class ic input neg items q :
  match_at ic input (Class neg items) q =
  match input !! q with
  | Some d => if xorb neg (class_has ic items d) then Some (mkState (S q) ∅) else None
  | None => None
  end.
Proof. unfold match_at. simpl. destruct (input !! q); [|done]. by destruct (xorb _ _). Qed.

Lemma split_re_go_class ic input items fuel p q :
  p <= q <= length input -> length input - q + 1 <= fuel ->
  split_re_go ic input (Class false items) fuel p q =
  prepend (substr input p q) (split_on (class_has ic items) (drop q input)).
Proof.
  revert p q. induction fuel as [|fuel IH]; intros p q Hpq Hf; [lia|]. cbn [split_re_go].
  destruct (q <? length input)%nat eqn:Eq.
  - apply Nat.ltb_lt in Eq. destruct (lookup_lt_is_Some_2 input q Eq) as [d Hd].
    rewrite match_at_class, Hd, (drop_S _ d) by done. cbn [xorb].
    destruct (class_has ic items d) eqn:Ec; cbn [pos].
    + destruct (Nat.eqb_spec (S q) p); [lia|]. cbn [split_on]. rewrite Ec, IH by lia.
      unfold substr at 2. rewrite Nat.sub_diag, take_0, prepend_nil; [simpl; by rewrite app_nil_r|].
      apply split_on_nonempty.
    + rewrite split_on_cons_false, IH by (done || lia).
      by rewrite (substr_snoc _ _ _ d), prepend_app by (done || lia).
  - apply Nat.ltb_ge in Eq. replace q with (length input) by lia.
    rewrite drop_all. simpl. by rewrite app_nil_r.
Qed.

(** [s.split(/[...]/)] with a one-character class is the plain split
    at each code unit of the class: the pieces between consecutive
    separators, in order, empty pieces included. *)
Theorem split_re_class ic input items :
  split_re ic input (Class false items) = split_on (class_has ic items) input.
Proof.
  unfold split_re. destruct input as [|c s] eqn:Ei.
  - by rewrite match_at_class.
  - rewrite <- Ei. rewrite split_re_go_class by (subst; simpl; lia).
    unfold substr. by rewrite drop_0, prepend_nil by apply split_on_nonempty.
Qed.

(** ** Literals *)

(** [w] is at the start of [s], compared as the matcher compares. *)
Fixpoint prefix_eq (ic : bool) (w s : jstr) : bool :=
  match w, s with
  | [], _ => true
  | c :: w', d :: s' => char_eq ic c d && prefix_eq ic w' s'
  | _ :: _, [] => false
  end.

Lemma m_seq ic input r1 r2 x : m ic input (Seq r1 r2) x = flat_map (m ic input r2) (m ic input r1 x).
Proof. reflexivity. Qed.

Lemma m_char ic input c x :
  m ic input (Char c) x =
  match drop (pos x) input with
  | d :: _ => if char_eq ic c d then [mkState (pos x + 1) (caps x)] else []
  | [] => [] end.
Proof.
  simpl. rewrite <- (Nat.add_0_r (pos x)), <- lookup_drop, Nat.add_0_r.
  destruct (drop (pos x) input); [done|]. simpl. unfold advance. by rewrite Nat.add_1_r.
Qed.

Lemma m_lit ic input w x :
  m ic input (lit w) x =
  if prefix_eq ic w (drop (pos x) input) then [mkState (pos x + length w) (caps x)] else [].
Proof.
  revert x. induction w as [|c w IH]; intros x.
  - simpl. destruct x; simpl. by rewrite Nat.add_0_r.
  - destruct w as [|c' w'].
    + cbn [lit]. rewrite m_char. destruct (drop (pos x) input) as [|d s]; [done|].
      cbn [prefix_eq length]. rewrite andb_true_r. by destruct (char_eq ic c d).
    + change (lit (c :: c' :: w')) with (Seq (Char c) (lit (c' :: w'))).
      rewrite m_seq, m_char. destruct (drop (pos x) input) as [|d s] eqn:Ed; [done|].
      change (prefix_eq ic (c :: c' :: w') (d :: s))
        with (char_eq ic c d && prefix_eq ic (c' :: w') s).
      destruct (char_eq ic c d); [|done]. cbn [flat_map andb].
      rewrite app_nil_r, IH. simpl pos.
      assert (Hs : drop (pos x + 1) input = s) by (rewrite <- drop_drop, Ed; done).
      rewrite Hs. destruct (prefix_eq ic (c' :: w') s); [|done]. cbn [pos caps].
      by replace (pos x + 1 + length (c' :: w')) with (pos x + length (c :: c' :: w')) by (simpl; lia).
Qed.

(** ** A sequence ending in a lookahead that nothing satisfies *)

Lemma seqs_cons r r' rs : seqs (r :: r' :: rs) = Seq r (seqs (r' :: rs)).
Proof. reflexivity. Qed.

(** Every pattern moves forward from where it starts. *)
Lemma m_from ic input r x y i :
  i <= pos x <= length input -> In y (m ic input r x) -> i <= pos y <= length input.
Proof. intros Hx Hy. pose proof (m_bounds ic input r x y (proj2 Hx) Hy). lia. Qed.

(** If the lookahead [s] holds nowhere from [i] on, then [r1 ... rn (?=s)]
    matches nowhere from [i] on. *)
Lemma m_seq_look_never ic input s i :
  (forall z, i <= pos z -> m ic input s z = []) ->
  forall rs x, i <= pos x <= length input -> m ic input (seqs (rs ++ [Look s])) x = [].
Proof.
  intros Hs rs. induction rs as [|r rs IH]; intros x Hx.
  - simpl. rewrite (Hs x) by lia. done.
  - destruct rs as [|r' rs'].
    + simpl. apply flat_map_nil_in. intros y Hy. simpl.
      rewrite (Hs y) by (pose proof (m_from _ _ _ _ _ _ Hx Hy); lia). done.
    + rewrite <- !app_comm_cons, seqs_cons, m_seq. rewrite <- app_comm_cons in IH.
      apply flat_map_nil_in. intros y Hy. apply IH.
      exact (m_from ic input r x y i Hx Hy).
Qed.

(** ** Where nothing matches *)


(** [w] occurs in [input] at some index, compared as the matcher does. *)
Definition occurs (ic : bool) (w input : jstr) : bool :=
  existsb (fun q => prefix_eq ic w (drop q input)) (seq 0 (S (length input))).

Lemma prefix_eq_nil ic w : w <> [] -> prefix_eq ic w [] = false.
Proof. by destruct w. Qed.

Lemma m_lit_never ic input w :
  w <> [] -> occurs ic w input = false -> forall z, m ic input (lit w) z = [].
Proof.
  intros Hw Ho z. rewrite m_lit.
  destruct (le_lt_dec (pos z) (length input)) as [Hz|Hz].
  - destruct (prefix_eq ic w (drop (pos z) input)) eqn:E; [|done].
    exfalso. assert (Hin : occurs ic w input = true); [|congruence].
    apply existsb_exists. exists (pos z). split; [apply in_seq; lia|done].
  - rewrite drop_ge by lia. by rewrite prefix_eq_nil.
Qed.

Lemma m_alts_never ic input ws :
  Forall (fun w => w <> [] /\ occurs ic w input = false) ws -> ws <> [] ->
  forall z, m ic input (alts (map lit ws)) z = [].
Proof.
  intros Hws. induction Hws as [|w ws [Hw Ho] Hws IH]; intros Hne z; [done|].
  destruct ws as [|w' ws'].
  - simpl. by apply m_lit_never.
  - change (alts (map lit (w :: w' :: ws'))) with (Alt (lit w) (alts (map lit (w' :: ws')))).
    simpl m. rewrite (m_lit_never _ _ w Hw Ho z), IH; done.
Qed.

Lemma search_none ic input r fuel i :
  i <= length input -> (forall j, i <= j <= length input -> match_at ic input r j = None) ->
  search ic input r fuel i = None.
Proof.
  revert i. induction fuel as [|fuel IH]; intros i Hi Hn; [done|]. simpl.
  rewrite Hn by lia. destruct (i <? length input)%nat eqn:E; [|done].
  apply Nat.ltb_lt in E. apply IH; [lia|]. intros j Hj. apply Hn. lia.
Qed.

(** No match at any index: [match] gives [null]. *)
Lemma str_match_none ic input r n :
  (forall j, j <= length input -> match_at ic input r j = None) -> str_match ic input r n = None.
Proof.
  intros Hn. unfold str_match, exec_from. rewrite search_none; [|lia|intros j Hj; apply Hn; lia].
  by destruct (length input <? 0)%nat.
Qed.

(** A pattern [r1 ... rn (?=s)] where [s] holds nowhere never matches. *)
Lemma str_match_look_never ic input rs s n :
  (forall z, m ic input s z = []) -> str_match ic input (seqs (rs ++ [Look s])) n = None.
Proof.
  intros Hs. apply str_match_none. intros j Hj. unfold match_at.
  rewrite (m_seq_look_never ic input s 0); [done|intros z _; apply Hs|simpl; lia].
Qed.
