(* ===== verification/Types.v ===== *)
(** * The data model of [src/src/types/index.ts]

    Each TypeScript interface is a record in a Module of its own, so that the
    field names stay those of the source ([Project.skills] and
    [ResumeData.skills] are different fields).  An optional field [f?: T] is
    an [option T].  A [File] of the browser is its name, MIME type and size.
    [Project.id] is the identifier drawn from the [uuidv4] supply of
    [Prelude]. *)

From S2P Require Import Prelude JsString.

Module Education.
Record t : Type := mk {
  institution : jstr;
  degree : jstr;
  field : jstr;
  startDate : option jstr;
  endDate : option jstr
}.
End Education.

Module WorkExperience.
Record t : Type := mk {
  company : jstr;
  position : jstr;
  startDate : option jstr;
  endDate : option jstr;
  description : option jstr
}.
End WorkExperience.

Module Contact.
Record t : Type := mk {
  email : option jstr;
  phone : option jstr;
  location : option jstr;
  linkedin : option jstr;
  website : option jstr
}.
Definition empty : t := mk None None None None None.
End Contact.

(** The browser's [File] object, as far as the program reads it. *)
Module File.
Record t : Type := mk { name : jstr; type : jstr; size : N }.
End File.

Module ResumeData.
Record t : Type := mk {
  name : option jstr;
  contact : Contact.t;
  summary : option jstr;
  education : list Education.t;
  experience : list WorkExperience.t;
  skills : list jstr;
  loading : bool;
  error : option jstr;
  file : option File.t
}.
End ResumeData.

Module Publication.
Record t : Type := mk {
  title : jstr;
  authors : jstr;
  journal : option jstr;
  year : option jstr;
  citations : option num;
  url : option jstr
}.
End Publication.

Module Citations.
Record t : Type := mk {
  total : num;
  h_index : option num;
  i10_index : option num
}.
End Citations.

Module ScholarData.
Record t : Type := mk {
  name : option jstr;
  profileUrl : jstr;
  publications : list Publication.t;
  citations : option Citations.t;
  interests : list jstr;
  loading : bool;
  error : option jstr
}.
End ScholarData.

(** [difficulty: 'Beginner' | 'Intermediate' | 'Advanced'] *)
Inductive Difficulty : Type := Beginner | Intermediate | Advanced.

#[export] Instance Difficulty_eq_dec : EqDecision Difficulty.
Proof. solve_decision. Defined.

Module Project.
Record t : Type := mk {
  id : nat;
  title : jstr;
  description : jstr;
  category : jstr;
  skills : list jstr;
  relatedPublications : option (list Publication.t);
  difficulty : Difficulty
}.
End Project.

Module ProjectsState.
Record t : Type := mk {
  suggestions : list Project.t;
  loading : bool;
  error : option jstr
}.
End ProjectsState.
