(* ===== verification/Http.v ===== *)
(** * The HTTP response object of the API routes ([NextApiResponse])

    The handlers and the rate limiter write into one shared response object:
    [res.setHeader], [res.status(c)] and [res.json(body)].  The body is a
    JSON value.  Node's response can be sent once; a second [json], or a
    header set after sending, throws [ERR_HTTP_HEADERS_SENT].  The model
    records that throw in [res_crashed].  [res_body] is what the client
    received: the status code at the time of sending, and the first body. *)

From S2P Require Import Prelude JsString.

(** JSON values, as [JSON.stringify] sees the JavaScript values. *)
#[warnings="-register-all"]
Inductive json : Type :=
| JNull
| JBool (b : bool)
| JNum (n : num)
| JStr (s : jstr)
| JArr (l : list json)
| JObj (fields : list (jstr * json)).

(** [JSON.stringify] of a number: NaN and the infinities are [null]. *)
Definition num_to_json (n : num) : json :=
  match n with NFin z => JNum (NFin z) | _ => JNull end.

(** A property whose value is [undefined] is left out of the object. *)
Definition opt_field (k : jstr) (v : option json) : list (jstr * json) :=
  match v with Some j => [(k, j)] | None => [] end.

Record Response : Type := mkResponse {
  res_status : N;
  res_headers : list (jstr * json);
  res_body : option (N * json);
  res_crashed : bool
}.

(** A fresh response: status 200, nothing sent. *)
Definition fresh_response : Response := mkResponse 200 [] None false.

Definition res_sent (r : Response) : bool :=
  match res_body r with Some _ => true | None => false end.

(** [res.status(code)]: only sets the status code. *)
Definition res_set_status (r : Response) (code : N) : Response :=
  mkResponse code (res_headers r) (res_body r) (res_crashed r).

(** [res.setHeader(k, v)]: throws once the response is sent. *)
Definition res_setHeader (r : Response) (k : jstr) (v : json) : Response :=
  if res_sent r then mkResponse (res_status r) (res_headers r) (res_body r) true
  else mkResponse (res_status r) (res_headers r ++ [(k, v)]) (res_body r) (res_crashed r).

(** [res.json(body)]: sends, or throws when already sent. *)
Definition res_json (r : Response) (body : json) : Response :=
  if res_sent r then mkResponse (res_status r) (res_headers r) (res_body r) true
  else mkResponse (res_status r) (res_headers r) (Some (res_status r, body)) (res_crashed r).

(** [res.status(code).json(body)]: [status] does not check whether the
    response was sent, so a late call still changes the recorded code. *)
Definition res_status_json (r : Response) (code : N) (body : json) : Response :=
  res_json (res_set_status r code) body.

(** An error body [{ error: msg }]. *)
Definition err_body (msg : jstr) : json := JObj [(js "error", JStr msg)].

Lemma res_json_sent r b : res_sent r = true -> res_body (res_json r b) = res_body r.
Proof. unfold res_json. intros ->. done. Qed.

Lemma res_status_json_fresh r code b :
  res_sent r = false -> res_status_json r code b =
    mkResponse code (res_headers r) (Some (code, b)) (res_crashed r).
Proof. unfold res_status_json, res_json, res_set_status, res_sent. simpl. by intros ->. Qed.

(** [res.status(code).json(body)] on a sent response throws; the client
    keeps the first answer. *)
Lemma res_status_json_resent r code b v :
  res_body r = Some v ->
  res_body (res_status_json r code b) = Some v /\ res_crashed (res_status_json r code b) = true.
Proof. unfold res_status_json, res_json, res_set_status, res_sent. simpl. by intros ->. Qed.
