(* ===== verification/RateLimit.v ===== *)
(** * The rate limiter of [src/src/utils/rateLimit.ts]

    [rateLimit(options)] builds an LRU cache from tokens to arrays of
    numbers.  The cache has [max = uniqueTokenPerInterval] entries and
    [ttl = interval].  Its [check(res, limit, token)] reads the cached array
    (or a fresh [[0]]) and caches a fresh array.  It then increments
    [tokenCount[0]] in place, sets two headers, and answers 429 beyond the
    limit.

    The cached value is a reference.  The increment of line 24 mutates the
    array the cache holds, and the cache is never written again while the
    entry lives.  The model therefore has a heap of arrays ([gmap nat
    (list Z)], addresses allocated in order), and the cache maps a token to
    an address and the time the entry was set.  The cache follows the
    library's documented semantics (lru-cache 7+, [get] and [set] with [max]
    and [ttl]): an entry is stale when [now - start > ttl] (and [start] is
    not 0).  A stale entry is deleted by [get], [get] moves a live entry to
    the most recently used position, and [set] of a new key evicts the least
    recently used entry when the cache is full.

    [FixedWindow] is the abstract specification: a counter of the requests
    since the window opened, where a window opens at the first request after
    the previous one expired.  [check_refines_window] is a simulation from
    the implementation to it. *)

From S2P Require Import Prelude JsString Http.

Module LRU.
Record Entry : Type := mkEntry { loc : nat; start : Z }.

(** Entries, most recently used first. *)
Record t : Type := mk { entries : list (jstr * Entry); max : nat; ttl : Z }.

Definition is_stale (c : t) (now : Z) (e : Entry) : bool :=
  negb (start e =? 0)%Z && (ttl c <? now - start e)%Z.

Definition find (c : t) (k : jstr) : option Entry :=
  snd <$> List.find (fun kv => fst kv =s? k) (entries c).

Definition remove (c : t) (k : jstr) : t :=
  mk (List.filter (fun kv => negb (fst kv =s? k)) (entries c)) (max c) (ttl c).

(** [cache.get(k)]. *)
Definition get (c : t) (now : Z) (k : jstr) : option nat * t :=
  match find c k with
  | None => (None, c)
  | Some e =>
      if is_stale c now e then (None, remove c k)
      else (Some (loc e), mk ((k, e) :: entries (remove c k)) (max c) (ttl c))
  end.

(** [cache.set(k, v)]: replace and refresh, or insert and evict the least
    recently used entry when the cache is full. *)
Definition set (c : t) (now : Z) (k : jstr) (v : nat) : t :=
  let e := mkEntry v now in
  match find c k with
  | Some _ => mk ((k, e) :: entries (remove c k)) (max c) (ttl c)
  | None =>
      let kept := if (max c <=? length (entries c))%nat
                  then removelast (entries c) else entries c in
      mk ((k, e) :: kept) (max c) (ttl c)
  end.
End LRU.

(** The limiter's state: its cache and the heap of arrays. *)
Record Limiter : Type := mkLimiter {
  cache : LRU.t;
  heap : gmap nat (list Z);
  next_loc : nat
}.

(** [rateLimit(options)] (lines 9–13): an empty cache. *)
Definition rateLimit (interval : Z) (uniqueTokenPerInterval : nat) : Limiter :=
  mkLimiter (LRU.mk [] (if (uniqueTokenPerInterval =? 0)%nat then 500 else uniqueTokenPerInterval)
                    (if (interval =? 0)%Z then 60000 else interval))
            ∅ 0.

(** The outcome of the promise of [check]: resolved, or rejected with
    [Error('Rate limit exceeded')]. *)
Inductive CheckResult : Type := Resolved | RejectedRateLimit.

Definition arr_get0 (a : list Z) : Z := match a with x :: _ => x | [] => 0%Z end.

(** [check(res, limit, token)] (lines 16–38) at time [now]. *)
Definition check (st : Limiter) (now : Z) (res : Response) (limit : Z) (token : jstr)
    : CheckResult * Limiter * Response :=
  (* const tokenCount = tokenCache.get(token) || [0]; *)
  let '(got, c1) := LRU.get (cache st) now token in
  let '(loc, h1, next1) :=
    match got with
    | Some l => (l, heap st, next_loc st)
    | None => (next_loc st, <[next_loc st := [0%Z]]> (heap st), S (next_loc st))
    end in
  let tokenCount := default [] (h1 !! loc) in
  (* if (tokenCount[0] === 0) tokenCache.set(token, tokenCount); *)
  let c2 := if (arr_get0 tokenCount =? 0)%Z then LRU.set c1 now token loc else c1 in
  (* tokenCount[0] += 1;  (the cached array itself) *)
  let currentUsage := (arr_get0 tokenCount + 1)%Z in
  let h2 := <[loc := <[0 := currentUsage]> tokenCount]> h1 in
  let isRateLimited := (limit <? currentUsage)%Z in
  let res1 := res_setHeader res (js "X-RateLimit-Limit") (JNum (NFin limit)) in
  let res2 := res_setHeader res1 (js "X-RateLimit-Remaining")
                (JNum (NFin (if isRateLimited then 0 else limit - currentUsage)%Z)) in
  let st' := mkLimiter c2 h2 next1 in
  if isRateLimited
  then (RejectedRateLimit, st', res_status_json res2 429 (err_body (js "Rate limit exceeded")))
  else (Resolved, st', res2).

(** ** The abstract specification: a fixed-window counter

    The state is the start of the current window and the number of
    requests counted in it.  A request after [ttl] opens a new window. *)
Module FixedWindow.
Definition state := option (Z * Z).

Definition step (ttl limit : Z) (w : state) (now : Z) : CheckResult * state :=
  let '(s, n) :=
    match w with
    | Some (s, n) => if (ttl <? now - s)%Z then (now, 1%Z) else (s, n + 1)%Z
    | None => (now, 1%Z)
    end in
  (if (limit <? n)%Z then RejectedRateLimit else Resolved, Some (s, n)).
End FixedWindow.

(** ** Lemmas on the cache *)

Lemma LRU_find_remove c k : LRU.find (LRU.remove c k) k = None.
Proof.
  unfold LRU.find, LRU.remove. simpl.
  induction (LRU.entries c) as [|[k' e] l IH]; [done|]. simpl.
  destruct (k' =s? k) eqn:E; simpl; [done|]. by rewrite E.
Qed.

Lemma LRU_find_cons c k e l : LRU.find (LRU.mk ((k, e) :: l) (LRU.max c) (LRU.ttl c)) k = Some e.
Proof. unfold LRU.find. simpl. by rewrite jstr_eqb_refl. Qed.

Lemma LRU_find_set c now k v : LRU.find (LRU.set c now k v) k = Some (LRU.mkEntry v now).
Proof. unfold LRU.set. destruct (LRU.find c k); apply LRU_find_cons. Qed.

Lemma LRU_ttl_set c now k v : LRU.ttl (LRU.set c now k v) = LRU.ttl c.
Proof. unfold LRU.set. by destruct (LRU.find c k). Qed.

Lemma LRU_get_spec c now k :
  LRU.get c now k =
  match LRU.find c k with
  | None => (None, c)
  | Some e => if LRU.is_stale c now e then (None, LRU.remove c k)
              else (Some (LRU.loc e), LRU.mk ((k, e) :: LRU.entries (LRU.remove c k)) (LRU.max c) (LRU.ttl c))
  end.
Proof. reflexivity. Qed.

(** ** The simulation relation for one token [k]

    The abstract window [None] is an absent entry.  A window [Some (s, n)]
    is a cached entry set at time [s] whose array, in the heap, is [[n]].
    Addresses from [next_loc] on are unallocated. *)
Definition sim (k : jstr) (st : Limiter) (w : FixedWindow.state) : Prop :=
  (forall l, (next_loc st <= l)%nat -> heap st !! l = None) /\
  match w with
  | None => LRU.find (cache st) k = None
  | Some (s, n) =>
      (0 < s)%Z /\ (1 <= n)%Z /\ exists l, (l < next_loc st)%nat /\
        LRU.find (cache st) k = Some (LRU.mkEntry l s) /\ heap st !! l = Some [n]
  end.

(** The allocation of a fresh array keeps the addresses above [next_loc]
    free. *)
Lemma alloc_free (h : gmap nat (list Z)) (n : nat) (v1 v2 : list Z) :
  (forall l, (n <= l)%nat -> h !! l = None) ->
  forall l, (S n <= l)%nat -> (<[n := v2]> (<[n := v1]> h)) !! l = None.
Proof. intros Hfree l Hl. rewrite !lookup_insert_ne by lia. apply Hfree. lia. Qed.

Ltac sim_fresh :=
  unfold sim; simpl; split; [by apply alloc_free|];
  split_and!; [lia|lia|];
  match goal with |- context [LRU.set _ _ _ ?n] => exists n end;
  split_and!; [lia|apply LRU_find_set|by rewrite lookup_insert_eq].

(** The simulation step: the cached entry is fresh, stale or absent. *)
Ltac check_sim :=
  let Hfree := fresh "Hfree" in let Hw := fresh "Hw" in let Hnow := fresh "Hnow" in
  intros [Hfree Hw] Hnow; unfold check; rewrite LRU_get_spec;
  match goal with
  | |- context [FixedWindow.step (LRU.ttl (cache ?st)) ?limit ?w ?now] =>
    destruct w as [[s n]|];
    [ destruct Hw as (Hs & Hn & l & Hl & Hfind & Hheap); rewrite Hfind;
      unfold LRU.is_stale; cbn [LRU.start];
      rewrite (proj2 (Z.eqb_neq s 0)) by lia; cbn [negb andb];
      destruct (LRU.ttl (cache st) <? now - s)%Z eqn:Est; simpl;
      [ rewrite lookup_insert_eq; simpl;
        unfold FixedWindow.step; rewrite Est, !Z.add_0_l;
        destruct (limit <? 1)%Z; simpl; (split; [done|]);
          (split; [sim_fresh|by rewrite LRU_ttl_set])
      | rewrite Hheap; simpl; rewrite (proj2 (Z.eqb_neq n 0)) by lia;
        unfold FixedWindow.step; rewrite Est;
        destruct (limit <? n + 1)%Z; simpl; (split; [done|]); (split; [|done]);
          unfold sim; simpl; (split; [intros l' Hl'; rewrite lookup_insert_ne by lia; by apply Hfree|]);
          (split_and!; [lia|lia|]);
          (exists l; split_and!; [lia|apply (LRU_find_cons (cache st))|by rewrite lookup_insert_eq]) ]
    | rewrite Hw; simpl; rewrite lookup_insert_eq; simpl;
      unfold FixedWindow.step; rewrite !Z.add_0_l;
      destruct (limit <? 1)%Z; simpl; (split; [done|]);
        (split; [sim_fresh|by rewrite LRU_ttl_set]) ]
  end.

(** C9: one [check] on token [k] is one step of the fixed-window counter:
    the same answer (resolve, or reject with 429), and the states stay
    related.  The count lives in the cached array, which the increment
    mutates in place; this is what makes the count grow. *)
Theorem check_refines_window (st : Limiter) (w : FixedWindow.state) (now : Z)
    (res : Response) (limit : Z) (k : jstr) :
  sim k st w -> (0 < now)%Z ->
  let '(r, st', _) := check st now res limit k in
  let '(r', w') := FixedWindow.step (LRU.ttl (cache st)) limit w now in
  r = r' /\ sim k st' w' /\ LRU.ttl (cache st') = LRU.ttl (cache st).
Proof. check_sim. Qed.

(** One [check] is one step of the window counter, for the runs below. *)
Lemma check_step_sim (st : Limiter) (w : FixedWindow.state) (now : Z)
    (res : Response) (limit : Z) (k : jstr) :
  sim k st w -> (0 < now)%Z ->
  let '(r, st', _) := check st now res limit k in
  let '(r', w') := FixedWindow.step (LRU.ttl (cache st)) limit w now in
  r = r' /\ sim k st' w' /\ LRU.ttl (cache st') = LRU.ttl (cache st).
Proof. check_sim. Qed.

(** ** Runs of requests on one token, each with its own response *)

(** What [check] does to the shared response: two headers, and on a
    rejection the 429 body.  A response not yet sent is not crashed by it. *)
Lemma check_response st now r limit k :
  res_sent r = false ->
  let '(v, _, r') := check st now r limit k in
  res_crashed r' = res_crashed r /\
  match v with
  | Resolved => res_body r' = None
  | RejectedRateLimit => res_body r' = Some (429%N, err_body (js "Rate limit exceeded"))
  end.
Proof.
  intros Hr. unfold check.
  destruct (LRU.get _ _ _) as [got c1]. destruct got as [l|];
    destruct (limit <? _)%Z; unfold res_setHeader, res_status_json, res_json, res_set_status;
    rewrite ?Hr; unfold res_sent in *; simpl; destruct (res_body r); done.
Qed.

Fixpoint run_checks (st : Limiter) (limit : Z) (k : jstr) (ts : list Z) : list CheckResult :=
  match ts with
  | [] => []
  | t :: ts' =>
      let '(r, st', _) := check st t fresh_response limit k in r :: run_checks st' limit k ts'
  end.

Fixpoint run_window (ttl limit : Z) (w : FixedWindow.state) (ts : list Z) : list CheckResult :=
  match ts with
  | [] => []
  | t :: ts' => let '(r, w') := FixedWindow.step ttl limit w t in r :: run_window ttl limit w' ts'
  end.

Lemma run_checks_refines st w limit k ts :
  sim k st w -> Forall (fun t => 0 < t)%Z ts ->
  run_checks st limit k ts = run_window (LRU.ttl (cache st)) limit w ts.
Proof.
  revert st w. induction ts as [|t ts IH]; intros st w Hsim Hts; [done|].
  inversion Hts as [|? ? Ht Hts']; subst. simpl.
  pose proof (check_step_sim st w t fresh_response limit k Hsim Ht) as Hstep.
  destruct (check st t fresh_response limit k) as [[r st'] res'].
  destruct (FixedWindow.step _ limit w t) as [r' w'].
  destruct Hstep as (-> & Hsim' & Httl). f_equal. rewrite <- Httl. by apply IH.
Qed.

Lemma sim_init interval max k : sim k (rateLimit interval max) None.
Proof. split; [intros l _; apply lookup_empty|reflexivity]. Qed.

(** Within the window opened at [t0] with [n] requests counted, the i-th
    next request is the (n+i)-th of the window. *)
Lemma run_window_inside ttl limit t0 n ts :
  Forall (fun t => t - t0 <= ttl)%Z ts ->
  run_window ttl limit (Some (t0, n)) ts =
  map (fun i => if (limit <? n + Z.of_nat i)%Z then RejectedRateLimit else Resolved)
      (seq 1 (length ts)).
Proof.
  revert n. induction ts as [|t ts IH]; intros n Hts; [done|].
  inversion Hts as [|? ? Ht Hts']; subst. cbn [run_window]. unfold FixedWindow.step.
  rewrite (proj2 (Z.ltb_ge ttl (t - t0))) by lia. cbn [seq map length].
  rewrite IH by done. f_equal. rewrite <- (seq_shift _ 1), map_map. apply map_ext. intros i.
  by replace (n + 1 + Z.of_nat i)%Z with (n + Z.of_nat (S i))%Z by lia.
Qed.


(** A burst inside the first window of a fresh limiter. *)
Lemma run_checks_burst (interval : Z) (max : nat) (limit : Z) (k : jstr)
    (t0 : Z) (ts : list Z) :
  (0 < interval)%Z -> (0 < t0)%Z -> Forall (fun t => t0 <= t <= t0 + interval)%Z ts ->
  run_checks (rateLimit interval max) limit k (t0 :: ts) =
  map (fun i => if (limit <? Z.of_nat i)%Z then RejectedRateLimit else Resolved)
      (seq 1 (S (length ts))).
Proof.
  intros Hi Ht0 Hts.
  assert (Hpos : Forall (fun t => 0 < t)%Z (t0 :: ts)).
  { constructor; [lia|]. eapply Forall_impl; [exact Hts|]. simpl. lia. }
  rewrite (run_checks_refines _ None _ _ _ (sim_init interval max k) Hpos).
  cbn [run_window]. unfold FixedWindow.step. cbn [seq map length].
  rewrite run_window_inside.
  - f_equal. rewrite <- (seq_shift _ 1), map_map. apply map_ext. intros i.
    by replace (1 + Z.of_nat i)%Z with (Z.of_nat (S i)) by lia.
  - eapply Forall_impl; [exact Hts|]. simpl. intros t Ht.
    destruct (interval =? 0)%Z eqn:E; lia.
Qed.

(** C10: a burst of requests inside one interval, starting on a fresh
    limiter: the i-th request (from 1) resolves exactly when i <= limit,
    and every later one is answered 429.  So at most [limit] requests pass
    per window. *)
Theorem rateLimit_window_exact (interval : Z) (max : nat) (limit : Z) (k : jstr)
    (t0 : Z) (ts : list Z) :
  (0 < interval)%Z -> (0 < t0)%Z -> Forall (fun t => t0 <= t <= t0 + interval)%Z ts ->
  run_checks (rateLimit interval max) limit k (t0 :: ts) =
  map (fun i => if (limit <? Z.of_nat i)%Z then RejectedRateLimit else Resolved)
      (seq 1 (S (length ts))).
Proof. apply run_checks_burst. Qed.

Lemma run_window_expired ttl limit t0 n ts t' :
  Forall (fun t => t - t0 <= ttl)%Z ts -> (ttl < t' - t0)%Z ->
  run_window ttl limit (Some (t0, n)) (ts ++ [t']) =
  run_window ttl limit (Some (t0, n)) ts ++ [if (limit <? 1)%Z then RejectedRateLimit else Resolved].
Proof.
  revert n. induction ts as [|t ts IH]; intros n Hts Ht'.
  - cbn [app run_window]. unfold FixedWindow.step.
    by rewrite (proj2 (Z.ltb_lt ttl (t' - t0))) by lia.
  - inversion Hts as [|? ? Ht Hts']; subst. cbn [app run_window]. unfold FixedWindow.step.
    rewrite (proj2 (Z.ltb_ge ttl (t - t0))) by lia. cbn. f_equal. by apply IH.
Qed.

(** C11: the window closes.  After a burst inside the interval, however
    many of its requests were refused, a request more than [interval] after
    the first one opens a new window and resolves (for [limit >= 1]). *)
Theorem rateLimit_resets (interval : Z) (max : nat) (limit : Z) (k : jstr)
    (t0 : Z) (ts : list Z) (t' : Z) :
  (0 < interval)%Z -> (0 < t0)%Z -> Forall (fun t => t0 <= t <= t0 + interval)%Z ts ->
  (t0 + interval < t')%Z -> (1 <= limit)%Z ->
  run_checks (rateLimit interval max) limit k (t0 :: ts ++ [t']) =
  run_checks (rateLimit interval max) limit k (t0 :: ts) ++ [Resolved].
Proof.
  intros Hi Ht0 Hts Ht' Hl.
  assert (Hpos : forall l, Forall (fun t => t0 <= t <= t0 + interval)%Z l ->
            Forall (fun t => 0 < t)%Z (t0 :: l)).
  { intros l Hl'. constructor; [lia|]. eapply Forall_impl; [exact Hl'|]. simpl. lia. }
  assert (Hin : Forall (fun t => t - t0 <= LRU.ttl (cache (rateLimit interval max)))%Z ts).
  { eapply Forall_impl; [exact Hts|]. simpl. intros t Ht. destruct (interval =? 0)%Z eqn:E; lia. }
  rewrite !(run_checks_refines _ None _ _ _ (sim_init interval max k)).
  - cbn [app run_window]. unfold FixedWindow.step. rewrite run_window_expired by
      (done || (simpl; destruct (interval =? 0)%Z eqn:E; lia)).
    by rewrite (proj2 (Z.ltb_ge limit 1)) by lia.
  - by apply Hpos.
  - constructor; [lia|]. apply Forall_app. split; [exact (Forall_inv_tail (Hpos ts Hts))|].
    constructor; [lia|constructor].
Qed.



(** ** Witnesses *)

Lemma check_refines_window_witness :
  sim (js "suggestions_api") (rateLimit 60000 10) None /\ (0 < 1)%Z /\
  let '(r, st', _) := check (rateLimit 60000 10) 1 fresh_response 5 (js "suggestions_api") in
  let '(r', w') := FixedWindow.step (LRU.ttl (cache (rateLimit 60000 10))) 5 None 1 in
  r = r' /\ sim (js "suggestions_api") st' w' /\
  LRU.ttl (cache st') = LRU.ttl (cache (rateLimit 60000 10)).
Proof.
  split; [apply sim_init|]. split; [lia|].
  apply check_refines_window; [apply sim_init|lia].
Defined.

Lemma rateLimit_window_exact_witness :
  (0 < 60000)%Z /\ (0 < 1)%Z /\ Forall (fun t => 1 <= t <= 1 + 60000)%Z [2; 3; 4; 5; 6; 7]%Z /\
  run_checks (rateLimit 60000 10) 5 (js "suggestions_api") [1; 2; 3; 4; 5; 6; 7]%Z =
  [Resolved; Resolved; Resolved; Resolved; Resolved; RejectedRateLimit; RejectedRateLimit].
Proof.
  assert (Hts : Forall (fun t => 1 <= t <= 1 + 60000)%Z [2; 3; 4; 5; 6; 7]%Z)
    by (repeat constructor; lia).
  split_and!; [lia|lia|exact Hts|].
  rewrite (rateLimit_window_exact 60000 10 5 (js "suggestions_api") 1 _ ltac:(lia) ltac:(lia) Hts).
  reflexivity.
Defined.

Lemma rateLimit_resets_witness :
  (0 < 60000)%Z /\ (0 < 1)%Z /\ Forall (fun t => 1 <= t <= 1 + 60000)%Z [2; 3; 4; 5; 6; 7]%Z /\
  (1 + 60000 < 60002)%Z /\ (1 <= 5)%Z /\
  run_checks (rateLimit 60000 10) 5 (js "suggestions_api") (1 :: [2; 3; 4; 5; 6; 7] ++ [60002])%Z =
  run_checks (rateLimit 60000 10) 5 (js "suggestions_api") [1; 2; 3; 4; 5; 6; 7]%Z ++ [Resolved].
Proof.
  assert (Hts : Forall (fun t => 1 <= t <= 1 + 60000)%Z [2; 3; 4; 5; 6; 7]%Z)
    by (repeat constructor; lia).
  split_and!; [lia|lia|exact Hts|lia|lia|].
  apply rateLimit_resets; [lia|lia|exact Hts|lia|lia].
Defined.
