(* ===== verification/Recommend.v ===== *)
(** * The recommendation strategies of [src/src/pages/api/generate-suggestions.ts]

    The TypeScript interface [RecommendationStrategy] (lines 14–16) is the
    class [RecommendationStrategy] below.  Its three implementations are
    [SkillsBasedStrategy] (lines 19–100), [PublicationsBasedStrategy]
    (lines 103–138) and [HybridStrategy] (lines 141–153), and the context
    class [RecommendationEngine] (lines 156–170) holds one of them.  A
    suggestion's [id: uuidv4()] is a draw from the [Gen] supply, so a
    strategy returns [Gen (list Project.t)].

    The abstract specification of the skills strategy is the rule table
    [skill_rules] of the spec (§4.5).  [SkillsBased_run] shows that
    the chain of [if]s of the code computes it, with ids drawn in order.  The
    laws that the handler relies on are the classes [FreshIds] and
    [NonEmptyStrategy]. *)

From S2P Require Import Prelude JsString Types.

(** ** Suggestion templates (the object literals of the [push] calls) *)

Definition mlProject (id : nat) : Project.t :=
  Project.mk id (js "ML Research Paper Implementation")
    (js "Implement algorithms from recent machine learning papers in your field of interest")
    (js "Machine Learning") [js "Python"; js "TensorFlow"; js "PyTorch"] None Advanced.

Definition vizProject (id : nat) : Project.t :=
  Project.mk id (js "Interactive Research Visualization Dashboard")
    (js "Create a web app to visualize and explore research data from your field")
    (js "Web Development") [js "JavaScript"; js "React"; js "D3.js"] None Intermediate.

Definition portfolioProject (id : nat) : Project.t :=
  Project.mk id (js "Academic Portfolio Website")
    (js "Build a personal academic website to showcase your research, publications and projects")
    (js "Web Development") [js "Next.js"; js "React"; js "Tailwind CSS"] None Intermediate.

Definition algoVizProject (id : nat) : Project.t :=
  Project.mk id (js "Algorithm Visualization Platform")
    (js "Create an interactive platform to visualize and explain complex algorithms and data structures")
    (js "Educational Tech") [js "JavaScript"; js "React"; js "Data Structures"; js "Algorithms"]
    None Intermediate.

Definition cpToolProject (id : nat) : Project.t :=
  Project.mk id (js "Competitive Programming Training Tool")
    (js "Develop a tool that helps users practice competitive programming with personalized problem recommendations")
    (js "Educational Tech") [js "React"; js "Node.js"; js "Algorithms"] None Advanced.

Definition blogProject (id : nat) : Project.t :=
  Project.mk id (js "Personal Technical Blog")
    (js "Create a blog to document your technical learnings and projects")
    (js "Web Development") [js "HTML"; js "CSS"; js "JavaScript"; js "Content Creation"]
    None Beginner.

(** [suggestions.push({ id: uuidv4(), ... })]: draw an id, then append. *)
Definition push_new (tmpl : nat -> Project.t) (acc : list Project.t) : Gen (list Project.t) :=
  id ← uuidv4; mret (acc ++ [tmpl id]).

(** The array literal of line 65. *)
Definition dsaSkills : list jstr :=
  [js "Competitive Programming"; js "Data Structures"; js "Algorithms";
   js "DSA"; js "LeetCode"; js "Codeforces"].

(** ** [SkillsBasedStrategy.generateSuggestions] (lines 20–99).  Line 27
    reads [scholarData.interests] into a constant that is never used; the
    model reads nothing of [scholarData]. *)
Definition SkillsBased_generate (resumeData : ResumeData.t) (scholarData : ScholarData.t)
    : Gen (list Project.t) :=
  let skills := ResumeData.skills resumeData in
  s1 ← (if arr_includes skills (js "Python") || arr_includes skills (js "Machine Learning")
        then push_new mlProject [] else mret []);
  s2 ← (if arr_includes skills (js "JavaScript") || arr_includes skills (js "Web Development")
           || arr_includes skills (js "React") || arr_includes skills (js "React.js")
        then push_new vizProject s1 ≫= push_new portfolioProject else mret s1);
  s3 ← (if existsb (fun skill => arr_includes dsaSkills skill) skills
        then push_new algoVizProject s2 ≫= push_new cpToolProject else mret s2);
  if (length s3 =? 0)%nat then push_new blogProject s3 else mret s3.

(** ** The abstract specification: the rule table of §4.5

    A rule fires when one of its trigger skills is in the résumé's skill
    list (exact, case-sensitive match).  The output is the templates of the
    fired rules in table order, or the blog template when no rule fires.
    The ids are drawn in output order. *)
Record Rule : Type := { triggers : list jstr; templates : list (nat -> Project.t) }.

Definition rule_ml : Rule :=
  {| triggers := [js "Python"; js "Machine Learning"]; templates := [mlProject] |}.
Definition rule_web : Rule :=
  {| triggers := [js "JavaScript"; js "Web Development"; js "React"; js "React.js"];
     templates := [vizProject; portfolioProject] |}.
Definition rule_dsa : Rule :=
  {| triggers := dsaSkills; templates := [algoVizProject; cpToolProject] |}.

Definition skill_rules : list Rule := [rule_ml; rule_web; rule_dsa].

Definition fires (skills : list jstr) (r : Rule) : bool :=
  existsb (arr_includes skills) (triggers r).

Definition rule_spec (skills : list jstr) : list (nat -> Project.t) :=
  match concat (map templates (List.filter (fires skills) skill_rules)) with
  | [] => [blogProject]
  | ts => ts
  end.

(** Templates instantiated with the ids [g], [g+1], .... *)
Fixpoint instantiate (g : nat) (ts : list (nat -> Project.t)) : list Project.t :=
  match ts with
  | [] => []
  | t :: ts' => t g :: instantiate (S g) ts'
  end.

(** ** Lemmas on the rule table *)

(** The test of line 64 ([skills.some(s => dsa.includes(s))]) is the
    table's test ([dsa.some(t => skills.includes(t))]). *)
Lemma existsb_includes_sym (a b : list jstr) :
  existsb (arr_includes a) b = existsb (arr_includes b) a.
Proof.
  apply Bool.eq_iff_eq_true. rewrite !existsb_exists.
  split; intros [x [Hx Hi]]; exists x; rewrite arr_includes_In in *;
    split; auto; by apply arr_includes_In.
Qed.

Lemma fires_ml skills :
  fires skills rule_ml = arr_includes skills (js "Python") || arr_includes skills (js "Machine Learning").
Proof. unfold fires; simpl. by rewrite orb_false_r. Qed.

Lemma fires_web skills :
  fires skills rule_web = arr_includes skills (js "JavaScript") || arr_includes skills (js "Web Development")
                          || arr_includes skills (js "React") || arr_includes skills (js "React.js").
Proof. unfold fires; simpl. rewrite orb_false_r. by rewrite !orb_assoc. Qed.

Lemma fires_dsa skills :
  fires skills rule_dsa = existsb (fun skill => arr_includes dsaSkills skill) skills.
Proof. unfold fires. cbn [triggers rule_dsa]. apply existsb_includes_sym. Qed.

#[export] Instance fires_proper : Proper (same_elems ==> eq ==> eq) fires.
Proof.
  intros l1 l2 H r ? <-. unfold fires. apply existsb_ext_in. intros t _. by rewrite H.
Qed.

#[export] Instance rule_spec_proper : Proper (same_elems ==> eq) rule_spec.
Proof.
  intros l1 l2 H. unfold rule_spec, skill_rules. simpl List.filter.
  by rewrite !(fires_proper l1 l2 H _ _ eq_refl).
Qed.

Lemma rule_spec_cases skills :
  rule_spec skills =
    match concat (map templates (List.filter (fires skills) [rule_ml; rule_web; rule_dsa])) with
    | [] => [blogProject] | ts => ts end.
Proof. reflexivity. Qed.

(** Every template sets [id] to its argument. *)
Definition keeps_id (t : nat -> Project.t) : Prop := forall i, Project.id (t i) = i.

Lemma instantiate_ids g ts :
  Forall keeps_id ts -> map Project.id (instantiate g ts) = seq g (length ts).
Proof.
  revert g; induction ts as [|t ts IH]; intros g Hts; [done|].
  inversion Hts as [|? ? Ht Hts']; subst. simpl. by rewrite Ht, IH.
Qed.

Lemma length_instantiate g ts : length (instantiate g ts) = length ts.
Proof. revert g; induction ts; simpl; auto. Qed.

Lemma rule_spec_keeps_id skills : Forall keeps_id (rule_spec skills).
Proof.
  unfold rule_spec, skill_rules. simpl List.filter.
  destruct (fires skills rule_ml), (fires skills rule_web), (fires skills rule_dsa);
    simpl; repeat constructor; intros i; reflexivity.
Qed.

#[export] Hint Resolve rule_spec_keeps_id : scholarsync.

(** ** Properties of the skills strategy *)

Lemma rule_spec_length skills : 1 <= length (rule_spec skills) <= 5.
Proof.
  unfold rule_spec, skill_rules. simpl List.filter.
  destruct (fires skills rule_ml), (fires skills rule_web), (fires skills rule_dsa);
    simpl; lia.
Qed.

(** C2: the skills strategy returns between one and five suggestions: at
    least the blog fallback, at most the five templates of the three rules. *)
Theorem SkillsBased_length_bounds (r : ResumeData.t) (sc : ScholarData.t) (g : nat) :
  1 <= length (fst (SkillsBased_generate r sc g)) <= 5.
Proof. unfold SkillsBased_generate. gen_simpl. case_bools; gen_simpl; simpl; lia. Qed.

(** C3: the ids of the suggestions are the next identifiers of the supply,
    in order ([g], [g+1], ...), and the supply advances past them; hence
    they are pairwise distinct and distinct from every id drawn before. *)
Theorem SkillsBased_fresh_ids (r : ResumeData.t) (sc : ScholarData.t) (g : nat) :
  let out := SkillsBased_generate r sc g in
  map Project.id (fst out) = seq g (length (fst out)) /\ snd out = g + length (fst out).
Proof.
  unfold SkillsBased_generate. gen_simpl. case_bools; gen_simpl; simpl; split; (reflexivity || lia).
Qed.

Lemma push_new_run tmpl acc g : push_new tmpl acc g = (acc ++ [tmpl g], S g).
Proof. reflexivity. Qed.

(** The chain of [if]s, rule by rule: one case per combination of fired
    rules, each drawing its ids in output order. *)
Ltac skills_run :=
  unfold SkillsBased_generate; rewrite rule_spec_cases;
  rewrite <- fires_ml, <- fires_web, <- fires_dsa;
  simpl List.filter;
  destruct (fires _ rule_ml), (fires _ rule_web), (fires _ rule_dsa);
    gen_simpl; rewrite ?push_new_run; f_equal; lia.

(** C1: the chain of [if]s of [SkillsBasedStrategy] computes the rule table
    of §4.5: the templates of the fired rules in table order, or the blog
    template alone when no rule fires, with ids [g], [g+1], ... drawn in
    output order. *)
Theorem SkillsBased_refines_rules (r : ResumeData.t) (sc : ScholarData.t) (g : nat) :
  SkillsBased_generate r sc g =
    (instantiate g (rule_spec (ResumeData.skills r)),
     g + length (rule_spec (ResumeData.skills r))).
Proof. skills_run. Qed.

(** The run of the skills strategy, for the lemmas below. *)
Lemma SkillsBased_run (r : ResumeData.t) (sc : ScholarData.t) (g : nat) :
  SkillsBased_generate r sc g =
    (instantiate g (rule_spec (ResumeData.skills r)),
     g + length (rule_spec (ResumeData.skills r))).
Proof. skills_run. Qed.

Lemma SkillsBased_output r sc g :
  fst (SkillsBased_generate r sc g) = instantiate g (rule_spec (ResumeData.skills r)).
Proof. by rewrite SkillsBased_run. Qed.

Lemma SkillsBased_length (r : ResumeData.t) (sc : ScholarData.t) (g : nat) :
  1 <= length (fst (SkillsBased_generate r sc g)) <= 5.
Proof.
  rewrite SkillsBased_output, length_instantiate. apply rule_spec_length.
Qed.

Lemma SkillsBased_ids (r : ResumeData.t) (sc : ScholarData.t) (g : nat) :
  let out := SkillsBased_generate r sc g in
  map Project.id (fst out) = seq g (length (fst out)) /\ snd out = g + length (fst out).
Proof.
  simpl. rewrite SkillsBased_run. simpl.
  rewrite length_instantiate. split; [|done].
  apply instantiate_ids, rule_spec_keeps_id.
Qed.

(** C4: the suggestions depend on the résumé only through the set of its
    skills: reordering or duplicating skills changes nothing, and the
    Scholar record (interests and publications) is never consulted. *)
Theorem SkillsBased_depends_on_skill_set (r1 r2 : ResumeData.t) (sc1 sc2 : ScholarData.t) (g : nat) :
  same_elems (ResumeData.skills r1) (ResumeData.skills r2) ->
  SkillsBased_generate r1 sc1 g = SkillsBased_generate r2 sc2 g.
Proof.
  intros H. rewrite !SkillsBased_run. by rewrite H.
Qed.

Lemma fires_cons_other s skills rl :
  ~ In s (triggers rl) -> fires (s :: skills) rl = fires skills rl.
Proof.
  intros Hs. unfold fires. apply existsb_ext_in. intros t Ht.
  unfold arr_includes. simpl. replace (s =s? t) with false; [done|].
  symmetry. apply not_true_iff_false. rewrite jstr_eqb_eq. intros ->. done.
Qed.

Lemma fires_cons_fired s skills rl :
  fires skills rl = true -> fires (s :: skills) rl = true.
Proof.
  unfold fires. rewrite !existsb_exists. intros [t [Ht Hi]]. exists t.
  split; [done|]. rewrite arr_includes_In in *. by right.
Qed.

(** C5: adding a skill whose rules already fire adds nothing: if every rule
    that has [s] as a trigger fires for the résumé, the résumé with [s]
    prepended gets the same suggestions (no duplicate from a rule). *)
Theorem SkillsBased_covered_skill (r : ResumeData.t) (sc : ScholarData.t) (s : jstr) (g : nat) :
  (forall rl, In rl skill_rules -> In s (triggers rl) -> fires (ResumeData.skills r) rl = true) ->
  SkillsBased_generate
    (ResumeData.mk (ResumeData.name r) (ResumeData.contact r) (ResumeData.summary r)
       (ResumeData.education r) (ResumeData.experience r) (s :: ResumeData.skills r)
       (ResumeData.loading r) (ResumeData.error r) (ResumeData.file r)) sc g
  = SkillsBased_generate r sc g.
Proof.
  intros Hcov. rewrite !SkillsBased_run. simpl.
  assert (Hf : forall rl, In rl skill_rules ->
            fires (s :: ResumeData.skills r) rl = fires (ResumeData.skills r) rl).
  { intros rl Hrl. destruct (in_dec (fun a b => decide (a = b)) s (triggers rl)) as [Hin|Hout].
    - rewrite (Hcov rl Hrl Hin). apply fires_cons_fired, Hcov; done.
    - by apply fires_cons_other. }
  unfold rule_spec, skill_rules in *. simpl List.filter.
  rewrite !Hf by (simpl; tauto). done.
Qed.

(** C6: the titles of the suggestions are pairwise distinct: the output is
    deduplicated. *)
Theorem SkillsBased_titles_NoDup (r : ResumeData.t) (sc : ScholarData.t) (g : nat) :
  NoDup (map Project.title (fst (SkillsBased_generate r sc g))).
Proof.
  rewrite SkillsBased_output. unfold rule_spec, skill_rules. simpl List.filter.
  destruct (fires _ rule_ml), (fires _ rule_web), (fires _ rule_dsa);
    simpl; apply nodupb_NoDup; vm_compute; reflexivity.
Qed.

(** ** [PublicationsBasedStrategy.generateSuggestions] (lines 104–137)

    The [reduce] of lines 110–116 counts words in a plain object [{}].  A
    read [acc[word]] finds an own property, or else a property of
    [Object.prototype].  Of those, only [constructor] (the function
    [Object]) and [__proto__] (an accessor that returns [Object.prototype])
    are spelled in lowercase, as the words are.  [(acc[word] || 0) + 1] on
    them concatenates strings.  The [__proto__] setter ignores a value that
    is not an object, so [__proto__] never becomes an own key. *)
Inductive jv : Type :=
| VNum (z : Z)
| VStr (s : jstr)
| VObjectFn
| VObjectProto.

Definition proto_get (k : jstr) : option jv :=
  if k =s? js "constructor" then Some VObjectFn
  else if k =s? js "__proto__" then Some VObjectProto
  else None.

(** An object with own data properties, in creation order. *)
Abbreviation jobject := (list (jstr * jv)).

Definition obj_get (o : jobject) (k : jstr) : option jv :=
  match List.find (fun kv => fst kv =s? k) o with
  | Some kv => Some (snd kv)
  | None => proto_get k
  end.

(** [acc[word] = v] on an ordinary object: update in place, or create the
    property at the end of the creation order. *)
Fixpoint obj_put (o : jobject) (k : jstr) (v : jv) : jobject :=
  match o with
  | [] => [(k, v)]
  | (k', v') :: o' => if k' =s? k then (k, v) :: o' else (k', v') :: obj_put o' k v
  end.

Definition obj_set (o : jobject) (k : jstr) (v : jv) : jobject :=
  if k =s? js "__proto__" then o else obj_put o k v.

(** [(acc[word] || 0) + 1]. *)
Definition plus_one (v : option jv) : jv :=
  match v with
  | None => VNum 1
  | Some (VNum z) => VNum (z + 1)
  | Some (VStr []) => VNum 1
  | Some (VStr s) => VStr (s ++ js "1")
  | Some VObjectFn => VStr (js "function Object() { [native code] }1")
  | Some VObjectProto => VStr (js "[object Object]1")
  end.

(** The reducer of lines 113–116. *)
Definition count_word (acc : jobject) (word : jstr) : jobject :=
  obj_set acc word (plus_one (obj_get acc word)).

(** [Object.entries] lists the array-index keys (canonical numeric strings
    below 2^32 - 1) in ascending numeric order, then the other keys in
    creation order (OrdinaryOwnPropertyKeys, §10.1.11.1). *)
Definition is_array_index (k : jstr) : bool :=
  match k with
  | [] => false
  | c :: rest =>
      forallb is_digit k && (negb (c =? 48)%N || bool_decide (rest = []))
      && (digits_value k <? 2 ^ 32 - 1)%Z
  end.

Definition index_cmp (a b : jstr * jv) : Z := (digits_value (fst a) - digits_value (fst b))%Z.

Definition obj_entries (o : jobject) : jobject :=
  sort_by index_cmp (List.filter (fun kv => is_array_index (fst kv)) o)
  ++ List.filter (fun kv => negb (is_array_index (fst kv))) o.

(** [b[1] - a[1]] with SortCompare's rule that NaN counts as [+0].  The only
    strings that reach the object start with ["function"] or ["[object"], so
    [ToNumber] makes them NaN. *)
Definition to_number (v : jv) : option Z :=
  match v with VNum z => Some z | _ => None end.

Definition compare_counts (a b : jstr * jv) : Z :=
  match to_number (snd a), to_number (snd b) with
  | Some x, Some y => (y - x)%Z
  | _, _ => 0%Z
  end.

(** [sort] (line 120) is [sort_by] of [JsString].  The comparator is
    consistent when every count is a number.  With a [constructor] count it
    is not, and the order is then implementation-defined; [sort_by] gives
    one of the allowed orders. *)

Definition researchProject (topKeywords : list jstr) (related : list Publication.t) (id : nat)
    : Project.t :=
  Project.mk id (js "Research Data Analysis Tool")
    (js "Build a specialized tool for analyzing data in your research area: "
       ++ join (js ", ") topKeywords)
    (js "Research") [js "Data Analysis"; js "Python"; js "Statistics"]
    (Some related) Advanced.

(** The words of line 111–112: titles lowercased, split on one space, and
    kept when longer than four code units. *)
Definition title_words (publications : list Publication.t) : list jstr :=
  List.filter (fun word => (4 <? length word)%nat)
    (flat_map (fun pub => split (to_lower (Publication.title pub)) (js " ")) publications).

Definition top_keywords (words : list jstr) : list jstr :=
  map fst (take 5 (sort_by compare_counts (obj_entries (fold_left count_word words [])))).

Definition PublicationsBased_generate (resumeData : ResumeData.t) (scholarData : ScholarData.t)
    : Gen (list Project.t) :=
  let publications := ScholarData.publications scholarData in
  if (0 <? length publications)%nat then
    push_new (researchProject (top_keywords (title_words publications)) (take 2 publications)) []
  else mret [].

(** ** [HybridStrategy.generateSuggestions] (lines 142–152): the skills
    suggestions, then the publications suggestion, ids drawn in that
    order. *)
Definition Hybrid_generate (resumeData : ResumeData.t) (scholarData : ScholarData.t)
    : Gen (list Project.t) :=
  skillsSuggestions ← SkillsBased_generate resumeData scholarData;
  pubsSuggestions ← PublicationsBased_generate resumeData scholarData;
  mret (skillsSuggestions ++ pubsSuggestions).

(** ** Counting words: the reference table

    [dedup_words p] is the distinct words of [p] in order of first
    occurrence, and [count_in p w] is the number of occurrences of [w]. *)
Definition dedup_step (d : list jstr) (w : jstr) : list jstr :=
  if arr_includes d w then d else d ++ [w].

Definition dedup_words (p : list jstr) : list jstr := fold_left dedup_step p [].

Definition count_in (p : list jstr) (w : jstr) : Z :=
  Z.of_nat (length (List.filter (fun x => x =s? w) p)).

Definition count_table (p : list jstr) : jobject :=
  map (fun w => (w, VNum (count_in p w))) (dedup_words p).

(** The two keys that [Object.prototype] answers for. *)
Definition reserved (w : jstr) : bool := (w =s? js "constructor") || (w =s? js "__proto__").

Lemma dedup_words_snoc p w : dedup_words (p ++ [w]) = dedup_step (dedup_words p) w.
Proof. unfold dedup_words. by rewrite fold_left_app. Qed.

Lemma In_dedup_words p : forall x, In x (dedup_words p) <-> In x p.
Proof.
  induction p as [|w p IH] using rev_ind; [done|]. intros x.
  rewrite dedup_words_snoc. unfold dedup_step.
  destruct (arr_includes _ w) eqn:E; rewrite !in_app_iff, IH; simpl.
  - apply arr_includes_In in E. rewrite IH in E. split; [tauto|]. intros [?|[<-|[]]]; auto.
  - tauto.
Qed.

Lemma dedup_words_NoDup p : NoDup (dedup_words p).
Proof.
  induction p as [|w p IH] using rev_ind; [constructor|].
  rewrite dedup_words_snoc. unfold dedup_step.
  destruct (arr_includes _ w) eqn:E; [done|].
  apply NoDup_app. split_and!; [done| |apply NoDup_singleton].
  intros x Hx%list_elem_of_In ->%list_elem_of_singleton.
  apply arr_includes_In in Hx. by rewrite Hx in E.
Qed.

Lemma count_in_snoc p w x :
  count_in (p ++ [w]) x = (count_in p x + if w =s? x then 1 else 0)%Z.
Proof.
  unfold count_in. rewrite List.filter_app, length_app. simpl.
  destruct (w =s? x); simpl; lia.
Qed.

Lemma count_in_notin p w : ~ In w p -> count_in p w = 0%Z.
Proof.
  intros Hw. unfold count_in. destruct (List.filter _ p) as [|y l] eqn:E; [done|].
  exfalso. assert (Hy : In y (List.filter (fun x => x =s? w) p)) by (rewrite E; left; done).
  apply filter_In in Hy as [Hy Heq]. apply jstr_eqb_eq in Heq. subst. done.
Qed.

Lemma find_key_map (f : jstr -> jv) d k :
  List.find (fun kv => fst kv =s? k) (map (fun x => (x, f x)) d) =
  if arr_includes d k then Some (k, f k) else None.
Proof.
  induction d as [|x d IH]; [done|]. unfold arr_includes in *. simpl.
  rewrite jstr_eqb_sym. destruct (k =s? x) eqn:E; simpl; [|done].
  apply jstr_eqb_eq in E. by subst.
Qed.

Lemma obj_put_map_in (f : jstr -> jv) d w v :
  NoDup d -> In w d ->
  obj_put (map (fun x => (x, f x)) d) w v =
  map (fun x => (x, if x =s? w then v else f x)) d.
Proof.
  induction d as [|x d IH]; intros Hnd Hw; [done|]. apply NoDup_cons in Hnd as [Hx Hd].
  simpl. destruct (x =s? w) eqn:E.
  - apply jstr_eqb_eq in E. subst. f_equal. apply map_ext_in. intros y Hy.
    destruct (y =s? w) eqn:Ey; [|done]. apply jstr_eqb_eq in Ey. subst.
    by apply list_elem_of_In in Hy.
  - f_equal. apply IH; [done|]. destruct Hw as [->|]; [|done]. by rewrite jstr_eqb_refl in E.
Qed.

Lemma obj_put_map_notin (f : jstr -> jv) d w v :
  ~ In w d -> obj_put (map (fun x => (x, f x)) d) w v = map (fun x => (x, f x)) d ++ [(w, v)].
Proof.
  induction d as [|x d IH]; intros Hw; [done|]. simpl.
  destruct (x =s? w) eqn:E.
  - apply jstr_eqb_eq in E. subst. exfalso. apply Hw. by left.
  - f_equal. apply IH. intros H. apply Hw. by right.
Qed.

(** One step of the [reduce] on the reference table. *)
Lemma count_word_table p w :
  reserved w = false -> count_word (count_table p) w = count_table (p ++ [w]).
Proof.
  intros Hres. unfold count_word, count_table, obj_get, obj_set.
  rewrite find_key_map, dedup_words_snoc. unfold dedup_step.
  apply orb_false_elim in Hres as [Hc Hp]. rewrite Hp.
  destruct (arr_includes (dedup_words p) w) eqn:E.
  - simpl. rewrite obj_put_map_in by (auto using dedup_words_NoDup; by apply arr_includes_In).
    apply map_ext. intros x. rewrite count_in_snoc.
    destruct (decide (x = w)) as [->|Hne]; [rewrite jstr_eqb_refl; f_equal; f_equal; lia|].
    rewrite !jstr_eqb_neq by congruence. f_equal. f_equal. lia.
  - unfold proto_get. rewrite Hc, Hp. simpl.
    assert (Hw : ~ In w (dedup_words p)) by (intros H%arr_includes_In; congruence).
    rewrite obj_put_map_notin by done. rewrite map_app. simpl. f_equal.
    + apply map_ext_in. intros x Hx. rewrite count_in_snoc.
      destruct (decide (w = x)) as [->|Hne]; [done|].
      rewrite jstr_eqb_neq by done. f_equal. f_equal. lia.
    + rewrite count_in_snoc, jstr_eqb_refl, count_in_notin; [done|].
      by rewrite <- In_dedup_words.
Qed.

Lemma fold_count_table ws : forall p,
  forallb (fun w => negb (reserved w)) ws = true ->
  fold_left count_word ws (count_table p) = count_table (p ++ ws).
Proof.
  induction ws as [|w ws IH]; intros p H; simpl in *; [by rewrite app_nil_r|].
  apply andb_prop in H as [Hw Hws]. apply negb_true_iff in Hw.
  rewrite count_word_table, IH by done. by rewrite <- app_assoc.
Qed.

(** C7: when no title word is [constructor] or [__proto__], the [reduce] of
    lines 110–116 builds exactly the table of the distinct words, in order
    of first occurrence, each with its number of occurrences. *)
Theorem title_counts_correct (words : list jstr) :
  forallb (fun w => negb (reserved w)) words = true ->
  fold_left count_word words [] = count_table words.
Proof. intros H. exact (fold_count_table words [] H). Qed.

(** ** The top keywords *)

Lemma obj_entries_perm (o : jobject) : Permutation (obj_entries o) o.
Proof.
  unfold obj_entries. rewrite sort_by_perm. apply filter_partition_perm.
Qed.

(** The count of an entry, when it is a number. *)
Definition count_key (kv : jstr * jv) : Z :=
  match to_number (snd kv) with Some z => z | None => 0%Z end.

Lemma count_table_entry words kv :
  In kv (count_table words) -> kv = (fst kv, VNum (count_in words (fst kv))).
Proof. unfold count_table. intros (w & <- & _)%in_map_iff. done. Qed.

Lemma count_table_fst words : map fst (count_table words) = dedup_words words.
Proof. unfold count_table. rewrite map_map. apply map_id. Qed.

(** Without reserved words, the comparator of line 120 orders by count. *)
Lemma top_keywords_sorted words :
  forallb (fun w => negb (reserved w)) words = true ->
  top_keywords words =
  map fst (take 5 (sort_by (desc_cmp count_key) (obj_entries (count_table words)))).
Proof.
  intros H. unfold top_keywords. change [] with (count_table []). rewrite fold_count_table by done.
  do 2 f_equal. apply sort_by_ext. intros a b Ha Hb.
  apply (Permutation_in _ (obj_entries_perm _)), count_table_entry in Ha, Hb.
  rewrite Ha, Hb. unfold compare_counts, desc_cmp, count_key. done.
Qed.

(** C8: without the reserved words, the keywords of the publications
    suggestion are at most five distinct title words.  A title word that is
    left out occurs at most as often as every chosen keyword, and then five
    were chosen: the keywords are the five most frequent words. *)
Theorem top_keywords_most_frequent (words : list jstr) :
  forallb (fun w => negb (reserved w)) words = true ->
  let kws := top_keywords words in
  length kws <= 5 /\ NoDup kws /\ (forall k, In k kws -> In k words) /\
  (forall w, In w words -> ~ In w kws ->
     length kws = 5 /\ forall k, In k kws -> (count_in words w <= count_in words k)%Z).
Proof.
  intros H kws. subst kws. rewrite top_keywords_sorted by done.
  set (S := sort_by (desc_cmp count_key) (obj_entries (count_table words))).
  assert (HP : Permutation S (count_table words)) by (unfold S; by rewrite sort_by_perm, obj_entries_perm).
  assert (HSS : Sorted.StronglySorted (key_ge count_key) S) by apply sort_by_strongly_sorted.
  assert (Hfst : Permutation (map fst S) (dedup_words words)) by (by rewrite HP, count_table_fst).
  assert (Hkv : forall kv, In kv S -> kv = (fst kv, VNum (count_in words (fst kv))))
    by (intros kv Hkv; apply count_table_entry; by rewrite <- HP).
  rewrite <- (take_drop 5 S) in HSS.
  split_and!.
  - rewrite length_map, length_take. lia.
  - assert (ND : NoDup (map fst S)) by (rewrite Hfst; apply dedup_words_NoDup).
    rewrite <- (take_drop 5 (map fst S)), firstn_map in ND.
    by apply NoDup_app in ND as [? _].
  - intros k Hk. apply In_dedup_words. apply (Permutation_in _ Hfst).
    apply (incl_map fst (l1 := take 5 S) (l2 := S)); [|done].
    intros x Hx. rewrite <- (take_drop 5 S). apply in_app_iff. by left.
  - intros w Hw Hnot.
    assert (HwS : In (w, VNum (count_in words w)) S).
    { rewrite HP. unfold count_table. apply in_map_iff. exists w. split; [done|].
      by apply In_dedup_words. }
    rewrite <- (take_drop 5 S) in HwS. apply in_app_iff in HwS as [Hin|Hin].
    { exfalso. apply Hnot. apply in_map_iff. by exists (w, VNum (count_in words w)). }
    split.
    + rewrite length_map, length_take.
      assert (5 < length S); [|lia].
      destruct (decide (length S <= 5)) as [Hle|]; [|lia].
      by rewrite drop_ge in Hin by lia.
    + intros k (kv & <- & Hkv')%in_map_iff.
      pose proof (StronglySorted_app_rel _ _ _ HSS kv _ Hkv' Hin) as Hge.
      unfold key_ge, count_key in Hge. simpl in Hge.
      rewrite (Hkv kv) in Hge; [done|]. rewrite <- (take_drop 5 S). apply in_app_iff. by left.
Qed.

(** ** The strategy interface and the engine (lines 14–16, 156–170) *)

(** [interface RecommendationStrategy { generateSuggestions(...) }] *)
Class RecommendationStrategy (S : Type) :=
  generateSuggestions : S -> ResumeData.t -> ScholarData.t -> Gen (list Project.t).

(** The three classes have no fields: an object is the unit value. *)
Inductive SkillsBasedStrategy : Type := new_SkillsBasedStrategy.
Inductive PublicationsBasedStrategy : Type := new_PublicationsBasedStrategy.
Inductive HybridStrategy : Type := new_HybridStrategy.

#[export] Instance SkillsBased_strategy : RecommendationStrategy SkillsBasedStrategy :=
  fun _ => SkillsBased_generate.
#[export] Instance PublicationsBased_strategy : RecommendationStrategy PublicationsBasedStrategy :=
  fun _ => PublicationsBased_generate.
#[export] Instance Hybrid_strategy : RecommendationStrategy HybridStrategy :=
  fun _ => Hybrid_generate.

(** [class RecommendationEngine]: its private field holds any strategy
    object; [setStrategy] replaces it, [generateRecommendations] calls it. *)
Record RecommendationEngine (S : Type) : Type := new_RecommendationEngine { strategy : S }.
Arguments new_RecommendationEngine {S} _.
Arguments strategy {S} _.

Definition setStrategy {S} (e : RecommendationEngine S) (s : S) : RecommendationEngine S :=
  new_RecommendationEngine s.

Definition generateRecommendations {S} `{RecommendationStrategy S} (e : RecommendationEngine S)
    (resumeData : ResumeData.t) (scholarData : ScholarData.t) : Gen (list Project.t) :=
  generateSuggestions (strategy e) resumeData scholarData.

(** The laws a strategy promises its caller: the ids it draws are the next
    ones of the supply, in order ([FreshIds]); it never returns an empty
    list ([NonEmptyStrategy]). *)
Definition ids_fresh (m : Gen (list Project.t)) : Prop :=
  forall g, map Project.id (fst (m g)) = seq g (length (fst (m g)))
            /\ snd (m g) = g + length (fst (m g)).

Class FreshIds (S : Type) `{RecommendationStrategy S} :=
  fresh_ids : forall s r sc, ids_fresh (generateSuggestions s r sc).

Class NonEmptyStrategy (S : Type) `{RecommendationStrategy S} :=
  nonempty : forall s r sc g, 1 <= length (fst (generateSuggestions s r sc g)).

Lemma ids_fresh_push tmpl : keeps_id tmpl -> ids_fresh (push_new tmpl []).
Proof. intros Ht g. simpl. rewrite Ht. split; [done|lia]. Qed.

Lemma ids_fresh_ret : ids_fresh (mret []).
Proof. intros g. simpl. split; [done|lia]. Qed.

Lemma ids_fresh_app (m1 m2 : Gen (list Project.t)) :
  ids_fresh m1 -> ids_fresh m2 -> ids_fresh (x ← m1; y ← m2; mret (x ++ y)).
Proof.
  intros H1 H2 g. gen_simpl.
  destruct (m1 g) as [x g1] eqn:E1. destruct (m2 g1) as [y g2] eqn:E2. simpl.
  specialize (H1 g). specialize (H2 g1). rewrite E1 in H1. rewrite E2 in H2.
  simpl in *. destruct H1 as [Hx ->], H2 as [Hy ->].
  rewrite map_app, Hx, Hy, length_app, seq_app. split; [done|lia].
Qed.

#[export] Instance SkillsBased_fresh : FreshIds SkillsBasedStrategy.
Proof. intros s r sc g. apply SkillsBased_ids. Qed.

#[export] Instance SkillsBased_nonempty : NonEmptyStrategy SkillsBasedStrategy.
Proof. intros s r sc g. apply SkillsBased_length. Qed.

#[export] Instance PublicationsBased_fresh : FreshIds PublicationsBasedStrategy.
Proof.
  intros s r sc. unfold generateSuggestions, PublicationsBased_strategy, PublicationsBased_generate.
  destruct (0 <? _)%nat; [apply ids_fresh_push; intros i; done|apply ids_fresh_ret].
Qed.

#[export] Instance Hybrid_fresh : FreshIds HybridStrategy.
Proof.
  intros s r sc. apply ids_fresh_app; [apply (SkillsBased_fresh new_SkillsBasedStrategy)|].
  apply (PublicationsBased_fresh new_PublicationsBasedStrategy).
Qed.

#[export] Instance Hybrid_nonempty : NonEmptyStrategy HybridStrategy.
Proof.
  intros s r sc g. unfold generateSuggestions, Hybrid_strategy, Hybrid_generate.
  rewrite !gen_bind_run. simpl.
  rewrite length_app. pose proof (SkillsBased_length r sc g). lia.
Qed.

(** C12: the hybrid strategy returns the skills suggestions followed by the
    publications suggestion.  The latter is present exactly when the Scholar
    record has a publication; it embeds the top keywords and at most the
    first two publications. *)
Theorem Hybrid_output (r : ResumeData.t) (sc : ScholarData.t) (g : nat) :
  let ps := ScholarData.publications sc in
  let n := length (rule_spec (ResumeData.skills r)) in
  fst (Hybrid_generate r sc g) =
  instantiate g (rule_spec (ResumeData.skills r)) ++
  (if (0 <? length ps)%nat
   then [researchProject (top_keywords (title_words ps)) (take 2 ps) (g + n)] else []).
Proof.
  simpl. unfold Hybrid_generate. rewrite !gen_bind_run. simpl.
  rewrite SkillsBased_run. simpl.
  unfold PublicationsBased_generate. by destruct (0 <? _)%nat.
Qed.



(** ** Witnesses *)

Definition resume_of_skills (skills : list jstr) : ResumeData.t :=
  ResumeData.mk None Contact.empty None [] [] skills false None None.

Definition scholar_of_titles (titles : list jstr) : ScholarData.t :=
  ScholarData.mk None [] (map (fun t => Publication.mk t [] None None None None) titles) None [] false None.

Lemma SkillsBased_depends_on_skill_set_witness :
  same_elems [js "Python"; js "React"] [js "React"; js "Python"; js "Python"] /\
  SkillsBased_generate (resume_of_skills [js "Python"; js "React"]) (scholar_of_titles []) 0 =
  SkillsBased_generate (resume_of_skills [js "React"; js "Python"; js "Python"])
    (scholar_of_titles [js "Deep learning"]) 0.
Proof.
  assert (H : same_elems [js "Python"; js "React"] [js "React"; js "Python"; js "Python"])
    by (intros x; simpl; tauto).
  split; [exact H|]. apply SkillsBased_depends_on_skill_set. exact H.
Defined.

Lemma SkillsBased_covered_skill_witness :
  (forall rl, In rl skill_rules -> In (js "Machine Learning") (triggers rl) ->
     fires (ResumeData.skills (resume_of_skills [js "Python"])) rl = true) /\
  SkillsBased_generate (resume_of_skills [js "Machine Learning"; js "Python"]) (scholar_of_titles []) 0
  = SkillsBased_generate (resume_of_skills [js "Python"]) (scholar_of_titles []) 0.
Proof.
  assert (H : forall rl, In rl skill_rules -> In (js "Machine Learning") (triggers rl) ->
     fires (ResumeData.skills (resume_of_skills [js "Python"])) rl = true).
  { intros rl Hrl Hs%arr_includes_In. simpl in Hrl.
    destruct Hrl as [<-|[<-|[<-|[]]]]; vm_compute in Hs |- *; congruence. }
  split; [exact H|]. apply (SkillsBased_covered_skill _ _ _ _ H).
Defined.

Lemma title_counts_correct_witness :
  forallb (fun w => negb (reserved w)) [js "graphs"; js "learning"; js "graphs"] = true /\
  fold_left count_word [js "graphs"; js "learning"; js "graphs"] [] =
  count_table [js "graphs"; js "learning"; js "graphs"].
Proof. split; [reflexivity|]. apply title_counts_correct. reflexivity. Defined.

Lemma top_keywords_most_frequent_witness :
  let ws := title_words (ScholarData.publications
              (scholar_of_titles [js "Deep Learning for Graphs"; js "Graph learning"])) in
  forallb (fun w => negb (reserved w)) ws = true /\
  (let kws := top_keywords ws in
   length kws <= 5 /\ NoDup kws /\ (forall k, In k kws -> In k ws) /\
   (forall w, In w ws -> ~ In w kws ->
      length kws = 5 /\ forall k, In k kws -> (count_in ws w <= count_in ws k)%Z)).
Proof. intros ws. split; [reflexivity|]. apply top_keywords_most_frequent. reflexivity. Defined.
