(* ===== verification/SuggestApi.v ===== *)
(** * The suggestions API: [handler] of [src/src/pages/api/generate-suggestions.ts]

    The module-level [limiter] (lines 8–11) is a [Limiter] that lives across
    requests.  The handler (lines 172–220) checks the method, consults the
    limiter with the fixed token ['suggestions_api'], and requires
    [resumeData].  It runs the engine with the skills strategy and appends
    the "Personal Academic Website" suggestion when fewer than two came
    back.  Its [try]/[catch] answers 500 to any rejection, including the
    limiter's, after the limiter has already answered 429 on the same
    response.

    The handler is written over any strategy object ([handler_with]); the
    route is [handler_with new_SkillsBasedStrategy].  Its guarantees follow
    from the strategy's laws ([FreshIds], [NonEmptyStrategy]) and not from
    the rules of a particular strategy. *)

From S2P Require Import Prelude JsString Types Http RateLimit Recommend.

(** The request as the handler reads it: the method and the two fields of
    the JSON body ([undefined] is [None]). *)
Record Request : Type := mkRequest {
  method : jstr;
  body_resumeData : option ResumeData.t;
  body_scholarData : option ScholarData.t
}.

(** [scholarData || {}]: the strategies read only [publications] and
    [interests] of it, with [|| []]. *)
Definition empty_scholar : ScholarData.t := ScholarData.mk None [] [] None [] false None.

(** [const limiter = rateLimit({ interval: 60 * 1000, uniqueTokenPerInterval: 10 })] *)
Definition suggestions_limiter : Limiter := rateLimit (60 * 1000) 10.

Definition academicWebsiteProject (id : nat) : Project.t :=
  Project.mk id (js "Personal Academic Website")
    (js "Create a personal website to showcase your research, publications, and CV")
    (js "Web Development") [js "HTML"; js "CSS"; js "JavaScript"] None Beginner.

(** ** [JSON.stringify] of the response body.  An absent optional field is
    omitted; NaN and the infinities are [null].  The id is the index of the
    draw; its uuid text is not modelled. *)
Definition publication_to_json (p : Publication.t) : json :=
  JObj ([(js "title", JStr (Publication.title p)); (js "authors", JStr (Publication.authors p))]
        ++ opt_field (js "journal") (JStr <$> Publication.journal p)
        ++ opt_field (js "year") (JStr <$> Publication.year p)
        ++ opt_field (js "citations") (num_to_json <$> Publication.citations p)
        ++ opt_field (js "url") (JStr <$> Publication.url p)).

Definition difficulty_to_json (d : Difficulty) : json :=
  JStr (match d with Beginner => js "Beginner" | Intermediate => js "Intermediate"
                | Advanced => js "Advanced" end).

Definition project_to_json (p : Project.t) : json :=
  JObj ([(js "id", JNum (NFin (Z.of_nat (Project.id p))));
         (js "title", JStr (Project.title p));
         (js "description", JStr (Project.description p));
         (js "category", JStr (Project.category p));
         (js "skills", JArr (map JStr (Project.skills p)))]
        ++ opt_field (js "relatedPublications")
             ((fun ps => JArr (map publication_to_json ps)) <$> Project.relatedPublications p)
        ++ [(js "difficulty", difficulty_to_json (Project.difficulty p))]).

(** The body of the catch block (lines 215–218). *)
Definition catch_body (message : jstr) : json :=
  JObj [(js "error", JStr (js "Failed to generate suggestions")); (js "details", JStr message)].

(** Lines 196–208: the engine, then the under-population net. *)
Definition suggestions_for {S} `{RecommendationStrategy S} (s : S)
    (resumeData : ResumeData.t) (scholarData : option ScholarData.t) : Gen (list Project.t) :=
  let engine := new_RecommendationEngine s in
  suggestions ← generateRecommendations engine resumeData (default empty_scholar scholarData);
  if (length suggestions <? 2)%nat
  then id ← uuidv4; mret (suggestions ++ [academicWebsiteProject id])
  else mret suggestions.

(** The handler at time [now], with the module's limiter and the id supply
    as state. *)
Definition handler_with {S} `{RecommendationStrategy S} (s : S)
    (lim : Limiter) (now : Z) (g : nat) (req : Request) : Limiter * nat * Response :=
  let res := fresh_response in
  if negb (method req =s? js "POST")
  then (lim, g, res_status_json res 405 (err_body (js "Method not allowed")))
  else
    let '(r, lim', res1) := check lim now res 5 (js "suggestions_api") in
    match r with
    | RejectedRateLimit =>
        (lim', g, res_status_json res1 500 (catch_body (js "Rate limit exceeded")))
    | Resolved =>
        match body_resumeData req with
        | None => (lim', g, res_status_json res1 400 (err_body (js "Resume data is required")))
        | Some resumeData =>
            let '(suggestions, g') := suggestions_for s resumeData (body_scholarData req) g in
            (lim', g', res_status_json res1 200 (JArr (map project_to_json suggestions)))
        end
    end.

(** The route: [new RecommendationEngine(new SkillsBasedStrategy())]. *)
Definition handler (lim : Limiter) (now : Z) (g : nat) (req : Request) : Limiter * nat * Response :=
  handler_with new_SkillsBasedStrategy lim now g req.

(** The handler over a sequence of requests at increasing times, sharing
    the module's limiter and the id supply. *)
Fixpoint run_handler (lim : Limiter) (g : nat) (reqs : list (Z * Request)) : list Response :=
  match reqs with
  | [] => []
  | (now, req) :: reqs' =>
      let '(lim', g', res) := handler lim now g req in res :: run_handler lim' g' reqs'
  end.

(** ** Lemmas *)

Section Handler.
Context {S : Type} `{RecommendationStrategy S} `{!FreshIds S} `{!NonEmptyStrategy S}.

(** The engine and the net: at least two suggestions, with the next ids of
    the supply. *)
Lemma suggestions_for_spec (s : S) rd sc g :
  let '(ps, g') := suggestions_for s rd sc g in
  2 <= length ps /\ map Project.id ps = seq g (length ps) /\ g' = g + length ps.
Proof.
  unfold suggestions_for, generateRecommendations. cbn [strategy]. rewrite gen_bind_run.
  pose proof (fresh_ids s rd (default empty_scholar sc) g) as [Hid Hg].
  pose proof (nonempty s rd (default empty_scholar sc) g) as Hne.
  destruct (generateSuggestions s rd _ g) as [ps g1]; simpl in *.
  destruct (length ps <? 2)%nat eqn:E; gen_simpl.
  - apply Nat.ltb_lt in E. rewrite map_app, Hid, length_app, seq_app. simpl.
    split_and!; [lia|by rewrite Hg|lia].
  - apply Nat.ltb_ge in E. split_and!; [lia|done|done].
Qed.

Lemma handler_with_post (s : S) lim now g req :
  method req = js "POST" ->
  handler_with s lim now g req =
  let '(r, lim', res1) := check lim now fresh_response 5 (js "suggestions_api") in
  match r with
  | RejectedRateLimit => (lim', g, res_status_json res1 500 (catch_body (js "Rate limit exceeded")))
  | Resolved =>
      match body_resumeData req with
      | None => (lim', g, res_status_json res1 400 (err_body (js "Resume data is required")))
      | Some resumeData =>
          let '(suggestions, g') := suggestions_for s resumeData (body_scholarData req) g in
          (lim', g', res_status_json res1 200 (JArr (map project_to_json suggestions)))
      end
  end.
Proof. intros Hm. unfold handler_with. by rewrite Hm, jstr_eqb_refl. Qed.

(** A POST consumes one check of the shared token, whatever its body. *)
Lemma handler_with_limiter (s : S) lim now g req :
  method req = js "POST" ->
  (handler_with s lim now g req).1.1 = (check lim now fresh_response 5 (js "suggestions_api")).1.2.
Proof.
  intros Hm. rewrite handler_with_post by done.
  destruct (check _ _ _ _ _) as [[[] lim'] res1]; [|done].
  destruct (body_resumeData req); [|done]. by destruct (suggestions_for _ _ _ _).
Qed.

Lemma handler_with_rejected (s : S) lim now g req lim' res1 :
  method req = js "POST" ->
  check lim now fresh_response 5 (js "suggestions_api") = (RejectedRateLimit, lim', res1) ->
  let '(lim2, g2, res) := handler_with s lim now g req in
  lim2 = lim' /\ g2 = g /\
  res_body res = Some (429%N, err_body (js "Rate limit exceeded")) /\ res_crashed res = true.
Proof.
  intros Hm Hc. pose proof (check_response lim now fresh_response 5 (js "suggestions_api") eq_refl)
    as Hr. rewrite Hc in Hr. destruct Hr as [_ Hb].
  rewrite handler_with_post, Hc by done.
  unfold res_status_json, res_json, res_set_status, res_sent. simpl. by rewrite Hb.
Qed.

End Handler.

Lemma length_run_handler lim g reqs : length (run_handler lim g reqs) = length reqs.
Proof.
  revert lim g. induction reqs as [|[now req] reqs IH]; intros lim g; [done|]. simpl.
  destruct (handler lim now g req) as [[lim' g'] res]. simpl. by rewrite IH.
Qed.

(** On POST requests the answers of the route follow the answers of the
    limiter on its fixed token: each refusal is a 429 followed by a crash. *)
Lemma run_handler_rejects lim g reqs i res :
  Forall (fun tr => method tr.2 = js "POST") reqs ->
  run_handler lim g reqs !! i = Some res ->
  run_checks lim 5 (js "suggestions_api") (map fst reqs) !! i = Some RejectedRateLimit ->
  res_body res = Some (429%N, err_body (js "Rate limit exceeded")) /\ res_crashed res = true.
Proof.
  revert lim g i. induction reqs as [|[now req] reqs IH]; intros lim g i Hpost Hi Hc; [done|].
  inversion Hpost as [|? ? Hm Hpost']; subst. simpl in Hm.
  pose proof (handler_with_limiter new_SkillsBasedStrategy lim now g req Hm) as Hlim.
  pose proof (handler_with_rejected new_SkillsBasedStrategy lim now g req) as Hrej.
  simpl in Hi, Hc. unfold handler in Hi.
  destruct (check lim now fresh_response 5 (js "suggestions_api")) as [[r lim'] res1] eqn:Ec.
  specialize (Hrej lim' res1 Hm). simpl in Hlim.
  destruct (handler_with _ lim now g req) as [[lim2 g2] res2]. simpl in Hlim; subst lim2.
  destruct i as [|i]; simpl in Hi, Hc.
  - injection Hi as <-. injection Hc as ->. destruct Hrej as (_ & _ & Hb & Hcr); by split.
  - by apply (IH lim' g2 i).
Qed.

(** ** Properties of the route *)

(** C13: whatever strategy the engine holds, provided it draws fresh ids
    and never returns an empty list, a POST with a resume that passes the
    limiter is answered 200.  The answer is a list of at least two
    suggestions whose ids are the next ones of the supply.  Nothing is sent
    twice. *)
Theorem handler_success {S} `{RecommendationStrategy S} `{!FreshIds S} `{!NonEmptyStrategy S}
    (s : S) lim now g req rd lim' res1 :
  method req = js "POST" -> body_resumeData req = Some rd ->
  check lim now fresh_response 5 (js "suggestions_api") = (Resolved, lim', res1) ->
  let '(lim2, g', res) := handler_with s lim now g req in
  lim2 = lim' /\ res_crashed res = false /\
  exists ps, res_body res = Some (200%N, JArr (map project_to_json ps)) /\
    2 <= length ps /\ map Project.id ps = seq g (length ps) /\ g' = g + length ps.
Proof.
  intros Hm Hrd Hc.
  pose proof (check_response lim now fresh_response 5 (js "suggestions_api") eq_refl) as Hr.
  rewrite Hc in Hr. destruct Hr as [Hcr Hb].
  rewrite handler_with_post, Hc, Hrd by done.
  pose proof (suggestions_for_spec s rd (body_scholarData req) g) as Hs.
  destruct (suggestions_for s rd _ g) as [ps g'].
  unfold res_status_json, res_json, res_set_status, res_sent. simpl. rewrite Hb.
  split_and!; [done|exact Hcr|]. exists ps. by split.
Qed.

(** C14: the route's suggestions are those of the skills rule table, with
    the "Personal Academic Website" appended when the table gives fewer
    than two; the ids are drawn in that order. *)
Theorem handler_route_suggestions lim now g req rd lim' res1 :
  method req = js "POST" -> body_resumeData req = Some rd ->
  check lim now fresh_response 5 (js "suggestions_api") = (Resolved, lim', res1) ->
  let ts := rule_spec (ResumeData.skills rd) in
  let ps := instantiate g ts ++
            (if (length ts <? 2)%nat then [academicWebsiteProject (g + length ts)] else []) in
  res_body (handler lim now g req).2 = Some (200%N, JArr (map project_to_json ps)).
Proof.
  intros Hm Hrd Hc.
  pose proof (check_response lim now fresh_response 5 (js "suggestions_api") eq_refl) as Hr.
  rewrite Hc in Hr. destruct Hr as [_ Hb].
  unfold handler. rewrite handler_with_post, Hc, Hrd by done.
  unfold suggestions_for, generateRecommendations. cbn [strategy].
  rewrite gen_bind_run. unfold generateSuggestions, SkillsBased_strategy.
  rewrite SkillsBased_run. cbn [fst snd]. rewrite length_instantiate.
  destruct (length _ <? 2)%nat; gen_simpl;
    unfold res_status_json, res_json, res_set_status, res_sent; simpl; rewrite Hb; simpl;
    by rewrite ?app_nil_r.
Qed.

(** C15: a POST refused by the limiter: the client receives the limiter's
    429 [{ error: 'Rate limit exceeded' }].  The body is never read and no
    id is drawn.  The [catch] block then answers 500 on the same, already
    sent, response, which throws. *)
Theorem handler_rate_limited lim now g req lim' res1 :
  method req = js "POST" ->
  check lim now fresh_response 5 (js "suggestions_api") = (RejectedRateLimit, lim', res1) ->
  let '(lim2, g2, res) := handler lim now g req in
  lim2 = lim' /\ g2 = g /\
  res_body res = Some (429%N, err_body (js "Rate limit exceeded")) /\ res_crashed res = true.
Proof. intros Hm Hc. by apply (handler_with_rejected _ _ _ _ _ lim' res1). Qed.

(** C16: a request that is not a POST is answered 405 before the limiter
    is consulted: the limiter and the id supply are unchanged. *)
Theorem handler_method_guard lim now g req :
  method req <> js "POST" ->
  handler lim now g req =
  (lim, g, mkResponse 405 [] (Some (405%N, err_body (js "Method not allowed"))) false).
Proof.
  intros Hm. unfold handler, handler_with.
  apply jstr_eqb_neq in Hm. by rewrite Hm.
Qed.

(** C17: the limiter's token is the constant ['suggestions_api'], so the
    five requests a minute are shared by all callers.  From the route's
    fresh limiter, in any run of POSTs within one minute of the first,
    whatever their bodies, every request from the sixth on is answered 429
    and crashes the handler. *)
Theorem handler_shared_ledger g t0 req0 reqs i res :
  (0 < t0)%Z -> method req0 = js "POST" ->
  Forall (fun tr => (t0 <= tr.1 <= t0 + 60000)%Z /\ method tr.2 = js "POST") reqs ->
  run_handler suggestions_limiter g ((t0, req0) :: reqs) !! i = Some res -> 5 <= i ->
  res_body res = Some (429%N, err_body (js "Rate limit exceeded")) /\ res_crashed res = true.
Proof.
  intros Ht0 Hm Hreqs Hi Hle. eapply run_handler_rejects; [|exact Hi|].
  - constructor; [done|]. eapply Forall_impl; [exact Hreqs|]. by intros ? [_ ?].
  - pose proof (lookup_lt_Some _ _ _ Hi) as Hlt. rewrite length_run_handler in Hlt. simpl in Hlt.
    unfold suggestions_limiter. cbn [map fst]. rewrite run_checks_burst.
    + change (map ?f ?l) with (f <$> l). rewrite list_lookup_fmap, lookup_seq_lt
        by (rewrite length_map; lia).
      simpl. by rewrite (proj2 (Z.ltb_lt _ _)) by lia.
    + lia.
    + done.
    + apply Forall_map. eapply Forall_impl; [exact Hreqs|]. by intros ? [? _].
Qed.

(** ** Witnesses *)

Definition post_resume (skills : list jstr) : Request :=
  mkRequest (js "POST") (Some (resume_of_skills skills)) None.

(** The first check of the route's limiter, at time 1. *)
Definition first_check : CheckResult * Limiter * Response :=
  check suggestions_limiter 1 fresh_response 5 (js "suggestions_api").

Lemma first_check_resolved : first_check = (Resolved, first_check.1.2, first_check.2).
Proof. vm_compute. reflexivity. Qed.

(** A resume with no skill at all: the blog fallback and the net. *)
Lemma handler_success_witness :
  method (post_resume []) = js "POST" /\
  body_resumeData (post_resume []) = Some (resume_of_skills []) /\
  check suggestions_limiter 1 fresh_response 5 (js "suggestions_api")
    = (Resolved, first_check.1.2, first_check.2) /\
  let '(lim2, g', res) := handler_with new_SkillsBasedStrategy suggestions_limiter 1 0 (post_resume []) in
  lim2 = first_check.1.2 /\ res_crashed res = false /\
  exists ps, res_body res = Some (200%N, JArr (map project_to_json ps)) /\
    2 <= length ps /\ map Project.id ps = seq 0 (length ps) /\ g' = 0 + length ps.
Proof.
  split_and!; [done|done|exact first_check_resolved|].
  exact (handler_success new_SkillsBasedStrategy suggestions_limiter 1 0 (post_resume []) _ _ _
           eq_refl eq_refl first_check_resolved).
Defined.

(** The scenario [skills = ["Python"]]: the ML project, then the net's
    "Personal Academic Website". *)
Lemma handler_route_suggestions_witness :
  method (post_resume [js "Python"]) = js "POST" /\
  body_resumeData (post_resume [js "Python"]) = Some (resume_of_skills [js "Python"]) /\
  check suggestions_limiter 1 fresh_response 5 (js "suggestions_api")
    = (Resolved, first_check.1.2, first_check.2) /\
  map (fun p => (Project.title p, Project.difficulty p))
    (instantiate 0 (rule_spec [js "Python"]) ++ [academicWebsiteProject 1]) =
    [(js "ML Research Paper Implementation", Advanced);
     (js "Personal Academic Website", Beginner)] /\
  res_body (handler suggestions_limiter 1 0 (post_resume [js "Python"])).2 =
    Some (200%N, JArr (map project_to_json
      (instantiate 0 (rule_spec [js "Python"]) ++
       (if (length (rule_spec [js "Python"]) <? 2)%nat
        then [academicWebsiteProject (0 + length (rule_spec [js "Python"]))] else [])))).
Proof.
  split_and!; [done|done|exact first_check_resolved|reflexivity|].
  exact (handler_route_suggestions suggestions_limiter 1 0 (post_resume [js "Python"]) _ _ _
           eq_refl eq_refl first_check_resolved).
Defined.

(** Five requests at times 1 to 5 use up the route's window. *)
Definition exhausted_limiter : Limiter :=
  fold_left (fun lim t => (check lim t fresh_response 5 (js "suggestions_api")).1.2)
    [1; 2; 3; 4; 5]%Z suggestions_limiter.

Definition sixth_check : CheckResult * Limiter * Response :=
  check exhausted_limiter 6 fresh_response 5 (js "suggestions_api").

Lemma sixth_check_rejected :
  check exhausted_limiter 6 fresh_response 5 (js "suggestions_api")
  = (RejectedRateLimit, sixth_check.1.2, sixth_check.2).
Proof. vm_compute. reflexivity. Qed.

Lemma handler_rate_limited_witness :
  method (post_resume [js "Python"]) = js "POST" /\
  check exhausted_limiter 6 fresh_response 5 (js "suggestions_api")
    = (RejectedRateLimit, sixth_check.1.2, sixth_check.2) /\
  let '(lim2, g2, res) := handler exhausted_limiter 6 0 (post_resume [js "Python"]) in
  lim2 = sixth_check.1.2 /\ g2 = 0 /\
  res_body res = Some (429%N, err_body (js "Rate limit exceeded")) /\ res_crashed res = true.
Proof.
  split_and!; [done|exact sixth_check_rejected|].
  exact (handler_rate_limited exhausted_limiter 6 0 (post_resume [js "Python"]) _ _
           eq_refl sixth_check_rejected).
Defined.

Lemma handler_method_guard_witness :
  method (mkRequest (js "GET") None None) <> js "POST" /\
  handler suggestions_limiter 1 0 (mkRequest (js "GET") None None) =
  (suggestions_limiter, 0, mkResponse 405 [] (Some (405%N, err_body (js "Method not allowed"))) false).
Proof.
  assert (Hm : method (mkRequest (js "GET") None None) <> js "POST") by (vm_compute; congruence).
  split; [exact Hm|]. exact (handler_method_guard suggestions_limiter 1 0 _ Hm).
Defined.

(** Six POSTs in the first minute, from callers with different resumes. *)
Definition burst_requests : list (Z * Request) :=
  [(2, post_resume [js "Python"]); (3, post_resume [js "React"]); (4, post_resume []);
   (5, mkRequest (js "POST") None None); (6, post_resume [js "DSA"])]%Z.

Definition sixth_response : Response :=
  default fresh_response (run_handler suggestions_limiter 0 ((1%Z, post_resume []) :: burst_requests) !! 5).

Lemma handler_shared_ledger_witness :
  (0 < 1)%Z /\ method (post_resume []) = js "POST" /\
  Forall (fun tr => (1 <= tr.1 <= 1 + 60000)%Z /\ method tr.2 = js "POST") burst_requests /\
  run_handler suggestions_limiter 0 ((1%Z, post_resume []) :: burst_requests) !! 5 = Some sixth_response /\
  5 <= 5 /\
  res_body sixth_response = Some (429%N, err_body (js "Rate limit exceeded")) /\
  res_crashed sixth_response = true.
Proof.
  assert (Hf : Forall (fun tr => (1 <= tr.1 <= 1 + 60000)%Z /\ method tr.2 = js "POST") burst_requests)
    by (repeat constructor; simpl; lia).
  assert (Hl : run_handler suggestions_limiter 0 ((1%Z, post_resume []) :: burst_requests) !! 5
               = Some sixth_response) by (vm_compute; reflexivity).
  split_and!; [lia|done|exact Hf|exact Hl|lia|..];
    apply (handler_shared_ledger 0 1 (post_resume []) burst_requests 5 sixth_response);
    (lia || done || exact Hf || exact Hl).
Defined.
