(* ===== verification/Dom.v ===== *)
(** * The document the Scholar scraper queries: cheerio's selections

    [cheerio.load(html)] parses the page into a tree of elements, text and
    comment nodes.  The parser is a library the scraper only calls; the
    model starts from its output, a list of top-level nodes.  Tag names come
    out of the HTML parser in lower case.

    The scraper uses this part of cheerio's API:
    - [$('.c')] and [$('t')]: the elements of the document that carry the
      class [c] or have the tag [t], in document order;
    - [.find(sel)]: the matching descendants of an element;
    - [.first()], [.last()], [.text()] and [.attr(name)];
    - [.each(f)]: a loop over the selection with the index.

    A class matches as in the CSS [~=] test: the [class] attribute is split
    on white space and the class must be one of the words.  [.text()] of a
    selection concatenates the text content of each selected element (its
    text nodes, comments excluded).  A nested match is counted once as
    itself and again inside its ancestor, as in cheerio. *)

From S2P Require Import Prelude JsString.

#[warnings="-register-all"]
Inductive node : Type :=
| Element (tag : jstr) (attrs : list (jstr * jstr)) (children : list node)
| Text (data : jstr)
| Comment (data : jstr).

(** Induction on nodes through the list of children. *)
Section NodeInd.
Variable P : node -> Prop.
Hypothesis HElement : forall tag attrs cs, Forall P cs -> P (Element tag attrs cs).
Hypothesis HText : forall s, P (Text s).
Hypothesis HComment : forall s, P (Comment s).

Fixpoint node_ind' (n : node) : P n :=
  match n with
  | Element tag attrs cs =>
      HElement tag attrs cs
        ((fix go (l : list node) : Forall P l :=
            match l with
            | [] => Forall_nil_2 P
            | c :: l' => Forall_cons_2 P c l' (node_ind' c) (go l')
            end) cs)
  | Text s => HText s
  | Comment s => HComment s
  end.
End NodeInd.

(** A cheerio selection: the selected nodes, in document order. *)
Abbreviation selection := (list node).

(** [textContent] of one node (domutils). *)
Fixpoint text_of (n : node) : jstr :=
  match n with
  | Element _ _ cs => flat_map text_of cs
  | Text s => s
  | Comment _ => []
  end.

(** The strict descendants of a node, in document (pre-)order. *)
Fixpoint descendants (n : node) : list node :=
  match n with
  | Element _ _ cs => flat_map (fun c => c :: descendants c) cs
  | _ => []
  end.

(** The value of an attribute; the parser keeps the first of duplicates. *)
Definition attr_of (n : node) (k : jstr) : option jstr :=
  match n with
  | Element _ attrs _ => snd <$> List.find (fun kv => fst kv =s? k) attrs
  | _ => None
  end.

(** The words of a [class] attribute. *)
Definition class_words (v : jstr) : list jstr :=
  List.filter (fun w => negb (bool_decide (w = []))) (split (map (fun c => if is_ws c then 32%N else c) v) [32%N]).

Inductive selector : Type :=
| ByClass (c : jstr)   (** [.c] *)
| ByTag (t : jstr).    (** [t] *)

Definition matches (sel : selector) (n : node) : bool :=
  match n, sel with
  | Element _ _ _, ByClass c =>
      match attr_of n (js "class") with
      | Some v => existsb (fun w => w =s? c) (class_words v)
      | None => false
      end
  | Element t _ _, ByTag t' => t =s? t'
  | _, _ => false
  end.

(** [$(sel)]: every matching node of the document. *)
Definition select (doc : list node) (sel : selector) : selection :=
  List.filter (matches sel) (flat_map (fun c => c :: descendants c) doc).

(** [$(element).find(sel)] *)
Definition find (sel : selector) (n : node) : selection :=
  List.filter (matches sel) (descendants n).

(** [.text()] of a selection. *)
Definition sel_text (s : selection) : jstr := flat_map text_of s.

(** [.first()] and [.last()] *)
Definition sel_first (s : selection) : selection := take 1 s.
Definition sel_last (s : selection) : selection :=
  match s with [] => [] | _ => [List.last s (Text [])] end.

(** [.attr(name)]: the attribute of the first selected element. *)
Definition sel_attr (s : selection) (k : jstr) : option jstr :=
  match s with [] => None | n :: _ => attr_of n k end.
