(* ===== verification/Scholar.v ===== *)
(** * The Scholar scraper: [ScholarScraper.scrapeProfile] of
      [src/src/pages/api/fetch-scholar-data.ts] (lines 41–187)

    The network fetch ([axios.get] of the profile URL with [hl=en] added by
    the [URL] class) and the HTML parser ([cheerio.load]) are collaborators
    the scraper only calls.  They are the variables [fetch] and [load] of the
    section: [fetch] gives the page or the message of its error, and [load]
    gives the parsed document or fails.  Everything the scraper does with
    the document is modelled: the name, the publication rows, the
    positional citation metrics, the interests, the fallback path and the
    returned object.  The observer only logs and is not modelled. *)

From S2P Require Import Prelude JsString Types Dom.

(** The object literal returned on line 176: a [Partial<ScholarData>] with
    these five fields. *)
Record Scraped : Type := mkScraped {
  s_name : jstr;
  s_profileUrl : jstr;
  s_publications : list Publication.t;
  s_citations : option Citations.t;
  s_interests : list jstr
}.

Definition scholar_base : jstr := js "https://scholar.google.com".

(** The value of a string that is [undefined] when empty ([s || undefined]). *)
Definition nonempty (s : jstr) : option jstr := if truthy s then Some s else None.

(** ** One publication row (lines 93–119); [None] is the early [return]
    of a row without a title. *)
Definition scrape_row (row : node) : option Publication.t :=
  let titleElement := find (ByClass (js "gsc_a_at")) row in
  let title := trim (sel_text titleElement) in
  if negb (truthy title) then None else
  let url := match sel_attr titleElement (js "href") with
             | Some href => if truthy href then Some (scholar_base ++ href) else None
             | None => None
             end in
  let grays := find (ByClass (js "gs_gray")) row in
  let authors := trim (sel_text (sel_first grays)) in
  let venueYear := trim (sel_text (sel_last grays)) in
  let journalYear := split venueYear (js ", ") in
  let journal := match journalYear with j :: _ => nonempty j | [] => None end in
  let year := if (1 <? length journalYear)%nat then nth_error journalYear 1 else None in
  let citationsText := trim (sel_text (find (ByClass (js "gsc_a_ac")) row)) in
  let citations := if truthy citationsText then parseInt citationsText else NFin 0 in
  Some (Publication.mk title authors journal year (Some citations) url).

Definition scrape_publications (doc : list node) : list Publication.t :=
  omap scrape_row (select doc (ByClass (js "gsc_a_tr"))).

(** ** The citation metrics (lines 125–140): a loop over the matched
    elements with their index. *)
Definition empty_citations : Citations.t := Citations.mk (NFin 0) None None.

Definition metric_step (c : Citations.t) (idx : nat) (element : node) : Citations.t :=
  let value := parseInt (trim (text_of element)) in
  let c0 := if (idx =? 0)%nat
            then Citations.mk (if isNaN value then NFin 0 else value) (Citations.h_index c)
                   (Citations.i10_index c)
            else c in
  let c2 := if (idx =? 2)%nat
            then Citations.mk (Citations.total c0) (if isNaN value then None else Some value)
                   (Citations.i10_index c0)
            else c0 in
  if (idx =? 4)%nat
  then Citations.mk (Citations.total c2) (Citations.h_index c2)
         (if isNaN value then None else Some value)
  else c2.

Fixpoint metrics_go (idx : nat) (elements : list node) (c : Citations.t) : Citations.t :=
  match elements with
  | [] => c
  | el :: els => metrics_go (S idx) els (metric_step c idx el)
  end.

Definition scrape_metrics (doc : list node) : Citations.t :=
  metrics_go 0 (select doc (ByClass (js "gsc_rsb_std"))) empty_citations.

(** ** Interests (lines 143–151) and name (line 85) *)
Definition scrape_interests (doc : list node) : list jstr :=
  omap (fun el => nonempty (trim (text_of el))) (select doc (ByClass (js "gsc_prf_ila"))).

Definition scrape_name (doc : list node) : jstr :=
  trim (sel_text (sel_first (select doc (ByClass (js "gsc_prf_in"))))).

(** ** The fallback path (lines 154–168) *)
Definition fallback_pub (el : node) : option Publication.t :=
  match attr_of el (js "href") with
  | Some href =>
      let text := trim (text_of el) in
      if includes href (js "/citations?view_op=view_citation") && truthy text
      then Some (Publication.mk text [] None None None (Some (scholar_base ++ href)))
      else None
  | None => None
  end.

Definition fallback_name (doc : list node) : jstr :=
  trim (replace_first (sel_text (select doc (ByTag (js "title")))) (js " - Google Scholar") []).

(** ** The document part of [scrapeProfile] (lines 82–182) *)
Definition scrape_doc (profileUrl : jstr) (doc : list node) : Scraped :=
  let name0 := scrape_name doc in
  let publications0 := scrape_publications doc in
  let citations := scrape_metrics doc in
  let interests := scrape_interests doc in
  let '(name, publications) :=
    if negb (truthy name0) && (length publications0 =? 0)%nat && (length interests =? 0)%nat
    then (fallback_name doc, publications0 ++ omap fallback_pub (select doc (ByTag (js "a"))))
    else (name0, publications0) in
  mkScraped (if truthy name then name else js "Scholar Profile") profileUrl publications
    (if num_gt0 (Citations.total citations) then Some citations else None) interests.

Definition captcha_marker : jstr := js "Our systems have detected unusual traffic".

Section Scrape.
(** The collaborators: the page fetched for a profile URL, or the message
    of the error; the parser of a page. *)
Variable fetch : jstr -> jstr + jstr.
Variable load : jstr -> option (list node).

Definition scrape_error (msg : jstr) : jstr + Scraped :=
  inl (js "Failed to scrape profile: " ++ msg).

(** [scrapeProfile] (lines 41–187): a rejected promise is [inl] with the
    message of the error the catch block throws. *)
Definition scrapeProfile (profileUrl : jstr) : jstr + Scraped :=
  match fetch profileUrl with
  | inl msg => scrape_error msg
  | inr html =>
      if negb (truthy html) then scrape_error (js "No HTML content returned from Google Scholar")
      else if includes html captcha_marker
      then scrape_error (js "Blocked by Google Scholar (CAPTCHA triggered)")
      else match load html with
           | None => scrape_error (js "Cheerio failed to parse HTML")
           | Some doc => inr (scrape_doc profileUrl doc)
           end
  end.
End Scrape.

(** ** Lemmas *)

(** The value the metrics loop reads from an element. *)
Definition metric_value (el : node) : num := parseInt (trim (text_of el)).

(** The metrics loop writes each field at one index only: the field is
    the update of the element at that index, or its initial value when
    there are not enough elements. *)
Section MetricField.
Context {B : Type} (proj : Citations.t -> B) (k : nat) (u : num -> B).
Hypothesis Hstep : forall c idx el,
  proj (metric_step c idx el) = if (idx =? k)%nat then u (metric_value el) else proj c.

Lemma metrics_go_field i els c :
  proj (metrics_go i els c) =
  match (if (i <=? k)%nat then els !! (k - i) else None) with
  | Some el => u (metric_value el)
  | None => proj c
  end.
Proof.
  revert i c. induction els as [|el els IH]; intros i c; simpl.
  - by destruct (i <=? k)%nat.
  - rewrite IH, Hstep.
    destruct (Nat.compare_spec i k) as [->|Hlt|Hgt].
    + rewrite Nat.eqb_refl, Nat.leb_refl, Nat.sub_diag.
      by rewrite (proj2 (Nat.leb_gt (S k) k)) by lia.
    + rewrite (proj2 (Nat.leb_le (S i) k)), (proj2 (Nat.leb_le i k)) by lia.
      rewrite (proj2 (Nat.eqb_neq i k)) by lia.
      by replace (k - i) with (S (k - S i)) by lia.
    + rewrite (proj2 (Nat.leb_gt (S i) k)), (proj2 (Nat.leb_gt i k)) by lia.
      by rewrite (proj2 (Nat.eqb_neq i k)) by lia.
Qed.
End MetricField.

Lemma metric_step_total c idx el :
  Citations.total (metric_step c idx el) =
  if (idx =? 0)%nat then (if isNaN (metric_value el) then NFin 0 else metric_value el)
  else Citations.total c.
Proof. unfold metric_step. by destruct idx as [|[|[|[|[|]]]]]. Qed.

Lemma metric_step_h_index c idx el :
  Citations.h_index (metric_step c idx el) =
  if (idx =? 2)%nat then (if isNaN (metric_value el) then None else Some (metric_value el))
  else Citations.h_index c.
Proof. unfold metric_step. by destruct idx as [|[|[|[|[|]]]]]. Qed.

Lemma metric_step_i10_index c idx el :
  Citations.i10_index (metric_step c idx el) =
  if (idx =? 4)%nat then (if isNaN (metric_value el) then None else Some (metric_value el))
  else Citations.i10_index c.
Proof. unfold metric_step. by destruct idx as [|[|[|[|[|]]]]]. Qed.

(** The value of a metric at a position, as the loop leaves it. *)
Definition total_at (vals : list num) : num :=
  match vals !! 0 with Some v => if isNaN v then NFin 0 else v | None => NFin 0 end.
Definition index_at (vals : list num) (k : nat) : option num :=
  match vals !! k with Some v => if isNaN v then None else Some v | None => None end.

(** C18: the metrics loop is a positional lookup: the total is the value
    at position 0 of the matched [.gsc_rsb_std] elements (0 when absent or
    not a number), the h-index the value at position 2 and the i10-index
    the value at position 4 (absent when missing or not a number).  The
    other positions are ignored. *)
Theorem scrape_metrics_positional doc :
  let vals := metric_value <$> select doc (ByClass (js "gsc_rsb_std")) in
  scrape_metrics doc = Citations.mk (total_at vals) (index_at vals 2) (index_at vals 4).
Proof.
  intros vals. unfold total_at, index_at, vals. rewrite !list_lookup_fmap.
  destruct (scrape_metrics doc) as [t h i] eqn:E.
  assert (Ht := metrics_go_field Citations.total 0
                  (fun v => if isNaN v then NFin 0 else v) metric_step_total).
  assert (Hh := metrics_go_field Citations.h_index 2
                  (fun v => if isNaN v then None else Some v) metric_step_h_index).
  assert (Hi := metrics_go_field Citations.i10_index 4
                  (fun v => if isNaN v then None else Some v) metric_step_i10_index).
  unfold scrape_metrics in E.
  specialize (Ht 0 (select doc (ByClass (js "gsc_rsb_std"))) empty_citations).
  specialize (Hh 0 (select doc (ByClass (js "gsc_rsb_std"))) empty_citations).
  specialize (Hi 0 (select doc (ByClass (js "gsc_rsb_std"))) empty_citations).
  rewrite E in Ht, Hh, Hi. simpl in Ht, Hh, Hi. rewrite Ht, Hh, Hi.
  by repeat destruct (_ !! _).
Qed.

(** A non-empty string without white space at either end. *)
Definition trimmed_nonempty (s : jstr) : Prop := s <> [] /\ trim s = s.

Lemma trimmed_nonempty_trim s : truthy (trim s) = true -> trimmed_nonempty (trim s).
Proof. intros H%truthy_true. split; [done|apply trim_idem]. Qed.

Lemma nonempty_trim s v : nonempty (trim s) = Some v -> trimmed_nonempty v.
Proof.
  unfold nonempty. destruct (truthy (trim s)) eqn:E; [|done].
  intros [= <-]. by apply trimmed_nonempty_trim.
Qed.

Lemma Forall_omap {A B} (f : A -> option B) (P : B -> Prop) l :
  (forall x y, f x = Some y -> P y) -> Forall P (omap f l).
Proof.
  intros Hf. induction l as [|x l IH]; simpl; [constructor|].
  destruct (f x) eqn:E; [constructor; [by eapply Hf|]|]; done.
Qed.

Lemma scrape_row_title row p :
  scrape_row row = Some p -> trimmed_nonempty (Publication.title p).
Proof.
  unfold scrape_row. destruct (truthy _) eqn:E; simpl; [|done].
  intros [= <-]. by apply trimmed_nonempty_trim.
Qed.

Lemma fallback_pub_title el p :
  fallback_pub el = Some p -> trimmed_nonempty (Publication.title p).
Proof.
  unfold fallback_pub. destruct (attr_of el _); [|done].
  destruct (includes _ _) eqn:E1, (truthy _) eqn:E2; simpl; try done.
  intros [= <-]. by apply trimmed_nonempty_trim.
Qed.

(** The shape of every object [scrapeProfile] returns. *)
Definition scraped_wf (s : Scraped) : Prop :=
  trimmed_nonempty (s_name s) /\
  Forall (fun p => trimmed_nonempty (Publication.title p)) (s_publications s) /\
  Forall trimmed_nonempty (s_interests s) /\
  (forall c, s_citations s = Some c -> num_gt0 (Citations.total c) = true).

Lemma scholar_profile_trimmed : trimmed_nonempty (js "Scholar Profile").
Proof. split; [done|reflexivity]. Qed.

Lemma trimmed_name_or_default s :
  trimmed_nonempty (if truthy (trim s) then trim s else js "Scholar Profile").
Proof.
  destruct (truthy (trim s)) eqn:E; [by apply trimmed_nonempty_trim|apply scholar_profile_trimmed].
Qed.

(** The name of a scraped profile is never empty. *)
Lemma scrape_doc_name profileUrl doc : trimmed_nonempty (s_name (scrape_doc profileUrl doc)).
Proof. unfold scrape_doc. destruct (_ && _ && _); apply trimmed_name_or_default. Qed.

Lemma scrapeProfile_inr fetch load profileUrl s :
  scrapeProfile fetch load profileUrl = inr s -> exists doc, s = scrape_doc profileUrl doc.
Proof.
  unfold scrapeProfile, scrape_error. destruct (fetch profileUrl); [done|].
  destruct (negb _); [done|]. destruct (includes _ _); [done|].
  destruct (load _) as [doc|]; [|done]. intros [= <-]. by exists doc.
Qed.

(** C19: the object the scraper returns on any document: a name that is
    never empty (the text found, trimmed, or ['Scholar Profile']),
    publications and interests with non-empty trimmed titles, and
    citation metrics present only with a positive total.  So the handler's
    [!scholarData.name] test can never hold. *)
Theorem scrape_doc_wf profileUrl doc : scraped_wf (scrape_doc profileUrl doc).
Proof.
  unfold scrape_doc.
  assert (Hp : Forall (fun p => trimmed_nonempty (Publication.title p)) (scrape_publications doc))
    by (apply Forall_omap, scrape_row_title).
  assert (Hf : Forall (fun p => trimmed_nonempty (Publication.title p))
                 (omap fallback_pub (select doc (ByTag (js "a")))))
    by (apply Forall_omap, fallback_pub_title).
  assert (Hi : Forall trimmed_nonempty (scrape_interests doc))
    by (apply Forall_omap; intros ? ?; apply nonempty_trim).
  pose proof (scrape_doc_name profileUrl doc) as Hn. unfold scrape_doc in *.
  destruct (_ && _ && _); unfold scraped_wf; simpl in *;
    (split_and!; [exact Hn|try (apply Forall_app; split); done|done|]);
    intros c; destruct (num_gt0 _) eqn:E; by intros [= <-].
Qed.

(** The title a row shows. *)
Definition row_title (row : node) : jstr := trim (sel_text (find (ByClass (js "gsc_a_at")) row)).

Lemma scrape_row_some row :
  truthy (row_title row) = true -> exists p, scrape_row row = Some p /\ Publication.title p = row_title row.
Proof. unfold scrape_row, row_title. intros ->. simpl. by eexists. Qed.

Lemma scrape_row_none row : truthy (row_title row) = false -> scrape_row row = None.
Proof. unfold scrape_row, row_title. by intros ->. Qed.

(** C20: one publication per row of [.gsc_a_tr] that shows a title, in
    document order; a row without a title is skipped. *)
Theorem scrape_publications_titles doc :
  map Publication.title (scrape_publications doc) =
  List.filter truthy (map row_title (select doc (ByClass (js "gsc_a_tr")))).
Proof.
  unfold scrape_publications. induction (select doc _) as [|row rows IH]; [done|].
  cbn [map List.filter]. destruct (truthy (row_title row)) eqn:E.
  - destruct (scrape_row_some row E) as (p & Hp & Ht).
    rewrite <- IH, <- Ht. unfold omap. simpl. by rewrite Hp.
  - rewrite <- IH. unfold omap. simpl. by rewrite scrape_row_none.
Qed.

(** The first code unit of a trimmed string is not white space. *)
Lemma trim_cons s c rest : trim s = c :: rest -> is_ws c = false.
Proof.
  intros H. pose proof (trim_end_starts_nonws _ (trim_start_starts_nonws s)) as Hs.
  unfold trim in H. rewrite H in Hs. exact Hs.
Qed.

Lemma parseInt_not_numeric c rest :
  is_ws c = false -> is_digit c = false -> c <> 43%N -> c <> 45%N -> parseInt (c :: rest) = NaN.
Proof.
  intros Hw Hd Hp Hm. unfold parseInt. simpl. rewrite Hw.
  destruct (N.eq_dec c 45) as [->|_]; [done|]. destruct (N.eq_dec c 43) as [->|_]; [done|].
  replace (match c with 45%N => _ | _ => _ end) with (false, c :: rest)
    by (destruct c as [|p]; [done|]; repeat (destruct p as [p|p|]; try done)).
  simpl. by rewrite Hd.
Qed.

(** C21: a publication whose citation cell holds text that is not a number
    (it starts with a code unit other than a digit, [+] or [-]) gets NaN
    citations: [parseInt] is not followed by the [isNaN] test the metrics
    have.  The spec asks for 0. *)
Theorem scrape_row_citations_nan row c rest :
  truthy (row_title row) = true ->
  trim (sel_text (find (ByClass (js "gsc_a_ac")) row)) = c :: rest ->
  is_digit c = false -> c <> 43%N -> c <> 45%N ->
  exists p, scrape_row row = Some p /\ Publication.citations p = Some NaN.
Proof.
  intros Ht Hc Hd Hp Hm. unfold scrape_row. unfold row_title in Ht. rewrite Ht. simpl.
  eexists; split; [reflexivity|]. simpl. rewrite Hc. simpl.
  by rewrite (parseInt_not_numeric c rest (trim_cons _ _ _ Hc)).
Qed.

(** The last code unit of a trimmed string is not white space. *)
Lemma trim_rev_nonws s : starts_nonws (rev (trim s)).
Proof.
  unfold trim, trim_end. rewrite rev_involutive. apply trim_start_starts_nonws.
Qed.

Lemma starts_nonws_rev_tail c n : n <> [] -> starts_nonws (rev (c :: n)) -> starts_nonws (rev n).
Proof.
  intros Hn. simpl. destruct (rev n) as [|x r] eqn:E; [|done].
  apply (f_equal (@rev N)) in E. rewrite rev_involutive in E. by subst.
Qed.

(** The first occurrence of a separator [" -..."] after a text that has
    no hyphen and does not end in white space is right after the text. *)
Lemma index_of_after_text n p' :
  ~ In 45%N n -> starts_nonws (rev n) ->
  index_of (n ++ 32%N :: 45%N :: p') (32%N :: 45%N :: p') = Some (length n).
Proof.
  induction n as [|c n IH]; intros Hh Hl; [apply index_of_refl|].
  rewrite <- app_comm_cons, index_of_cons. cbn [is_prefix].
  destruct n as [|d n'].
  - simpl in Hl. rewrite (proj2 (N.eqb_neq 32 c)) by (intros <-; discriminate).
    cbn [andb app]. by rewrite index_of_refl.
  - rewrite <- app_comm_cons. cbn [is_prefix].
    rewrite (proj2 (N.eqb_neq 45 d)) by (intros <-; apply Hh; simpl; auto).
    rewrite andb_false_r. cbn [andb].
    rewrite <- app_comm_cons in *. rewrite IH; [done|intros H; apply Hh; by right|].
    by apply (starts_nonws_rev_tail c).
Qed.

(** C22: the fallback path.  On a page where none of the name, row and
    interest selectors matches, with a title ["<n> - Google Scholar"] where
    [n] is a trimmed non-empty text without hyphen, the name is [n]. *)
Theorem scrape_doc_fallback_name profileUrl doc n :
  select doc (ByClass (js "gsc_prf_in")) = [] ->
  select doc (ByClass (js "gsc_a_tr")) = [] ->
  select doc (ByClass (js "gsc_prf_ila")) = [] ->
  sel_text (select doc (ByTag (js "title"))) = n ++ js " - Google Scholar" ->
  trimmed_nonempty n -> ~ In 45%N n ->
  s_name (scrape_doc profileUrl doc) = n.
Proof.
  intros Hn Hr Hi Ht [Hne Htr] Hh.
  unfold scrape_doc, scrape_name, scrape_publications, scrape_interests.
  rewrite Hn, Hr, Hi. simpl.
  unfold fallback_name. rewrite Ht. unfold replace_first.
  change (js " - Google Scholar") with (32%N :: 45%N :: js " Google Scholar").
  rewrite index_of_after_text; [|done|rewrite <- Htr; apply trim_rev_nonws].
  rewrite take_app_length, drop_ge by (rewrite length_app; simpl; lia).
  rewrite !app_nil_r, Htr. by rewrite (proj2 (truthy_true n)).
Qed.

(** C23: the errors of [scrapeProfile].  It returns an object exactly when
    the fetch gives a non-empty page without the bot-block marker that
    the parser accepts: a page where no selector matches is not an error.
    Every error message starts with ["Failed to scrape profile: "], and a
    page with the marker gives the CAPTCHA message. *)
Theorem scrapeProfile_errors fetch load profileUrl :
  ((exists s, scrapeProfile fetch load profileUrl = inr s) <->
   (exists html doc, fetch profileUrl = inr html /\ html <> [] /\
      includes html captcha_marker = false /\ load html = Some doc)) /\
  (forall msg, scrapeProfile fetch load profileUrl = inl msg ->
     exists m, msg = js "Failed to scrape profile: " ++ m) /\
  (forall html, fetch profileUrl = inr html -> html <> [] -> includes html captcha_marker = true ->
     scrapeProfile fetch load profileUrl =
     inl (js "Failed to scrape profile: Blocked by Google Scholar (CAPTCHA triggered)")).
Proof.
  unfold scrapeProfile, scrape_error.
  destruct (fetch profileUrl) as [m|html].
  - split_and!; [split; [by intros [? ?]|by intros (? & ? & ? & _)]|by intros ? [= <-]; eexists|done].
  - destruct (truthy html) eqn:Et; cbn [negb].
    + pose proof (proj1 (truthy_true html) Et) as Hne.
      destruct (includes html captcha_marker) eqn:Ec.
      * split_and!; [split; [by intros [? ?]|by intros (? & ? & [= <-] & _ & Hc & _); congruence]
                    |by intros ? [= <-]; eexists|by intros ? [= <-]].
      * split_and!; [split|..|by intros ? [= <-] _ Hc; congruence].
        -- intros [s Hs]. destruct (load html) as [doc|] eqn:El; [by exists html, doc; split_and!|done].
        -- intros (? & doc & [= <-] & _ & _ & ->). by eexists.
        -- destruct (load html); [by intros ? [=]|]. by intros ? [= <-]; eexists.
    + assert (Hemp : ~ html <> []) by (rewrite <- truthy_true, Et; done).
      split_and!; [split; [by intros [? ?]|]|by intros ? [= <-]; eexists|].
      * by intros (? & ? & [= <-] & Hne & _).
      * by intros ? [= <-] Hne.
Qed.

(** ** Witnesses *)

Definition el (tag cls : string) (children : list node) : node :=
  Element (js tag) [(js "class", js cls)] children.

(** A row whose citation cell reads ["x"]. *)
Definition row_x : node :=
  el "tr" "gsc_a_tr"
    [el "td" "gsc_a_t" [Element (js "a") [(js "class", js "gsc_a_at"); (js "href", js "/c?v=1")]
                         [Text (js "Deep nets")]];
     el "td" "gsc_a_ac" [Text (js " x ")]].

Lemma scrape_row_citations_nan_witness :
  truthy (row_title row_x) = true /\
  trim (sel_text (find (ByClass (js "gsc_a_ac")) row_x)) = 120%N :: [] /\
  is_digit 120%N = false /\ 120%N <> 43%N /\ 120%N <> 45%N /\
  exists p, scrape_row row_x = Some p /\ Publication.citations p = Some NaN.
Proof.
  refine (conj _ (conj _ (conj _ (conj _ (conj _ _))))); [reflexivity|reflexivity|reflexivity|lia|lia|].
  apply (scrape_row_citations_nan row_x 120%N []); (reflexivity || lia).
Defined.

(** The scenario of the spec: a page with no primary match and the title
    ["Jane Roe - Google Scholar"]. *)
Definition jane_roe_page : list node :=
  [Element (js "html") []
     [Element (js "head") [] [Element (js "title") [] [Text (js "Jane Roe - Google Scholar")]];
      Element (js "body") [] [el "div" "gs_top" [Text (js "Profile")]]]].

Lemma scrape_doc_fallback_name_witness :
  select jane_roe_page (ByClass (js "gsc_prf_in")) = [] /\
  select jane_roe_page (ByClass (js "gsc_a_tr")) = [] /\
  select jane_roe_page (ByClass (js "gsc_prf_ila")) = [] /\
  sel_text (select jane_roe_page (ByTag (js "title"))) = js "Jane Roe" ++ js " - Google Scholar" /\
  trimmed_nonempty (js "Jane Roe") /\ ~ In 45%N (js "Jane Roe") /\
  s_name (scrape_doc (js "https://scholar.google.com/citations?user=x") jane_roe_page) = js "Jane Roe".
Proof.
  assert (Ht : trimmed_nonempty (js "Jane Roe")) by (split; [discriminate|reflexivity]).
  assert (Hh : ~ In 45%N (js "Jane Roe")) by (simpl; intuition lia).
  refine (conj eq_refl (conj eq_refl (conj eq_refl (conj eq_refl (conj Ht (conj Hh _)))))).
  apply scrape_doc_fallback_name; (reflexivity || exact Ht || exact Hh).
Defined.
