(* ===== verification/ScholarApi.v ===== *)
(** * The Scholar API: [handler] of [src/src/pages/api/fetch-scholar-data.ts]
      (lines 191–252)

    The module has its own [limiter] (lines 8–11), checked with the fixed
    token ['scholar_api'].  The handler validates [profileUrl] with a
    case-insensitive regular expression, runs [scrapeProfile] with the
    collaborators [fetch] and [load] of [Scholar], and answers with the
    scraped object or a "limited data" object.  Its [catch] block answers
    429 when the error message is ['Rate limit exceeded'] and 500
    otherwise.  The limiter has then already answered 429 on the same
    response. *)

From S2P Require Import Prelude JsString Regex Types Http RateLimit Dom Scholar.

Record ScholarRequest : Type := mkScholarRequest {
  s_method : jstr;
  body_profileUrl : option jstr
}.

(** [const limiter = rateLimit({ interval: 60 * 1000, uniqueTokenPerInterval: 10 })] *)
Definition scholar_limiter : Limiter := rateLimit (60 * 1000) 10.

(** [/^https:\/\/scholar\.google\.(com|co\.[a-z]{2})\/(citations|scholar).*/i] *)
Definition scholar_url_re : regex :=
  seqs [Bol; lit (js "https://scholar.google.");
        Group 1 (Alt (lit (js "com"))
                     (Seq (lit (js "co.")) (Repeat (Class false [CRange 97 122]) 2 (Some 2) true)));
        Char 47;
        Group 2 (Alt (lit (js "citations")) (lit (js "scholar")));
        star Dot].

(** ** [JSON.stringify] of the answers *)

(** The two publication literals (lines 111 and 161) list their keys in
    different orders.  A row publication always has [citations], a
    fallback one never has, which tells them apart. *)
Definition scraped_pub_json (p : Publication.t) : json :=
  match Publication.citations p with
  | Some c =>
      JObj ([(js "title", JStr (Publication.title p))]
            ++ opt_field (js "url") (JStr <$> Publication.url p)
            ++ [(js "authors", JStr (Publication.authors p))]
            ++ opt_field (js "journal") (JStr <$> Publication.journal p)
            ++ opt_field (js "year") (JStr <$> Publication.year p)
            ++ [(js "citations", num_to_json c)])
  | None =>
      JObj ([(js "title", JStr (Publication.title p)); (js "authors", JStr (Publication.authors p))]
            ++ opt_field (js "url") (JStr <$> Publication.url p))
  end.

Definition citations_json (c : Citations.t) : json :=
  JObj ([(js "total", num_to_json (Citations.total c))]
        ++ opt_field (js "h_index") (num_to_json <$> Citations.h_index c)
        ++ opt_field (js "i10_index") (num_to_json <$> Citations.i10_index c)).

(** The object of line 176. *)
Definition scraped_json (s : Scraped) : json :=
  JObj ([(js "name", JStr (s_name s)); (js "profileUrl", JStr (s_profileUrl s));
         (js "publications", JArr (map scraped_pub_json (s_publications s)))]
        ++ opt_field (js "citations") (citations_json <$> s_citations s)
        ++ [(js "interests", JArr (map JStr (s_interests s)))]).

(** The "limited data" object of lines 226–232. *)
Definition limited_json (s : Scraped) (profileUrl : jstr) : json :=
  JObj [(js "name", JStr (if truthy (s_name s) then s_name s else js "Scholar Profile"));
        (js "profileUrl", JStr profileUrl);
        (js "publications", JArr []); (js "interests", JArr []);
        (js "message", JStr (js "Limited data could be retrieved"))].

(** The catch block (lines 237–251). *)
Definition scholar_catch (res : Response) (message : jstr) : Response :=
  if message =s? js "Rate limit exceeded"
  then res_status_json res 429 (err_body (js "Too many requests. Please try again later."))
  else res_status_json res 500
         (JObj [(js "error", JStr (js "Failed to fetch scholar data"));
                (js "details", JStr message);
                (js "tip", JStr (js "Google Scholar may be blocking automated access. Try again later or with a different profile."))]).

Section ScholarHandler.
Variable fetch : jstr -> jstr + jstr.
Variable load : jstr -> option (list node).

(** The handler at time [now] with the module's limiter as state. *)
Definition scholar_handler (lim : Limiter) (now : Z) (req : ScholarRequest) : Limiter * Response :=
  let res := fresh_response in
  if negb (s_method req =s? js "POST")
  then (lim, res_status_json res 405 (err_body (js "Method not allowed")))
  else
    let '(r, lim', res1) := check lim now res 5 (js "scholar_api") in
    match r with
    | RejectedRateLimit => (lim', scholar_catch res1 (js "Rate limit exceeded"))
    | Resolved =>
        match body_profileUrl req with
        | None | Some [] => (lim', res_status_json res1 400 (err_body (js "Profile URL is required")))
        | Some profileUrl =>
            if negb (test true profileUrl scholar_url_re)
            then (lim', res_status_json res1 400 (err_body (js "Invalid Google Scholar profile URL")))
            else
              match scrapeProfile fetch load profileUrl with
              | inl message => (lim', scholar_catch res1 message)
              | inr s =>
                  if negb (truthy (s_name s))
                     || ((length (s_publications s) =? 0)%nat && (length (s_interests s) =? 0)%nat)
                  then (lim', res_status_json res1 200 (limited_json s profileUrl))
                  else (lim', res_status_json res1 200 (scraped_json s))
              end
        end
    end.
End ScholarHandler.

(** ** Lemmas *)

Lemma scholar_handler_post fetch load lim now req :
  s_method req = js "POST" ->
  scholar_handler fetch load lim now req =
  let '(r, lim', res1) := check lim now fresh_response 5 (js "scholar_api") in
  match r with
  | RejectedRateLimit => (lim', scholar_catch res1 (js "Rate limit exceeded"))
  | Resolved =>
      match body_profileUrl req with
      | None | Some [] => (lim', res_status_json res1 400 (err_body (js "Profile URL is required")))
      | Some profileUrl =>
          if negb (test true profileUrl scholar_url_re)
          then (lim', res_status_json res1 400 (err_body (js "Invalid Google Scholar profile URL")))
          else
            match scrapeProfile fetch load profileUrl with
            | inl message => (lim', scholar_catch res1 message)
            | inr s =>
                if negb (truthy (s_name s))
                   || ((length (s_publications s) =? 0)%nat && (length (s_interests s) =? 0)%nat)
                then (lim', res_status_json res1 200 (limited_json s profileUrl))
                else (lim', res_status_json res1 200 (scraped_json s))
            end
      end
  end.
Proof. intros Hm. unfold scholar_handler. by rewrite Hm, jstr_eqb_refl. Qed.

(** The check of a resolved request leaves the response unsent and whole. *)
Lemma check_resolved_unsent lim now lim' res1 :
  check lim now fresh_response 5 (js "scholar_api") = (Resolved, lim', res1) ->
  res_body res1 = None /\ res_crashed res1 = false.
Proof.
  intros Hc. pose proof (check_response lim now fresh_response 5 (js "scholar_api") eq_refl) as Hr.
  rewrite Hc in Hr. by destruct Hr.
Qed.

(** A scrape error never carries the limiter's message. *)
Lemma scrape_error_message fetch load u msg :
  scrapeProfile fetch load u = inl msg -> (msg =s? js "Rate limit exceeded") = false.
Proof.
  assert (Hne : forall m', (js "Failed to scrape profile: " ++ m' =s? js "Rate limit exceeded") = false)
    by (intros m'; apply jstr_eqb_neq; discriminate).
  unfold scrapeProfile, scrape_error. destruct (fetch u); [by intros [= <-]|].
  destruct (negb _); [by intros [= <-]|]. destruct (includes _ _); [by intros [= <-]|].
  destruct (load _); [done|]. by intros [= <-].
Qed.

(** ** Properties of the route *)

(** C24: a POST refused by the limiter: the client receives the limiter's
    429 [{ error: 'Rate limit exceeded' }].  The catch block recognises
    the message and answers 429 a second time on the sent response, which
    throws. *)
Theorem scholar_handler_rate_limited fetch load lim now req lim' res1 :
  s_method req = js "POST" ->
  check lim now fresh_response 5 (js "scholar_api") = (RejectedRateLimit, lim', res1) ->
  let '(lim2, res) := scholar_handler fetch load lim now req in
  lim2 = lim' /\ res_body res = Some (429%N, err_body (js "Rate limit exceeded")) /\
  res_crashed res = true.
Proof.
  intros Hm Hc.
  pose proof (check_response lim now fresh_response 5 (js "scholar_api") eq_refl) as Hr.
  rewrite Hc in Hr. destruct Hr as [_ Hb].
  rewrite scholar_handler_post, Hc by done. unfold scholar_catch. rewrite jstr_eqb_refl.
  split; [done|]. by apply res_status_json_resent with (v := (429%N, _)).
Qed.

(** C25: a valid URL whose page is scraped: the answer is 200, sent once.
    It is the scraped object when the profile has a publication or an
    interest.  Otherwise it is the "limited data" object, which has no
    [citations] even when the metrics were read.  The [!name] test of the
    handler never decides, because a scraped name is never empty. *)
Theorem scholar_handler_answer fetch load lim now req lim' res1 u s :
  s_method req = js "POST" -> body_profileUrl req = Some u -> u <> [] ->
  check lim now fresh_response 5 (js "scholar_api") = (Resolved, lim', res1) ->
  test true u scholar_url_re = true -> scrapeProfile fetch load u = inr s ->
  let '(lim2, res) := scholar_handler fetch load lim now req in
  lim2 = lim' /\ res_crashed res = false /\
  res_body res = Some (200%N,
    if (length (s_publications s) =? 0)%nat && (length (s_interests s) =? 0)%nat
    then limited_json s u else scraped_json s).
Proof.
  intros Hm Hu Hne Hc Ht Hs.
  destruct (check_resolved_unsent _ _ _ _ Hc) as [Hb Hcr].
  destruct (scrapeProfile_inr _ _ _ _ Hs) as [doc ->].
  destruct (scrape_doc_name u doc) as [Hn _].
  rewrite scholar_handler_post, Hc, Hu by done. destruct u as [|c u']; [done|].
  rewrite Ht, Hs. cbn [negb]. rewrite (proj2 (truthy_true _) Hn). cbn [negb orb].
  assert (Hns : res_sent res1 = false) by (unfold res_sent; by rewrite Hb).
  destruct (_ && _); rewrite res_status_json_fresh by done; by split_and!.
Qed.

(** C26: a fetch, block or parse error of a valid URL is answered 500 with
    the scraper's message as [details]; it is never taken for the
    limiter's error. *)
Theorem scholar_handler_scrape_error fetch load lim now req lim' res1 u msg :
  s_method req = js "POST" -> body_profileUrl req = Some u -> u <> [] ->
  check lim now fresh_response 5 (js "scholar_api") = (Resolved, lim', res1) ->
  test true u scholar_url_re = true -> scrapeProfile fetch load u = inl msg ->
  let '(lim2, res) := scholar_handler fetch load lim now req in
  lim2 = lim' /\ res_crashed res = false /\
  res_body res = Some (500%N, JObj [(js "error", JStr (js "Failed to fetch scholar data"));
      (js "details", JStr msg);
      (js "tip", JStr (js "Google Scholar may be blocking automated access. Try again later or with a different profile."))]).
Proof.
  intros Hm Hu Hne Hc Ht Hs.
  destruct (check_resolved_unsent _ _ _ _ Hc) as [Hb Hcr].
  rewrite scholar_handler_post, Hc, Hu by done. destruct u as [|c u']; [done|].
  rewrite Ht, Hs. cbn [negb]. unfold scholar_catch. rewrite (scrape_error_message _ _ _ _ Hs).
  assert (Hns : res_sent res1 = false) by (unfold res_sent; by rewrite Hb).
  rewrite res_status_json_fresh by done. by split_and!.
Qed.

(** ** Witnesses *)

Definition scholar_post (u : string) : ScholarRequest := mkScholarRequest (js "POST") (Some (js u)).

Definition scholar_first_check : CheckResult * Limiter * Response :=
  check scholar_limiter 1 fresh_response 5 (js "scholar_api").

Lemma scholar_first_check_resolved :
  scholar_first_check = (Resolved, scholar_first_check.1.2, scholar_first_check.2).
Proof. vm_compute. reflexivity. Qed.

(** Five requests at times 1 to 5 use up the window of the token. *)
Definition scholar_exhausted : Limiter :=
  fold_left (fun lim t => (check lim t fresh_response 5 (js "scholar_api")).1.2)
    [1; 2; 3; 4; 5]%Z scholar_limiter.

Definition scholar_sixth_check : CheckResult * Limiter * Response :=
  check scholar_exhausted 6 fresh_response 5 (js "scholar_api").

Lemma scholar_sixth_check_rejected :
  check scholar_exhausted 6 fresh_response 5 (js "scholar_api")
  = (RejectedRateLimit, scholar_sixth_check.1.2, scholar_sixth_check.2).
Proof. vm_compute. reflexivity. Qed.

(** A page with a name and citation metrics, but no row and no interest. *)
Definition metrics_only_page : list node :=
  [Element (js "html") []
     [Element (js "body") []
        [el "div" "gsc_prf_in" [Text (js "Jane Roe")];
         el "td" "gsc_rsb_std" [Text (js "120")]; el "td" "gsc_rsb_std" [Text (js "80")];
         el "td" "gsc_rsb_std" [Text (js "12")]]]].

Definition page_fetch (u : jstr) : jstr + jstr := inr (js "<html>...</html>").
Definition page_load (html : jstr) : option (list node) := Some metrics_only_page.
Definition failing_fetch (u : jstr) : jstr + jstr := inl (js "timeout of 10000ms exceeded").

Definition jane_url : string := "https://scholar.google.com/citations?user=jane".

Lemma scholar_handler_rate_limited_witness :
  s_method (scholar_post jane_url) = js "POST" /\
  check scholar_exhausted 6 fresh_response 5 (js "scholar_api")
    = (RejectedRateLimit, scholar_sixth_check.1.2, scholar_sixth_check.2) /\
  let '(lim2, res) := scholar_handler page_fetch page_load scholar_exhausted 6 (scholar_post jane_url) in
  lim2 = scholar_sixth_check.1.2 /\
  res_body res = Some (429%N, err_body (js "Rate limit exceeded")) /\ res_crashed res = true.
Proof.
  split; [done|]. split; [exact scholar_sixth_check_rejected|].
  exact (scholar_handler_rate_limited page_fetch page_load scholar_exhausted 6 (scholar_post jane_url) _ _ eq_refl
           scholar_sixth_check_rejected).
Defined.

(** The metrics are read ([citations] of the scraped object is present),
    and the answer is the limited object without them. *)
Lemma scholar_handler_answer_witness :
  s_method (scholar_post jane_url) = js "POST" /\
  body_profileUrl (scholar_post jane_url) = Some (js jane_url) /\ js jane_url <> [] /\
  check scholar_limiter 1 fresh_response 5 (js "scholar_api")
    = (Resolved, scholar_first_check.1.2, scholar_first_check.2) /\
  test true (js jane_url) scholar_url_re = true /\
  scrapeProfile page_fetch page_load (js jane_url) = inr (scrape_doc (js jane_url) metrics_only_page) /\
  s_citations (scrape_doc (js jane_url) metrics_only_page) <> None /\
  let '(lim2, res) := scholar_handler page_fetch page_load scholar_limiter 1 (scholar_post jane_url) in
  lim2 = scholar_first_check.1.2 /\ res_crashed res = false /\
  res_body res = Some (200%N,
    if (length (s_publications (scrape_doc (js jane_url) metrics_only_page)) =? 0)%nat
       && (length (s_interests (scrape_doc (js jane_url) metrics_only_page)) =? 0)%nat
    then limited_json (scrape_doc (js jane_url) metrics_only_page) (js jane_url)
    else scraped_json (scrape_doc (js jane_url) metrics_only_page)).
Proof.
  assert (Ht : test true (js jane_url) scholar_url_re = true) by (vm_compute; reflexivity).
  assert (Hs : scrapeProfile page_fetch page_load (js jane_url)
               = inr (scrape_doc (js jane_url) metrics_only_page)) by (vm_compute; reflexivity).
  refine (conj eq_refl (conj eq_refl (conj _ (conj scholar_first_check_resolved
            (conj Ht (conj Hs (conj _ _))))))); [discriminate|vm_compute; discriminate|].
  exact (scholar_handler_answer page_fetch page_load scholar_limiter 1 (scholar_post jane_url) _ _ _ _ eq_refl eq_refl
           ltac:(discriminate) scholar_first_check_resolved Ht Hs).
Defined.

Lemma scholar_handler_scrape_error_witness :
  s_method (scholar_post jane_url) = js "POST" /\
  body_profileUrl (scholar_post jane_url) = Some (js jane_url) /\ js jane_url <> [] /\
  check scholar_limiter 1 fresh_response 5 (js "scholar_api")
    = (Resolved, scholar_first_check.1.2, scholar_first_check.2) /\
  test true (js jane_url) scholar_url_re = true /\
  scrapeProfile failing_fetch page_load (js jane_url)
    = inl (js "Failed to scrape profile: timeout of 10000ms exceeded") /\
  let '(lim2, res) := scholar_handler failing_fetch page_load scholar_limiter 1 (scholar_post jane_url) in
  lim2 = scholar_first_check.1.2 /\ res_crashed res = false /\
  res_body res = Some (500%N, JObj [(js "error", JStr (js "Failed to fetch scholar data"));
      (js "details", JStr (js "Failed to scrape profile: timeout of 10000ms exceeded"));
      (js "tip", JStr (js "Google Scholar may be blocking automated access. Try again later or with a different profile."))]).
Proof.
  assert (Ht : test true (js jane_url) scholar_url_re = true) by (vm_compute; reflexivity).
  refine (conj eq_refl (conj eq_refl (conj _ (conj scholar_first_check_resolved
            (conj Ht (conj eq_refl _)))))); [discriminate|].
  exact (scholar_handler_scrape_error failing_fetch page_load scholar_limiter 1 (scholar_post jane_url) _ _ _ _ eq_refl eq_refl
           ltac:(discriminate) scholar_first_check_resolved Ht eq_refl).
Defined.
