(* ===== verification/ResumePatterns.v ===== *)
(** * The regular-expression literals of [src/src/pages/api/parse-resume.ts]

    Each literal of [PdfParser.extractResumeData] is written in the syntax
    of [Regex], with its groups numbered as in the source.  Whether a
    pattern has the [i] flag is passed to the matcher where it is used
    ([ResumeParser]).  Non-ASCII characters are written as code units:
    [•] is 0x2022, [·] is 0xB7, [–] is 0x2013. *)

From S2P Require Import Prelude JsString Regex.

Definition bullet : N := 0x2022.
Definition middot : N := 0xB7.
Definition en_dash : N := 0x2013.
Definition nl : N := 10.

(** [/[a-zA-Z0-9._%+-]+@[a-zA-Z0-9.-]+\.[a-zA-Z]{2,}/] (line 35) *)
Definition email_re : regex :=
  seqs [plus (Class false [CRange 97 122; CRange 65 90; CRange 48 57;
                           CChar 46; CChar 95; CChar 37; CChar 43; CChar 45]);
        Char 64;
        plus (Class false [CRange 97 122; CRange 65 90; CRange 48 57; CChar 46; CChar 45]);
        Char 46;
        Repeat (Class false [CRange 97 122; CRange 65 90]) 2 None true].

(** [[-.\s]] *)
Definition sep_class : regex := Class false [CChar 45; CChar 46; CSpace].

(** [/(\+\d{1,3}[-.\s]?)?(\(?\d{3}\)?[-.\s]?){1,2}\d{3,4}(-?\d{3,4})?/] (line 40) *)
Definition phone_re : regex :=
  seqs [opt (Group 1 (seqs [Char 43; Repeat esc_d 1 (Some 3) true; opt sep_class]));
        Repeat (Group 2 (seqs [opt (Char 40); Repeat esc_d 3 (Some 3) true; opt (Char 41); opt sep_class]))
          1 (Some 2) true;
        Repeat esc_d 3 (Some 4) true;
        opt (Group 3 (seqs [opt (Char 45); Repeat esc_d 3 (Some 4) true]))].

(** A section pattern: the header, [[\s\n]*], an optional separator, the
    lazy body as group 1, and a lookahead for the next header. *)
Definition section_re (header : string) (sep : regex) (stops : list regex) : regex :=
  seqs [lit (js header); star (Class false [CSpace; CChar nl]); sep;
        Group 1 (lazy_star any_char); Look (alts stops)].

Definition skills_stops : list regex :=
  [lit (js "EDUCATION"); lit (js "EXPERIENCE"); lit (js "PROJECTS"); lit (js "ACHIEVEMENTS");
   lit (js "LANGUAGES"); lit [nl; nl]].

(** [[:•]?] *)
Definition colon_or_bullet : regex := opt (Class false [CChar 58; CChar bullet]).

(** [skillsPatterns] (lines 48–52), with the [i] flag. *)
Definition skillsPatterns : list regex :=
  [section_re "SKILLS" colon_or_bullet skills_stops;
   section_re "TECHNICAL" colon_or_bullet skills_stops;
   section_re "TECHNICAL SKILLS" colon_or_bullet skills_stops].

(** [/[•·\-]/] (line 70) *)
Definition bullet_re : regex := Class false [CChar bullet; CChar middot; CChar 45].

(** [/\b[A-Za-z0-9.+_-]+\b/g] (line 96) *)
Definition word_re : regex :=
  seqs [WordB; plus (Class false [CRange 65 90; CRange 97 122; CRange 48 57;
                                  CChar 46; CChar 43; CChar 95; CChar 45]); WordB].

(** [/EXPERIENCE[\s\S]*?(?=EDUCATION|SKILLS|PROJECTS|ACHIEVEMENTS|$)/i] (line 122) *)
Definition exp_section_re : regex :=
  seqs [lit (js "EXPERIENCE"); lazy_star any_char;
        Look (alts [lit (js "EDUCATION"); lit (js "SKILLS"); lit (js "PROJECTS");
                    lit (js "ACHIEVEMENTS"); Eol])].

(** [/using\s+([A-ZaZ0-9,.\s]+)(?=\s+to|\s*,|\s*\.)/ig] (line 125): the
    class reads [A-Z], [a], [Z], digits, [,], [.] and white space. *)
Definition using_re : regex :=
  seqs [lit (js "using"); plus esc_s;
        Group 1 (plus (Class false [CRange 65 90; CChar 97; CChar 90; CRange 48 57;
                                    CChar 44; CChar 46; CSpace]));
        Look (alts [Seq (plus esc_s) (lit (js "to")); Seq (star esc_s) (Char 44);
                    Seq (star esc_s) (Char 46)])].

(** [/using\s+/i] (line 127) *)
Definition using_prefix_re : regex := Seq (lit (js "using")) (plus esc_s).

(** [/[,\s]+/] (line 128) *)
Definition comma_ws_re : regex := plus (Class false [CChar 44; CSpace]).

(** The section patterns of education (lines 149–152) and experience
    (lines 205–209), with the [i] flag. *)
Definition block_stops (first : string) : list regex :=
  [lit (js first); lit (js "SKILLS"); lit (js "PROJECTS"); lit (js "ACHIEVEMENTS");
   lit (js "LANGUAGES"); lit [nl; nl; nl]].

Definition eduSectionPatterns : list regex :=
  [section_re "EDUCATION" (opt (Char 58)) (block_stops "EXPERIENCE");
   section_re "ACADEMIC" (opt (Char 58)) (block_stops "EXPERIENCE")].

Definition expSectionPatterns : list regex :=
  [section_re "EXPERIENCE" (opt (Char 58)) (block_stops "EDUCATION");
   section_re "WORK EXPERIENCE" (opt (Char 58)) (block_stops "EDUCATION");
   section_re "PROFESSIONAL EXPERIENCE" (opt (Char 58)) (block_stops "EDUCATION")].

(** [/\n\s*\n|\n\s*•/] (lines 160 and 217) *)
Definition entry_re : regex :=
  Alt (seqs [Char nl; star esc_s; Char nl]) (seqs [Char nl; star esc_s; Char bullet]).

(** [/(University|College|Institute|School|Academy|IIT)/i] (line 168) *)
Definition institution_re : regex :=
  Group 1 (alts (map (fun w => lit (js w)) ["University"; "College"; "Institute"; "School"; "Academy"; "IIT"])).

(** [/(Bachelor|Master|PhD|B\.?Tech|M\.?Tech|B\.?E|M\.?E|B\.?S|M\.?S|B\.?A|M\.?A)/i]
    (line 172) *)
Definition degree_re : regex :=
  let dotted (a : string) (rest : string) := seqs [lit (js a); opt (Char 46); lit (js rest)] in
  Group 1 (alts [lit (js "Bachelor"); lit (js "Master"); lit (js "PhD");
                 dotted "B" "Tech"; dotted "M" "Tech"; dotted "B" "E"; dotted "M" "E";
                 dotted "B" "S"; dotted "M" "S"; dotted "B" "A"; dotted "M" "A"]).

(** [(-|–|to)] *)
Definition range_sep : regex := Group 2 (alts [Char 45; Char en_dash; lit (js "to")]).

(** [/(\d{4})\s*(-|–|to)\s*(\d{4}|Present|Current)/i] (line 176) *)
Definition edu_date_re : regex :=
  seqs [Group 1 (Repeat esc_d 4 (Some 4) true); star esc_s; range_sep; star esc_s;
        Group 3 (alts [Repeat esc_d 4 (Some 4) true; lit (js "Present"); lit (js "Current")])].

(** [/(\w+\s*\d{4})\s*(-|–|to)\s*(\w+\s*\d{4}|Present|Current)/i] (line 231) *)
Definition exp_date_re : regex :=
  let month_year := seqs [plus esc_w; star esc_s; Repeat esc_d 4 (Some 4) true] in
  seqs [Group 1 month_year; star esc_s; range_sep; star esc_s;
        Group 3 (alts [month_year; lit (js "Present"); lit (js "Current")])].
