(* ===== verification/ResumeParser.v ===== *)
(** * [PdfParser.extractResumeData] of [src/src/pages/api/parse-resume.ts]
      (lines 27–274)

    The extraction runs on the decoded text of the document.  The steps
    are those of the source, in its order:
    - the name is the first non-blank line;
    - the e-mail and the phone are the first matches of [email_re] and
      [phone_re];
    - the skills come from the first skills section that matches, split on
      bullets, else on commas, else on newlines;
    - when that gives nothing, or only the header word, the fallback
      collects vocabulary words, phrases and "using ..." skills of the
      experience section into an insertion-ordered set;
    - the education and experience blocks come from the first section
      pattern that matches, split into entries.
    The JavaScript [Set] is a list without duplicates, to which [set_add]
    appends. *)

From S2P Require Import Prelude JsString Regex Types ResumePatterns.

(** The object returned on line 264: a [Partial<ResumeData>]. *)
Record Parsed : Type := mkParsed {
  p_name : option jstr;
  p_email : option jstr;
  p_phone : option jstr;
  p_skills : list jstr;
  p_education : list Education.t;
  p_experience : list WorkExperience.t
}.

(** [Set.prototype.add]: a new element goes last. *)
Definition set_add (s : list jstr) (x : jstr) : list jstr :=
  if arr_includes s x then s else s ++ [x].

(** [.map(s => s.trim()).filter(s => s.length > 0)] *)
Definition trim_nonempty (l : list jstr) : list jstr :=
  List.filter truthy (map trim l).

(** [match[0]] of a non-global match, [undefined] when there is none. *)
Definition match0 (ic : bool) (text : jstr) (r : regex) : option jstr :=
  fst <$> str_match ic text r 0.

(** [match[k]] *)
Definition group (ic : bool) (text : jstr) (r : regex) (n k : nat) : option jstr :=
  match str_match ic text r n with
  | Some (_, gs) => mjoin (gs !! (k - 1))
  | None => None
  end.

(** The loop over section patterns (lines 55–61, 154–156, 211–213): the
    group of the first pattern that matches with a non-empty group. *)
Fixpoint first_section (text : jstr) (pats : list regex) : option jstr :=
  match pats with
  | [] => None
  | p :: ps =>
      match group true text p 1 1 with
      | Some g => if truthy g then Some g else first_section text ps
      | None => first_section text ps
      end
  end.

(** ** Skills (lines 45–143) *)

(** Lines 64–82: the section text split by the first delimiter it has. *)
Definition split_skills (skillsText : jstr) : list jstr :=
  if includes skillsText [bullet] || includes skillsText [middot] || includes skillsText [45%N]
  then trim_nonempty (split_re false skillsText bullet_re)
  else if includes skillsText (js ",")
  then trim_nonempty (split skillsText (js ","))
  else trim_nonempty (split skillsText [nl]).

Definition section_skills (text : jstr) : list jstr :=
  let skillsText := default [] (trim <$> first_section text skillsPatterns) in
  if truthy skillsText then split_skills skillsText else [].

(** Line 85: no skill, or only the header word. *)
Definition needs_fallback (skills : list jstr) : bool :=
  match skills with
  | [] => true
  | [s] => to_upper s =s? js "SKILLS"
  | _ => false
  end.

Definition techKeywords : list jstr :=
  map js ["JavaScript"; "TypeScript"; "React"; "React.js"; "Node.js"; "HTML"; "CSS"; "Python";
   "Java"; "C++"; "C#"; "Ruby"; "PHP"; "SQL"; "NoSQL"; "MongoDB"; "Express";
   "Angular"; "Vue"; "AWS"; "Azure"; "Docker"; "Kubernetes"; "Git"; "REST"; "RESTful";
   "API"; "APIs"; "Redux"; "Context API"; "Tailwind"; "Bootstrap"; "Material UI";
   "Next.js"; "Gatsby"; "Webpack"; "Babel"; "SASS"; "SCSS"; "jQuery"; "GraphQL";
   "Firebase"; "Heroku"; "Netlify"; "Vercel"; "TensorFlow"; "PyTorch"; "Flask"; "Django"].

Definition techPhrases : list jstr :=
  map js ["React.js"; "Node.js"; "Machine Learning"; "Deep Learning"; "Data Science";
   "Computer Vision"; "Natural Language Processing"; "Context API"; "Material UI";
   "REST API"; "RESTful API"; "Front End"; "Back End"; "Full Stack"; "Web Development"].

(** Lines 100–106: one word against every keyword. *)
Definition add_keywords (found : list jstr) (word : jstr) : list jstr :=
  fold_left (fun acc keyword =>
    if (word =s? keyword) || (to_lower word =s? to_lower keyword) then set_add acc keyword else acc)
    techKeywords found.

(** Lines 115–119 *)
Definition add_phrases (text : jstr) (found : list jstr) : list jstr :=
  fold_left (fun acc phrase => if includes text phrase then set_add acc phrase else acc)
    techPhrases found.

Definition stop_words : list jstr := map js ["to"; "and"; "the"; "with"].

(** Lines 127–136: the skills of one "using ..." match. *)
Definition using_skills (m : jstr) : list jstr :=
  List.filter (fun s => 2 <? length s)%nat
    (map trim (split_re false (replace_re true m using_prefix_re []) comma_ws_re)).

Definition add_using (found : list jstr) (m : jstr) : list jstr :=
  fold_left (fun acc skill =>
    if truthy skill && negb (arr_includes stop_words (to_lower skill)) then set_add acc skill else acc)
    (using_skills m) found.

(** Lines 122–138 *)
Definition add_experience_skills (text : jstr) (found : list jstr) : list jstr :=
  match match0 true text exp_section_re with
  | Some expSection =>
      if truthy expSection
      then fold_left add_using (default [] (match_all true expSection using_re)) found
      else found
  | None => found
  end.

(** Lines 86–142: the keyword fallback. *)
Definition fallback_skills (text : jstr) : list jstr :=
  let words := default [] (match_all false text word_re) in
  let found := fold_left add_keywords words [] in
  let found := add_phrases text found in
  add_experience_skills text found.

Definition extract_skills (text : jstr) : list jstr :=
  let skills := section_skills text in
  if needs_fallback skills then fallback_skills text else skills.

(** ** Education (lines 146–199) *)

(** [lines.find(pred)] *)
Definition find_line (pred : jstr -> bool) (lines : list jstr) : option jstr := List.find pred lines.

(** [x || y] on optional strings: the first one that is a non-empty string. *)
Definition or_else (x : option jstr) (y : option jstr) : option jstr :=
  match x with Some s => if truthy s then Some s else y | None => y end.

(** Lines 175–186 with the given date pattern. *)
Definition entry_dates (date_re : regex) (lines : list jstr) : jstr * jstr :=
  match find_line (fun l => test true l date_re) lines with
  | Some dateLine =>
      if truthy dateLine then
        match str_match true dateLine date_re 3 with
        | Some (_, gs) => (default [] (mjoin (gs !! 0)), default [] (mjoin (gs !! 2)))
        | None => ([], [])
        end
      else ([], [])
  | None => ([], [])
  end.

(** One education entry (lines 163–194); [None] is the [continue]. *)
Definition education_entry (entry : jstr) : option Education.t :=
  if negb (truthy (trim entry)) then None else
  let lines := map trim (split entry [nl]) in
  let institutionLine := or_else (find_line (fun l => test true l institution_re) lines) (lines !! 0) in
  let degreeLine := find_line (fun l => test true l degree_re) lines in
  let '(startDate, endDate) := entry_dates edu_date_re lines in
  let inst := default [] institutionLine in
  let deg := default [] degreeLine in
  Some (Education.mk
    (default (js "Unknown Institution") (or_else institutionLine None))
    (default (js "Degree") (or_else degreeLine (or_else (lines !! 1) None)))
    (default (js "Unknown Field")
       (or_else (find_line (fun l => negb (includes l inst) && negb (includes l deg)) lines) None))
    (Some startDate) (Some endDate)).

Definition extract_education (text : jstr) : list Education.t :=
  match first_section text eduSectionPatterns with
  | Some g => omap education_entry (split_re false (trim g) entry_re)
  | None => []
  end.

(** ** Experience (lines 202–262) *)

(** [lines.findIndex(pred)], [-1] as [None]. *)
Fixpoint find_index {A} (pred : A -> bool) (l : list A) : option nat :=
  match l with
  | [] => None
  | x :: l' => if pred x then Some 0 else S <$> find_index pred l'
  end.

(** One experience entry (lines 220–257). *)
Definition experience_entry (entry : jstr) : option WorkExperience.t :=
  if negb (truthy (trim entry)) then None else
  let lines := map trim (split entry [nl]) in
  match lines with
  | company :: position :: _ =>
      let dateLine := find_line (fun l => test true l exp_date_re) lines in
      let '(startDate, endDate) := entry_dates exp_date_re lines in
      let descriptionStartIndex :=
        find_index (fun l => negb (l =s? company) && negb (l =s? position)
                             && negb (bool_decide (Some l = dateLine))) lines in
      let description :=
        match descriptionStartIndex with
        | Some (S i) => join (js " ") (drop (S i) lines)
        | _ => []
        end in
      Some (WorkExperience.mk company position (Some startDate) (Some endDate) (Some description))
  | _ => None
  end.

Definition extract_experience (text : jstr) : list WorkExperience.t :=
  match first_section text expSectionPatterns with
  | Some g => omap experience_entry (split_re false (trim g) entry_re)
  | None => []
  end.

(** ** The whole extraction (lines 27–274) *)
Definition extractResumeData (text : jstr) : Parsed :=
  let lines := List.filter (fun l => truthy (trim l)) (split text [nl]) in
  mkParsed (trim <$> head lines)
    (match0 false text email_re) (match0 false text phone_re)
    (extract_skills text) (extract_education text) (extract_experience text).

(** ** A section is found only before a following header *)

Lemma section_re_seqs header sep stops :
  section_re header sep stops =
  seqs ([lit (js header); star (Class false [CSpace; CChar nl]); sep;
         Group 1 (lazy_star any_char)] ++ [Look (alts stops)]).
Proof. reflexivity. Qed.

Lemma group_section_never text header sep ws :
  Forall (fun w => w <> [] /\ occurs true w text = false) ws -> ws <> [] ->
  group true text (section_re header sep (map lit ws)) 1 1 = None.
Proof.
  intros Hws Hne. unfold group. rewrite section_re_seqs, str_match_look_never; [done|].
  intros z. simpl m. by rewrite (m_alts_never true text ws Hws Hne z).
Qed.

Lemma first_section_never text pats :
  Forall (fun p => group true text p 1 1 = None) pats -> first_section text pats = None.
Proof. induction 1 as [|p ps Hp _ IH]; simpl; [done|]. by rewrite Hp. Qed.

(** The stops of the education and experience sections, as words. *)
Definition block_stop_words (first : string) : list jstr :=
  [js first; js "SKILLS"; js "PROJECTS"; js "ACHIEVEMENTS"; js "LANGUAGES"; [nl; nl; nl]].

Lemma block_stops_words first : block_stops first = map lit (block_stop_words first).
Proof. reflexivity. Qed.

(** None of the words occurs in the text. *)
Definition absent_from (text : jstr) (ws : list jstr) : Prop :=
  Forall (fun w => occurs true w text = false) ws.

Lemma absent_block_stops text first :
  js first <> [] -> absent_from text (block_stop_words first) ->
  Forall (fun w => w <> [] /\ occurs true w text = false) (block_stop_words first).
Proof.
  unfold absent_from. intros Hf H. apply List.Forall_forall. intros w Hw.
  split; [|exact (proj1 (List.Forall_forall _ _) H w Hw)].
  simpl in Hw. destruct Hw as [<-|[<-|[<-|[<-|[<-|[<-|[]]]]]]]; [exact Hf|..]; cbv; discriminate.
Qed.

(** C27: the experience block is extracted only when something follows
    it.  The section pattern ends in a lookahead for EDUCATION, SKILLS,
    PROJECTS, ACHIEVEMENTS, LANGUAGES or two blank lines.  In a text with
    none of these (in any case) the experience list is empty, whatever the
    EXPERIENCE section holds: a résumé whose last section is its
    experience loses it. *)
Theorem extract_experience_needs_stop text :
  absent_from text (block_stop_words "EDUCATION") -> extract_experience text = [].
Proof.
  intros H. unfold extract_experience. rewrite first_section_never; [done|].
  pose proof (absent_block_stops text "EDUCATION" ltac:(discriminate) H) as Hw.
  unfold expSectionPatterns. rewrite !block_stops_words.
  repeat constructor; apply group_section_never; (exact Hw || discriminate).
Qed.

(** ** The skill split *)

(** The delimiters of the first branch of line 69: [•], [·] and [-]. *)
Definition skill_delim (c : N) : bool := (c =? bullet)%N || (c =? middot)%N || (c =? 45)%N.

Lemma bullet_re_delim c : class_has false [CChar bullet; CChar middot; CChar 45] c = skill_delim c.
Proof.
  unfold class_has, skill_delim. cbn [existsb item_mem].
  by rewrite orb_false_r, orb_assoc, (N.eqb_sym bullet c), (N.eqb_sym middot c), (N.eqb_sym 45 c).
Qed.

(** C28: a skills text that holds a bullet, a middle dot or a hyphen is
    cut at every one of these characters, the pieces trimmed and the empty
    ones dropped (spec §3, "bullet characters (•, ·, -) first").  So a
    hyphen inside a skill also cuts it, even in a comma-separated list:
    "Python, scikit-learn" gives "Python, scikit" and "learn". *)
Theorem split_skills_delims skillsText :
  includes skillsText [bullet] || includes skillsText [middot] || includes skillsText [45%N] = true ->
  split_skills skillsText = trim_nonempty (split_on skill_delim skillsText).
Proof.
  intros H. unfold split_skills. rewrite H. unfold bullet_re. rewrite split_re_class.
  f_equal. apply split_on_ext, bullet_re_delim.
Qed.

Lemma split_skills_delims_witness :
  includes (js "Python, scikit-learn") [bullet] || includes (js "Python, scikit-learn") [middot]
    || includes (js "Python, scikit-learn") [45%N] = true /\
  split_skills (js "Python, scikit-learn") = trim_nonempty (split_on skill_delim (js "Python, scikit-learn")) /\
  trim_nonempty (split_on skill_delim (js "Python, scikit-learn")) = [js "Python, scikit"; js "learn"].
Proof.
  assert (H : includes (js "Python, scikit-learn") [bullet] || includes (js "Python, scikit-learn") [middot]
                || includes (js "Python, scikit-learn") [45%N] = true) by (vm_compute; reflexivity).
  split; [exact H|]. split; [exact (split_skills_delims _ H)|]. vm_compute. reflexivity.
Defined.

(** A résumé whose experience section ends the text. *)
Definition last_experience_resume : jstr :=
  join [nl] (map js ["Jane Roe"; "jane@example.com"; "EXPERIENCE"; "Acme Corp"; "Engineer";
                     "Jan 2019 - Present"; "Built services using Go, Rust."]).

Lemma extract_experience_needs_stop_witness :
  absent_from last_experience_resume (block_stop_words "EDUCATION") /\
  extract_experience last_experience_resume = [].
Proof.
  assert (H : absent_from last_experience_resume (block_stop_words "EDUCATION"))
    by (repeat constructor; vm_compute; reflexivity).
  exact (conj H (extract_experience_needs_stop last_experience_resume H)).
Defined.
