(* ===== verification/ResumeApi.v ===== *)
(** * The resume route of [src/src/pages/api/parse-resume.ts] (lines 16–341)

    The parser interface (lines 17–19) has two implementations: [PdfParser]
    decodes with [pdf-parse] and [DocxParser] with [mammoth], and both
    extract with [PdfParser.extractResumeData] ([ResumeParser]).  The
    factory picks one by MIME type.  The handler guards the method, reads
    the upload of [formidable], checks the type, reads the file, parses,
    deletes the temporary file and answers 200; every throw ends in the
    catch block (500).  The decoders and the file system are section
    variables: a throw is an [inl] carrying the error's message.  The
    handler also returns the paths it deleted, so that the fate of the
    temporary file is part of its result. *)

From S2P Require Import Prelude JsString Regex Types Http ResumePatterns ResumeParser.

(** The formidable [File] as far as the handler reads it. *)
Record UploadedFile : Type := mkUploadedFile {
  mimetype : option jstr;
  filepath : jstr
}.

(** The request: its method, and what [form.parse(req)] gives: a throw, or
    [files.resumeFile] (absent as [None]). *)
Record ResumeRequest : Type := mkResumeRequest {
  rq_method : jstr;
  rq_files : jstr + option (list UploadedFile)
}.

Definition pdf_type : jstr := js "application/pdf".
Definition docx_type : jstr :=
  js "application/vnd.openxmlformats-officedocument.wordprocessingml.document".

(** Line 320 *)
Definition allowedTypes : list jstr := [pdf_type; docx_type].

(** The two classes that implement [Parser]. *)
Inductive Parser : Type := PdfParser | DocxParser.

#[export] Instance Parser_eq_dec : EqDecision Parser.
Proof. solve_decision. Defined.

(** [ResumeParserFactory.createParser] (lines 290–299) *)
Definition createParser (fileType : jstr) : jstr + Parser :=
  if fileType =s? pdf_type then inr PdfParser
  else if fileType =s? docx_type then inr DocxParser
  else inl (js "Unsupported file type: " ++ fileType).

(** [DocxParser.extractResumeData] (lines 283–287): a fresh [PdfParser]'s. *)
Definition DocxParser_extractResumeData (text : jstr) : Parsed := extractResumeData text.

(** ** [JSON.stringify] of the answer (line 335)

    The entries pushed on lines 188 and 251 have every field a string; the
    [contact] object has [email] and [phone], left out when [undefined],
    and so is [name]. *)
Definition education_json (e : Education.t) : json :=
  JObj ([(js "institution", JStr (Education.institution e)); (js "degree", JStr (Education.degree e));
         (js "field", JStr (Education.field e))]
        ++ opt_field (js "startDate") (JStr <$> Education.startDate e)
        ++ opt_field (js "endDate") (JStr <$> Education.endDate e)).

Definition experience_json (w : WorkExperience.t) : json :=
  JObj ([(js "company", JStr (WorkExperience.company w)); (js "position", JStr (WorkExperience.position w))]
        ++ opt_field (js "startDate") (JStr <$> WorkExperience.startDate w)
        ++ opt_field (js "endDate") (JStr <$> WorkExperience.endDate w)
        ++ opt_field (js "description") (JStr <$> WorkExperience.description w)).

Definition parsed_json (p : Parsed) : json :=
  JObj (opt_field (js "name") (JStr <$> p_name p)
        ++ [(js "contact", JObj (opt_field (js "email") (JStr <$> p_email p)
                                 ++ opt_field (js "phone") (JStr <$> p_phone p)));
            (js "skills", JArr (map JStr (p_skills p)));
            (js "education", JArr (map education_json (p_education p)));
            (js "experience", JArr (map experience_json (p_experience p)))]).

(** The catch block (lines 337–340). *)
Definition resume_catch (res : Response) (message : jstr) : Response :=
  res_status_json res 500 (err_body (js "Failed to parse resume: " ++ message)).

Section ResumeHandler.
Context {Buffer : Type}.
Variable readFileSync : jstr -> jstr + Buffer.
Variable pdfParse : Buffer -> jstr + jstr.
Variable extractRawText : Buffer -> jstr + jstr.
Variable unlinkSync : jstr -> option jstr.

(** [PdfParser.parse] (lines 22–25) *)
Definition PdfParser_parse (buffer : Buffer) : jstr + Parsed :=
  match pdfParse buffer with inl e => inl e | inr text => inr (extractResumeData text) end.

(** [DocxParser.parse] (lines 278–281) *)
Definition DocxParser_parse (buffer : Buffer) : jstr + Parsed :=
  match extractRawText buffer with inl e => inl e | inr text => inr (DocxParser_extractResumeData text) end.

(** [parser.parse(buffer)]: the method of the parser's class. *)
Definition parse (p : Parser) : Buffer -> jstr + Parsed :=
  match p with PdfParser => PdfParser_parse | DocxParser => DocxParser_parse end.

(** [handler] (lines 301–341): the response and the deleted paths. *)
Definition resume_handler (req : ResumeRequest) : Response * list jstr :=
  let res := fresh_response in
  if negb (rq_method req =s? js "POST")
  then (res_status_json res 405 (err_body (js "Method not allowed")), [])
  else
    match rq_files req with
    | inl message => (resume_catch res message, [])
    | inr files =>
        match files ≫= (fun l => l !! 0) with
        | None => (res_status_json res 400 (err_body (js "No file uploaded")), [])
        | Some resumeFile =>
            let fileType := default [] (mimetype resumeFile) in
            if negb (arr_includes allowedTypes fileType)
            then (res_status_json res 400
                    (err_body (js "Invalid file type. Please upload PDF or DOCX files only.")), [])
            else
              match readFileSync (filepath resumeFile) with
              | inl message => (resume_catch res message, [])
              | inr fileBuffer =>
                  match createParser fileType with
                  | inl message => (resume_catch res message, [])
                  | inr parser =>
                      match parse parser fileBuffer with
                      | inl message => (resume_catch res message, [])
                      | inr resumeData =>
                          match unlinkSync (filepath resumeFile) with
                          | Some message => (resume_catch res message, [])
                          | None => (res_status_json res 200 (parsed_json resumeData),
                                     [filepath resumeFile])
                          end
                      end
                  end
              end
        end
    end.

End ResumeHandler.

(** ** The factory and the allow-list *)

Lemma allowed_pdf : arr_includes allowedTypes pdf_type = true.
Proof. vm_compute. reflexivity. Qed.

Lemma allowed_docx : arr_includes allowedTypes docx_type = true.
Proof. vm_compute. reflexivity. Qed.

(** C29: the factory and the allow-list of the handler agree: the factory
    gives a parser exactly for the two allowed MIME types, so its
    "Unsupported file type" error is never reached from the handler. *)
Theorem createParser_allowed t :
  (exists p, createParser t = inr p) <-> arr_includes allowedTypes t = true.
Proof.
  unfold createParser, arr_includes, allowedTypes. simpl. rewrite !(jstr_eqb_sym _ t), orb_false_r.
  destruct (t =s? pdf_type), (t =s? docx_type); simpl; split; try by eauto.
  by intros [? ?].
Qed.

Lemma createParser_pdf : createParser pdf_type = inr PdfParser.
Proof. vm_compute. reflexivity. Qed.

Lemma createParser_docx : createParser docx_type = inr DocxParser.
Proof. vm_compute. reflexivity. Qed.

(** The handler once the upload is a file of an allowed type. *)
Lemma handler_allowed {B} rf pp er ul req files f t :
  rq_method req = js "POST" -> rq_files req = inr files -> files ≫= (fun l => l !! 0) = Some f ->
  mimetype f = Some t -> arr_includes allowedTypes t = true ->
  @resume_handler B rf pp er ul req =
  match rf (filepath f) with
  | inl message => (resume_catch fresh_response message, [])
  | inr fileBuffer =>
      match createParser t with
      | inl message => (resume_catch fresh_response message, [])
      | inr parser =>
          match parse pp er parser fileBuffer with
          | inl message => (resume_catch fresh_response message, [])
          | inr resumeData =>
              match ul (filepath f) with
              | Some message => (resume_catch fresh_response message, [])
              | None => (res_status_json fresh_response 200 (parsed_json resumeData), [filepath f])
              end
          end
      end
  end.
Proof. intros Hm Hfs Hf Ht Ha. unfold resume_handler. rewrite Hm, jstr_eqb_refl, Hfs, Hf, Ht. cbn zeta. change (default [] (Some t)) with t. by rewrite Ha. Qed.

(** Which decoder an allowed type goes to, and what it gives. *)
Definition decoded_by {B} (pp er : B -> jstr + jstr) (t : jstr) (buf : B) (r : jstr + jstr) : Prop :=
  (t = pdf_type /\ pp buf = r) \/ (t = docx_type /\ er buf = r).

Lemma decoded_by_parse {B} (pp er : B -> jstr + jstr) t buf r :
  decoded_by pp er t buf r ->
  arr_includes allowedTypes t = true /\
  exists p, createParser t = inr p /\
            parse pp er p buf = match r with inl e => inl e | inr text => inr (extractResumeData text) end.
Proof.
  intros [[-> Hp] | [-> Hp]].
  - split; [exact allowed_pdf|]. exists PdfParser. split; [exact createParser_pdf|].
    simpl. unfold PdfParser_parse. by rewrite Hp.
  - split; [exact allowed_docx|]. exists DocxParser. split; [exact createParser_docx|].
    simpl. unfold DocxParser_parse. by rewrite Hp.
Qed.

(** ** Properties of the route *)



(** The success path of the handler. *)
Lemma resume_handler_ok {B} rf pp er ul req files f t (buf : B) text :
  rq_method req = js "POST" -> rq_files req = inr files -> files ≫= (fun l => l !! 0) = Some f ->
  mimetype f = Some t -> rf (filepath f) = inr buf -> decoded_by pp er t buf (inr text) ->
  ul (filepath f) = None ->
  resume_handler rf pp er ul req =
  (res_status_json fresh_response 200 (parsed_json (extractResumeData text)), [filepath f]).
Proof.
  intros Hm Hfs Hf Ht Hr Hd Hu.
  destruct (decoded_by_parse pp er t buf _ Hd) as [Ha [p [Hc Hp]]].
  by rewrite (handler_allowed rf pp er ul req files f t), Hr, Hc, Hp, Hu.
Qed.

(** C30: an upload of a PDF or DOCX file that is read, decoded to [text]
    and deleted is answered 200 with the JSON of [extractResumeData text],
    for either type, and the temporary file is deleted. *)
Theorem resume_handler_success {B} rf pp er ul req files f t (buf : B) text :
  rq_method req = js "POST" -> rq_files req = inr files -> files ≫= (fun l => l !! 0) = Some f ->
  mimetype f = Some t -> rf (filepath f) = inr buf -> decoded_by pp er t buf (inr text) ->
  ul (filepath f) = None ->
  resume_handler rf pp er ul req =
  (res_status_json fresh_response 200 (parsed_json (extractResumeData text)), [filepath f]).
Proof. exact (resume_handler_ok rf pp er ul req files f t buf text). Qed.

(** C31: when the decoder of an allowed upload throws, the answer is 500
    "Failed to parse resume: " and the message, and nothing is deleted:
    the temporary file of the upload is left on disk. *)
Theorem resume_handler_parse_error {B} rf pp er ul req files f t (buf : B) message :
  rq_method req = js "POST" -> rq_files req = inr files -> files ≫= (fun l => l !! 0) = Some f ->
  mimetype f = Some t -> rf (filepath f) = inr buf -> decoded_by pp er t buf (inl message) ->
  resume_handler rf pp er ul req =
  (res_status_json fresh_response 500 (err_body (js "Failed to parse resume: " ++ message)), []).
Proof.
  intros Hm Hfs Hf Ht Hr Hd.
  destruct (decoded_by_parse pp er t buf _ Hd) as [Ha [p [Hc Hp]]].
  by rewrite (handler_allowed rf pp er ul req files f t), Hr, Hc, Hp.
Qed.

(** C32: an upload whose MIME type is missing or not PDF or DOCX is
    answered 400 before anything is read, decoded or deleted: the answer
    does not depend on the file system or the decoders. *)
Theorem resume_handler_invalid_type {B} rf pp er ul req files f :
  rq_method req = js "POST" -> rq_files req = inr files -> files ≫= (fun l => l !! 0) = Some f ->
  arr_includes allowedTypes (default [] (mimetype f)) = false ->
  @resume_handler B rf pp er ul req =
  (res_status_json fresh_response 400
     (err_body (js "Invalid file type. Please upload PDF or DOCX files only.")), []).
Proof. intros Hm Hfs Hf Ha. unfold resume_handler. by rewrite Hm, jstr_eqb_refl, Hfs, Hf; cbn zeta; rewrite Ha. Qed.

(** ** Witnesses *)

Definition upload_path : jstr := js "/tmp/upload_1".

Definition upload_request (t : option jstr) : ResumeRequest :=
  mkResumeRequest (js "POST") (inr (Some [mkUploadedFile t upload_path])).

Definition sample_resume : jstr :=
  join [nl] (map js ["Jane Roe"; "jane@example.com"; "SKILLS: Python, SQL"; ""; "EDUCATION"; "MIT";
                     "BS Computer Science"; "2015 - 2019"; ""; ""; ""]).

Definition read_ok (p : jstr) : jstr + unit := inr tt.
Definition decode_ok (b : unit) : jstr + jstr := inr sample_resume.
Definition decode_fail (b : unit) : jstr + jstr := inl (js "Invalid PDF structure").
Definition unlink_ok (p : jstr) : option jstr := None.

Lemma resume_handler_success_witness :
  let req := upload_request (Some docx_type) in
  rq_method req = js "POST" /\
  decoded_by decode_fail decode_ok docx_type tt (inr sample_resume) /\
  resume_handler read_ok decode_fail decode_ok unlink_ok req =
  (res_status_json fresh_response 200 (parsed_json (extractResumeData sample_resume)), [upload_path]).
Proof.
  assert (Hd : decoded_by decode_fail decode_ok docx_type tt (inr sample_resume))
    by (right; split; reflexivity).
  split; [reflexivity|]. split; [exact Hd|].
  exact (resume_handler_success read_ok decode_fail decode_ok unlink_ok (upload_request (Some docx_type))
           _ (mkUploadedFile (Some docx_type) upload_path) docx_type tt sample_resume
           eq_refl eq_refl eq_refl eq_refl eq_refl Hd eq_refl).
Defined.

Lemma resume_handler_parse_error_witness :
  let req := upload_request (Some pdf_type) in
  decoded_by decode_fail decode_ok pdf_type tt (inl (js "Invalid PDF structure")) /\
  resume_handler read_ok decode_fail decode_ok unlink_ok req =
  (res_status_json fresh_response 500
     (err_body (js "Failed to parse resume: " ++ js "Invalid PDF structure")), []).
Proof.
  assert (Hd : decoded_by decode_fail decode_ok pdf_type tt (inl (js "Invalid PDF structure")))
    by (left; split; reflexivity).
  split; [exact Hd|].
  exact (resume_handler_parse_error read_ok decode_fail decode_ok unlink_ok (upload_request (Some pdf_type))
           _ (mkUploadedFile (Some pdf_type) upload_path) pdf_type tt _
           eq_refl eq_refl eq_refl eq_refl eq_refl Hd).
Defined.

Lemma resume_handler_invalid_type_witness :
  arr_includes allowedTypes (js "text/plain") = false /\
  resume_handler read_ok decode_ok decode_ok unlink_ok (upload_request (Some (js "text/plain"))) =
  (res_status_json fresh_response 400
     (err_body (js "Invalid file type. Please upload PDF or DOCX files only.")), []).
Proof.
  assert (Ha : arr_includes allowedTypes (js "text/plain") = false) by (vm_compute; reflexivity).
  split; [exact Ha|].
  exact (resume_handler_invalid_type read_ok decode_ok decode_ok unlink_ok
           (upload_request (Some (js "text/plain"))) _ (mkUploadedFile (Some (js "text/plain")) upload_path)
           eq_refl eq_refl eq_refl Ha).
Defined.
