(* ===== verification/Redux.v ===== *)
(** * The Redux store of [src/src/redux/]

    [store.ts] combines three slices, [resume], [scholar] and [projects].
    A slice's state is a plain JavaScript object.  A reducer written with
    Immer's assignments ([state.loading = true]) sets one property.  A
    reducer that returns [{ ...state, ...action.payload, ... }] spreads
    the payload's own properties over the state.  [initialState] is
    returned by the clear actions.  The model keeps the state as an object
    (an association list in creation order) so that a payload with a
    missing or extra property behaves as it does in the browser.  The
    values are JSON data, [undefined] (the initial [name] and [summary]) and
    the browser's [File] of [setFile].

    Every action goes to every slice reducer ([combineReducers]); a slice
    changes only on its own action types.  The three thunks of
    [src/src/redux/thunks/] dispatch [pending], run their payload creator,
    and dispatch [fulfilled] with [response.data] or [rejected] with the
    error's message.  The server's answer is a [Response] of [Http]; axios
    resolves on a 2xx status and rejects otherwise. *)

From S2P Require Import Prelude JsString Types Http ResumeParser ResumeApi.

(** ** Objects *)

Inductive value : Type :=
| VUndef
| VJson (j : json)
| VFile (f : File.t).

Abbreviation obj := (list (jstr * value)).

Definition prop_get (o : obj) (k : jstr) : option value :=
  snd <$> List.find (fun kv => fst kv =s? k) o.

(** [o[k] = v]: update in place, or create the property last. *)
Fixpoint prop_put (o : obj) (k : jstr) (v : value) : obj :=
  match o with
  | [] => [(k, v)]
  | (k', v') :: o' => if k' =s? k then (k, v) :: o' else (k', v') :: prop_put o' k v
  end.

(** [{ ...o, ...p }]: the own properties of [p] in order. *)
Definition spread (o p : obj) : obj := fold_left (fun acc kv => prop_put acc kv.1 kv.2) p o.

(** The own enumerable properties of a parsed JSON value: the members of
    an object, the indices of an array or of a string; none otherwise. *)
Definition own_props (j : json) : obj :=
  match j with
  | JObj fs => map (fun kv => (kv.1, VJson kv.2)) fs
  | JArr l => imap (fun i x => (N_to_dec (N.of_nat i), VJson x)) l
  | JStr s => imap (fun i c => (N_to_dec (N.of_nat i), VJson (JStr [c]))) s
  | _ => []
  end.

(** [action.error.message || default] *)
Definition error_message (message : option jstr) (default_msg : string) : value :=
  VJson (JStr (match message with Some m => if truthy m then m else js default_msg | None => js default_msg end)).

(** ** The actions of the three slices and thunks *)

Inductive action : Type :=
| SetFile (f : option File.t)
| ClearResumeData
| ParseResumePending
| ParseResumeFulfilled (payload : json)
| ParseResumeRejected (message : option jstr)
| SetProfileUrl (u : jstr)
| ClearScholarData
| FetchScholarPending
| FetchScholarFulfilled (payload : json)
| FetchScholarRejected (message : option jstr)
| ClearSuggestions
| GeneratePending
| GenerateFulfilled (payload : json)
| GenerateRejected (message : option jstr).

(** ** [resumeSlice.ts] *)

Definition resume_initial : obj :=
  [(js "name", VUndef); (js "contact", VJson (JObj [])); (js "summary", VUndef);
   (js "education", VJson (JArr [])); (js "experience", VJson (JArr []));
   (js "skills", VJson (JArr [])); (js "loading", VJson (JBool false));
   (js "error", VJson JNull); (js "file", VJson JNull)].

(** [pending]: [state.loading = true; state.error = null]. *)
Definition start_loading (state : obj) : obj :=
  prop_put (prop_put state (js "loading") (VJson (JBool true))) (js "error") (VJson JNull).

(** [{ ...state, ...action.payload, loading: false, error: null }] *)
Definition merge_payload (state : obj) (payload : json) : obj :=
  spread (spread state (own_props payload))
    [(js "loading", VJson (JBool false)); (js "error", VJson JNull)].

(** [rejected]: [state.loading = false; state.error = message || default]. *)
Definition fail_loading (state : obj) (message : option jstr) (default_msg : string) : obj :=
  prop_put (prop_put state (js "loading") (VJson (JBool false))) (js "error")
    (error_message message default_msg).

Definition resumeReducer (state : obj) (a : action) : obj :=
  match a with
  | SetFile f => prop_put state (js "file") (match f with Some f => VFile f | None => VJson JNull end)
  | ClearResumeData => resume_initial
  | ParseResumePending => start_loading state
  | ParseResumeFulfilled payload => merge_payload state payload
  | ParseResumeRejected message => fail_loading state message "Failed to parse resume"
  | _ => state
  end.

(** ** [scholarSlice.ts] *)

Definition scholar_initial : obj :=
  [(js "profileUrl", VJson (JStr [])); (js "publications", VJson (JArr []));
   (js "interests", VJson (JArr [])); (js "loading", VJson (JBool false)); (js "error", VJson JNull)].

Definition scholarReducer (state : obj) (a : action) : obj :=
  match a with
  | SetProfileUrl u => prop_put state (js "profileUrl") (VJson (JStr u))
  | ClearScholarData => scholar_initial
  | FetchScholarPending => start_loading state
  | FetchScholarFulfilled payload => merge_payload state payload
  | FetchScholarRejected message => fail_loading state message "Failed to fetch scholar data"
  | _ => state
  end.

(** ** [projectsSlice.ts] *)

Definition projects_initial : obj :=
  [(js "suggestions", VJson (JArr [])); (js "loading", VJson (JBool false)); (js "error", VJson JNull)].

Definition projectsReducer (state : obj) (a : action) : obj :=
  match a with
  | ClearSuggestions => projects_initial
  | GeneratePending => start_loading state
  | GenerateFulfilled payload =>
      prop_put (prop_put state (js "loading") (VJson (JBool false))) (js "suggestions") (VJson payload)
  | GenerateRejected message => fail_loading state message "Failed to generate project suggestions"
  | _ => state
  end.

(** ** [store.ts]: the root state and reducer *)

Record RootState : Type := mkRoot {
  resume : obj;
  scholar : obj;
  projects : obj
}.

Definition root_initial : RootState := mkRoot resume_initial scholar_initial projects_initial.

Definition rootReducer (s : RootState) (a : action) : RootState :=
  mkRoot (resumeReducer (resume s) a) (scholarReducer (scholar s) a) (projectsReducer (projects s) a).

(** [store.dispatch] of a sequence of actions. *)
Definition dispatch_all (s : RootState) (l : list action) : RootState := fold_left rootReducer l s.

(** ** The thunks of [src/src/redux/thunks/] *)

(** [axios.post]: resolves with [response.data] on a 2xx status and
    rejects with axios's message otherwise; it stays pending when the
    route never answers. *)
Definition axios_settle (res : Response) : option (jstr + json) :=
  match res_body res with
  | None => None
  | Some (code, body) =>
      if (200 <=? code)%N && (code <? 300)%N then Some (inr body)
      else Some (inl (js "Request failed with status code " ++ N_to_dec code))
  end.

(** The actions a settled payload creator dispatches after [pending]. *)
Definition settle (ok : json -> action) (ko : option jstr -> action) (res : Response) : list action :=
  match axios_settle res with
  | Some (inr data) => [ok data]
  | Some (inl message) => [ko (Some message)]
  | None => []
  end.

(** [parseResume] ([resumeThunks.ts]): the route's answer to the upload. *)
Definition parseResume (res : Response) : list action :=
  ParseResumePending :: settle ParseResumeFulfilled ParseResumeRejected res.

(** [fetchScholarData] ([scholarThunks.ts]) *)
Definition fetchScholarData (profileUrl : jstr) (res : Response) : list action :=
  FetchScholarPending ::
  if negb (truthy profileUrl)
  then [FetchScholarRejected (Some (js "Profile URL is required"))]
  else settle FetchScholarFulfilled FetchScholarRejected res.

(** JavaScript truthiness of a JSON value. *)
Definition json_truthy (j : json) : bool :=
  match j with
  | JNull => false
  | JBool b => b
  | JNum (NFin z) => negb (z =? 0)%Z
  | JNum NaN => false
  | JNum _ => true
  | JStr s => truthy s
  | JArr _ | JObj _ => true
  end.

(** [!resumeData.skills.length]: a [TypeError] on [null] and [undefined]. *)
Definition skills_missing (resumeData : obj) : jstr + bool :=
  match prop_get resumeData (js "skills") with
  | Some (VJson (JArr l)) => inr (length l =? 0)%nat
  | Some (VJson (JStr s)) => inr (length s =? 0)%nat
  | Some (VJson (JObj fs)) =>
      inr (match snd <$> List.find (fun kv => fst kv =s? js "length") fs with
           | Some v => negb (json_truthy v) | None => true end)
  | Some (VJson JNull) => inl (js "Cannot read properties of null (reading 'length')")
  | Some VUndef | None => inl (js "Cannot read properties of undefined (reading 'length')")
  | Some _ => inr true
  end.

(** [JSON.stringify] of a state: [undefined] is left out, a [File] has no
    own enumerable property. *)
Definition value_json (v : value) : option json :=
  match v with VUndef => None | VJson j => Some j | VFile _ => Some (JObj []) end.

Definition obj_json (o : obj) : json :=
  JObj (omap (fun kv => pair kv.1 <$> value_json kv.2) o).

(** [generateProjectSuggestions] ([projectThunks.ts]): the payload
    creator reads the state after [pending]; [server] is the route's
    answer to the posted body. *)
Definition generateProjectSuggestions (s : RootState) (server : json -> Response) : list action :=
  let s1 := rootReducer s GeneratePending in
  GeneratePending ::
  match skills_missing (resume s1) with
  | inl message => [GenerateRejected (Some message)]
  | inr true => [GenerateRejected (Some (js "Resume skills are required for project suggestions"))]
  | inr false =>
      settle GenerateFulfilled GenerateRejected
        (server (JObj [(js "resumeData", obj_json (resume s1)); (js "scholarData", obj_json (scholar s1))]))
  end.

(** ** Reachable states: any sequence of dispatched actions *)

Inductive reachable : RootState -> Prop :=
| reach_init : reachable root_initial
| reach_step s a : reachable s -> reachable (rootReducer s a).

(** ** A well-typed state *)

(** [loading] is a boolean. *)
Definition loading_typed (o : obj) : bool :=
  match prop_get o (js "loading") with Some (VJson (JBool _)) => true | _ => false end.

(** [error] is [null] or a string. *)
Definition error_typed (o : obj) : bool :=
  match prop_get o (js "error") with Some (VJson JNull) | Some (VJson (JStr _)) => true | _ => false end.

(** Every property of [initialState] is present, [loading] and [error] are
    typed as [ResumeData], [ScholarData] and [ProjectsState] declare. *)
Definition keys_present (initial o : obj) : bool :=
  forallb (fun k => bool_decide (is_Some (prop_get o k))) (map fst initial).

Definition slice_typed (initial o : obj) : bool :=
  keys_present initial o && loading_typed o && error_typed o.

Definition root_typed (s : RootState) : bool :=
  slice_typed resume_initial (resume s) && slice_typed scholar_initial (scholar s)
  && slice_typed projects_initial (projects s).

(** ** Lemmas on objects *)

Lemma prop_get_put o k v k' :
  prop_get (prop_put o k v) k' = if k =s? k' then Some v else prop_get o k'.
Proof.
  unfold prop_get. induction o as [|[k0 v0] o IH]; simpl.
  - by destruct (k =s? k').
  - destruct (k0 =s? k) eqn:E0; simpl.
    + apply jstr_eqb_eq in E0 as ->. by destruct (k =s? k').
    + destruct (k0 =s? k') eqn:E1; simpl; [|exact IH].
      apply jstr_eqb_eq in E1 as ->. rewrite jstr_eqb_sym in E0. by rewrite E0.
Qed.

Lemma prop_put_present o k v k' : is_Some (prop_get o k') -> is_Some (prop_get (prop_put o k v) k').
Proof. rewrite prop_get_put. by destruct (k =s? k'). Qed.

Lemma spread_present o p k' : is_Some (prop_get o k') -> is_Some (prop_get (spread o p) k').
Proof.
  unfold spread. revert o. induction p as [|kv p IH]; intros o H; simpl; [exact H|].
  apply IH, prop_put_present, H.
Qed.

(** Setting one property keeps the others present. *)
Lemma keys_put initial o k v :
  keys_present initial o = true -> keys_present initial (prop_put o k v) = true.
Proof.
  unfold keys_present. rewrite !forallb_forall. intros H k' Hk. specialize (H k' Hk).
  apply bool_decide_eq_true in H. apply bool_decide_eq_true. by apply prop_put_present.
Qed.

Lemma keys_spread initial o p :
  keys_present initial o = true -> keys_present initial (spread o p) = true.
Proof.
  unfold keys_present. rewrite !forallb_forall. intros H k' Hk. specialize (H k' Hk).
  apply bool_decide_eq_true in H. apply bool_decide_eq_true. by apply spread_present.
Qed.

(** Setting a property other than [loading] and [error] keeps the slice typed. *)
Lemma slice_typed_put initial o k v :
  (js "loading" =s? k) = false -> (js "error" =s? k) = false ->
  slice_typed initial o = true -> slice_typed initial (prop_put o k v) = true.
Proof.
  unfold slice_typed, loading_typed, error_typed. rewrite !prop_get_put, !(jstr_eqb_sym k).
  intros -> -> [[Hk Hl]%andb_true_iff He]%andb_true_iff. by rewrite keys_put, Hl, He.
Qed.

(** Setting [loading] to a boolean, then [error] to [null] or a string. *)
Lemma slice_typed_status initial o b e :
  match e with VJson JNull | VJson (JStr _) => True | _ => False end ->
  keys_present initial o = true ->
  slice_typed initial (prop_put (prop_put o (js "loading") (VJson (JBool b))) (js "error") e) = true.
Proof.
  intros He Hk. unfold slice_typed, loading_typed, error_typed. rewrite !prop_get_put.
  rewrite (keys_put _ _ _ _ (keys_put _ _ _ _ Hk)).
  replace (js "error" =s? js "loading") with false by reflexivity.
  rewrite !jstr_eqb_refl. by destruct e as [|[]|]; try destruct He.
Qed.

Lemma slice_typed_keys initial o : slice_typed initial o = true -> keys_present initial o = true.
Proof. unfold slice_typed. by intros [[-> _]%andb_true_iff _]%andb_true_iff. Qed.

Lemma slice_typed_loading initial o b :
  slice_typed initial o = true -> slice_typed initial (prop_put o (js "loading") (VJson (JBool b))) = true.
Proof.
  unfold slice_typed, loading_typed, error_typed. rewrite !prop_get_put, jstr_eqb_refl.
  replace (js "loading" =s? js "error") with false by reflexivity.
  intros [[Hk _]%andb_true_iff He]%andb_true_iff. by rewrite keys_put, He.
Qed.

Lemma start_loading_typed initial o :
  slice_typed initial o = true -> slice_typed initial (start_loading o) = true.
Proof. intros H. apply slice_typed_status; [done|exact (slice_typed_keys _ _ H)]. Qed.

Lemma fail_loading_typed initial o m d :
  slice_typed initial o = true -> slice_typed initial (fail_loading o m d) = true.
Proof.
  intros H. apply slice_typed_status; [|exact (slice_typed_keys _ _ H)].
  unfold error_message. by destruct m as [m|]; [destruct (truthy m)|].
Qed.

(** Whatever the payload, the spread keeps every property and the two
    assignments after it restore the types of [loading] and [error]. *)
Lemma merge_payload_typed initial o p :
  slice_typed initial o = true -> slice_typed initial (merge_payload o p) = true.
Proof.
  intros H. unfold merge_payload. unfold spread at 1. simpl fold_left.
  apply slice_typed_status; [done|]. apply keys_spread, (slice_typed_keys _ _ H).
Qed.

Create HintDb redux.
#[local] Hint Resolve start_loading_typed fail_loading_typed merge_payload_typed slice_typed_loading : redux.

(** A reducer step on a typed slice: the cases that leave it, reset it,
    or set one property. *)
Ltac slice_step H :=
  first [ exact H | vm_compute; reflexivity | solve [eauto with redux]
        | apply slice_typed_put; [reflexivity | reflexivity | solve [eauto with redux]] ].

(** ** Properties of the store *)

(** C33: in every state the store reaches, whatever actions were
    dispatched and whatever payloads the server sent, each slice has every
    property of its [initialState], [loading] is a boolean and [error] is
    [null] or a string.  A payload that carries [loading] or [error] is
    overwritten by the assignments after the spread. *)
Theorem reachable_typed s : reachable s -> root_typed s = true.
Proof.
  induction 1 as [|s a _ IH]; [vm_compute; reflexivity|].
  unfold root_typed in *. apply andb_true_iff in IH as [[Hr Hs]%andb_true_iff Hp].
  cbn [rootReducer resume scholar projects].
  assert (Hr' : slice_typed resume_initial (resumeReducer (resume s) a) = true)
    by (destruct a; cbn [resumeReducer]; slice_step Hr).
  assert (Hs' : slice_typed scholar_initial (scholarReducer (scholar s) a) = true)
    by (destruct a; cbn [scholarReducer]; slice_step Hs).
  assert (Hp' : slice_typed projects_initial (projectsReducer (projects s) a) = true)
    by (destruct a; cbn [projectsReducer]; slice_step Hp).
  by rewrite Hr', Hs', Hp'.
Qed.

Lemma reachable_dispatch_all s l : reachable s -> reachable (dispatch_all s l).
Proof. unfold dispatch_all. revert s. induction l as [|a l IH]; intros s H; simpl; [exact H|]. by apply IH, reach_step. Qed.

(** A payload that tries to set [loading] and [error]. *)
Definition hostile_payload : json :=
  JObj [(js "loading", JStr (js "yes")); (js "error", JNum (NFin 1)); (js "skills", JNull)].

Lemma reachable_typed_witness :
  reachable (dispatch_all root_initial [ParseResumePending; ParseResumeFulfilled hostile_payload]) /\
  root_typed (dispatch_all root_initial [ParseResumePending; ParseResumeFulfilled hostile_payload]) = true.
Proof.
  assert (H : reachable (dispatch_all root_initial [ParseResumePending; ParseResumeFulfilled hostile_payload]))
    by (apply reachable_dispatch_all, reach_init).
  exact (conj H (reachable_typed _ H)).
Defined.

(** ** Reading the state back with the types of [src/src/types/index.ts]

    The components read the resume slice as a [ResumeData]: a required
    string field is a string, an optional one ([?]) is absent or a string,
    an array field holds elements of its type. *)

Definition jfield (fs : list (jstr * json)) (k : jstr) : option json :=
  snd <$> List.find (fun kv => fst kv =s? k) fs.

Definition str_of (j : json) : option jstr := match j with JStr s => Some s | _ => None end.

(** [k: string] *)
Definition req_str (j : option json) : option jstr := j ≫= str_of.

(** [k?: string] *)
Definition opt_str (j : option json) : option (option jstr) :=
  match j with None => Some None | Some (JStr s) => Some (Some s) | Some _ => None end.

(** [k: T[]] *)
Definition arr_of {A} (dec : json -> option A) (j : option json) : option (list A) :=
  match j with Some (JArr l) => mapM dec l | _ => None end.

(** [interface Education] (lines 2–8) *)
Definition education_of_json (j : json) : option Education.t :=
  match j with
  | JObj fs =>
      i ← req_str (jfield fs (js "institution")); d ← req_str (jfield fs (js "degree"));
      f ← req_str (jfield fs (js "field"));
      sd ← opt_str (jfield fs (js "startDate")); ed ← opt_str (jfield fs (js "endDate"));
      Some (Education.mk i d f sd ed)
  | _ => None
  end.

(** [interface WorkExperience] (lines 10–16) *)
Definition experience_of_json (j : json) : option WorkExperience.t :=
  match j with
  | JObj fs =>
      c ← req_str (jfield fs (js "company")); p ← req_str (jfield fs (js "position"));
      sd ← opt_str (jfield fs (js "startDate")); ed ← opt_str (jfield fs (js "endDate"));
      d ← opt_str (jfield fs (js "description"));
      Some (WorkExperience.mk c p sd ed d)
  | _ => None
  end.

(** The fields of [ResumeData] (lines 26–36) that the parser fills, read
    through [get]. *)
Definition parsed_of_fields (get : jstr -> option json) : option Parsed :=
  name ← opt_str (get (js "name"));
  cs ← (match get (js "contact") with Some (JObj cs) => Some cs | _ => None end);
  email ← opt_str (jfield cs (js "email")); phone ← opt_str (jfield cs (js "phone"));
  skills ← arr_of str_of (get (js "skills"));
  education ← arr_of education_of_json (get (js "education"));
  experience ← arr_of experience_of_json (get (js "experience"));
  Some (mkParsed name email phone skills education experience).

Definition parsed_of_json (j : json) : option Parsed :=
  match j with JObj fs => parsed_of_fields (jfield fs) | _ => None end.

(** What the components read from the resume slice. *)
Definition resume_view (o : obj) : option Parsed := parsed_of_json (obj_json o).

Lemma education_roundtrip e : education_of_json (education_json e) = Some e.
Proof. destruct e as [i d f [sd|] [ed|]]; reflexivity. Qed.

Lemma experience_roundtrip w : experience_of_json (experience_json w) = Some w.
Proof. destruct w as [c p [sd|] [ed|] [d|]]; reflexivity. Qed.

Lemma parsed_of_fields_intro get n cs e ph sk ed ex :
  opt_str (get (js "name")) = Some n -> get (js "contact") = Some (JObj cs) ->
  opt_str (jfield cs (js "email")) = Some e -> opt_str (jfield cs (js "phone")) = Some ph ->
  arr_of str_of (get (js "skills")) = Some sk ->
  arr_of education_of_json (get (js "education")) = Some ed ->
  arr_of experience_of_json (get (js "experience")) = Some ex ->
  parsed_of_fields get = Some (mkParsed n e ph sk ed ex).
Proof.
  intros H1 H2 H3 H4 H5 H6 H7. unfold parsed_of_fields.
  rewrite H1; simpl. rewrite H2; simpl. rewrite H3; simpl. rewrite H4; simpl.
  rewrite H5; simpl. rewrite H6; simpl. by rewrite H7.
Qed.

(** The decoder on any getter that holds the four fields of the route's
    answer: the name decides the rest. *)
Lemma decode_with_name g p n :
  opt_str (g (js "name")) = Some n ->
  g (js "contact") = Some (JObj (opt_field (js "email") (JStr <$> p_email p)
                                 ++ opt_field (js "phone") (JStr <$> p_phone p))) ->
  g (js "skills") = Some (JArr (map JStr (p_skills p))) ->
  g (js "education") = Some (JArr (map education_json (p_education p))) ->
  g (js "experience") = Some (JArr (map experience_json (p_experience p))) ->
  parsed_of_fields g = Some (mkParsed n (p_email p) (p_phone p) (p_skills p) (p_education p) (p_experience p)).
Proof.
  intros Hn Hc Hs He Hx.
  apply parsed_of_fields_intro with
    (cs := opt_field (js "email") (JStr <$> p_email p) ++ opt_field (js "phone") (JStr <$> p_phone p));
    [exact Hn|exact Hc|by destruct (p_email p), (p_phone p)|by destruct (p_email p), (p_phone p)|..];
    [rewrite Hs|rewrite He|rewrite Hx]; apply mapM_map_Some;
    auto using education_roundtrip, experience_roundtrip.
Qed.

(** The members of the route's answer. *)
Lemma parsed_json_members p :
  let get k := match parsed_json p with JObj fs => jfield fs k | _ => None end in
  get (js "name") = (JStr <$> p_name p) /\
  get (js "contact") = Some (JObj (opt_field (js "email") (JStr <$> p_email p)
                                   ++ opt_field (js "phone") (JStr <$> p_phone p))) /\
  get (js "skills") = Some (JArr (map JStr (p_skills p))) /\
  get (js "education") = Some (JArr (map education_json (p_education p))) /\
  get (js "experience") = Some (JArr (map experience_json (p_experience p))).
Proof. destruct p as [[n|] e ph sk ed ex]; vm_compute; auto. Qed.

Lemma parsed_json_decodes p : parsed_of_json (parsed_json p) = Some p.
Proof.
  destruct (parsed_json_members p) as (Hn & Hc & Hs & He & Hx).
  assert (Hd : parsed_of_json (parsed_json p) =
               parsed_of_fields (fun k => match parsed_json p with JObj fs => jfield fs k | _ => None end))
    by reflexivity.
  rewrite Hd. destruct p as [n e ph sk ed ex].
  apply (decode_with_name _ (mkParsed n e ph sk ed ex) n); [|exact Hc|exact Hs|exact He|exact Hx].
  rewrite Hn. by destruct n.
Qed.

(** C34: what the resume route sends is read back whole: decoding the
    JSON of an extraction with the types of [ResumeData] gives the
    extraction, with an absent [name], [email] or [phone] read as
    absent. *)
Theorem parsed_json_roundtrip p : parsed_of_json (parsed_json p) = Some p.
Proof. exact (parsed_json_decodes p). Qed.


(** ** The keys of a state are distinct *)

Lemma keys_prop_put o k v x : In x (map fst (prop_put o k v)) <-> In x (map fst o) \/ x = k.
Proof.
  induction o as [|[k0 v0] o IH]; simpl.
  - split; intros H; destruct H as [H|H]; (contradiction || auto).
  - destruct (k0 =s? k) eqn:E; simpl.
    + apply jstr_eqb_eq in E as ->. split; intros H; destruct H as [H|H]; auto.
    + rewrite IH. tauto.
Qed.

Lemma prop_put_nodup o k v : NoDup (map fst o) -> NoDup (map fst (prop_put o k v)).
Proof.
  induction o as [|[k0 v0] o IH]; simpl; intros H; [apply NoDup_singleton|].
  apply NoDup_cons in H as [Hn Hd].
  destruct (k0 =s? k) eqn:E; simpl; [apply jstr_eqb_eq in E as <-; by apply NoDup_cons|].
  apply NoDup_cons; split; [|by apply IH].
  rewrite list_elem_of_In, keys_prop_put, <-list_elem_of_In.
  intros [Hin|Hk]; [exact (Hn Hin)|]. subst k0. by rewrite jstr_eqb_refl in E.
Qed.

Lemma spread_nodup o p : NoDup (map fst o) -> NoDup (map fst (spread o p)).
Proof.
  unfold spread. revert o. induction p as [|kv p IH]; intros o H; simpl; [exact H|].
  apply IH, prop_put_nodup, H.
Qed.

Lemma resumeReducer_nodup o a : NoDup (map fst o) -> NoDup (map fst (resumeReducer o a)).
Proof.
  intros H. destruct a; cbn [resumeReducer]; try exact H;
    unfold start_loading, fail_loading, merge_payload;
    repeat first [apply prop_put_nodup | apply spread_nodup]; try exact H.
  apply (bool_decide_unpack _). vm_compute. exact I.
Qed.

Lemma reachable_resume_nodup s : reachable s -> NoDup (map fst (resume s)).
Proof.
  induction 1 as [|s a _ IH]; [apply (bool_decide_unpack _); vm_compute; exact I|].
  exact (resumeReducer_nodup _ a IH).
Qed.

(** ** Reading a state after the payload spread *)

Lemma prop_get_app o1 o2 k :
  prop_get (o1 ++ o2) k = match prop_get o1 k with Some v => Some v | None => prop_get o2 k end.
Proof. unfold prop_get. induction o1 as [|[k0 v0] o1 IH]; simpl; [done|]. destruct (k0 =s? k); [done|exact IH]. Qed.

(** The last assignment to [k] in the spread wins. *)
Lemma spread_get o l k :
  prop_get (spread o l) k = match prop_get (rev l) k with Some v => Some v | None => prop_get o k end.
Proof.
  unfold spread. revert o. induction l as [|[k1 v1] l IH]; intros o; simpl; [reflexivity|].
  rewrite IH, prop_get_app, prop_get_put. destruct (prop_get (rev l) k); [done|].
  unfold prop_get; simpl. by destruct (k1 =s? k).
Qed.

Lemma merge_payload_get o j k :
  prop_get (merge_payload o j) k =
  if js "error" =s? k then Some (VJson JNull)
  else if js "loading" =s? k then Some (VJson (JBool false))
  else match prop_get (rev (own_props j)) k with Some v => Some v | None => prop_get o k end.
Proof. unfold merge_payload. unfold spread at 1. simpl fold_left. by rewrite !prop_get_put, spread_get. Qed.

Lemma start_loading_get o k :
  prop_get (start_loading o) k =
  if js "error" =s? k then Some (VJson JNull)
  else if js "loading" =s? k then Some (VJson (JBool true)) else prop_get o k.
Proof. unfold start_loading. by rewrite !prop_get_put. Qed.

(** A key absent from the state is absent from its JSON. *)
Lemma jfield_omap_absent o k :
  k ∉ map fst o -> jfield (omap (fun kv => pair kv.1 <$> value_json kv.2) o) k = None.
Proof.
  unfold jfield. intros Hn. destruct (List.find _ _) as [[k' v']|] eqn:Ef; [|done]. exfalso.
  apply List.find_some in Ef as [Hin Hk]. apply jstr_eqb_eq in Hk. simpl in Hk. subst k'.
  apply Hn. apply list_elem_of_In, list_elem_of_omap in Hin as [[k0 v0] [Hin Hv]].
  simpl in Hv. assert (k0 = k) as <- by (destruct (value_json v0); simpl in Hv; congruence).
  apply list_elem_of_In, in_map_iff. exists (k0, v0). split; [done|]. by apply list_elem_of_In.
Qed.

(** Without duplicate keys, the JSON of a state has the state's values. *)
Lemma jfield_omap o k :
  NoDup (map fst o) ->
  jfield (omap (fun kv => pair kv.1 <$> value_json kv.2) o) k = prop_get o k ≫= value_json.
Proof.
  induction o as [|[k0 v0] o IH]; intros H; [done|]. cbn [map fst] in H.
  apply NoDup_cons in H as [Hn Hd]. unfold prop_get in *. cbn [List.find fst snd].
  simpl omap. destruct (value_json v0) as [j|] eqn:Ev; simpl; unfold jfield in *; simpl.
  - destruct (k0 =s? k); simpl; [by rewrite Ev|]. exact (IH Hd).
  - destruct (k0 =s? k) eqn:E; simpl; [|exact (IH Hd)].
    apply jstr_eqb_eq in E as <-. rewrite Ev. exact (jfield_omap_absent o k0 Hn).
Qed.

Lemma parsed_of_fields_ext g1 g2 :
  (forall k, g1 k = g2 k) -> parsed_of_fields g1 = parsed_of_fields g2.
Proof. intros H. unfold parsed_of_fields. by rewrite !H. Qed.


Lemma resume_view_fields o :
  NoDup (map fst o) -> resume_view o = parsed_of_fields (fun k => prop_get o k ≫= value_json).
Proof.
  intros H. unfold resume_view, parsed_of_json, obj_json. apply parsed_of_fields_ext.
  intros k. exact (jfield_omap o k H).
Qed.

(** The resume state after the route's answer is spread over it. *)
Lemma merged_members o p :
  let g k := prop_get (merge_payload o (parsed_json p)) k ≫= value_json in
  g (js "name") = match p_name p with Some n => Some (JStr n) | None => prop_get o (js "name") ≫= value_json end /\
  g (js "contact") = Some (JObj (opt_field (js "email") (JStr <$> p_email p)
                                 ++ opt_field (js "phone") (JStr <$> p_phone p))) /\
  g (js "skills") = Some (JArr (map JStr (p_skills p))) /\
  g (js "education") = Some (JArr (map education_json (p_education p))) /\
  g (js "experience") = Some (JArr (map experience_json (p_experience p))).
Proof.
  intros g. unfold g. rewrite !merge_payload_get.
  destruct p as [[n|] [e|] [ph|] sk ed ex]; vm_compute; auto.
Qed.

Lemma merge_view o p :
  NoDup (map fst o) ->
  resume_view (merge_payload o (parsed_json p)) =
  match p_name p with
  | Some _ => Some p
  | None => (fun n => mkParsed n (p_email p) (p_phone p) (p_skills p) (p_education p) (p_experience p))
            <$> opt_str (prop_get o (js "name") ≫= value_json)
  end.
Proof.
  intros H. rewrite resume_view_fields by (unfold merge_payload; by apply spread_nodup, spread_nodup).
  destruct (merged_members o p) as (Hn & Hc & Hs & He & Hx).
  destruct p as [[n|] e ph sk ed ex]; cbn [p_name] in *.
  - apply (decode_with_name _ (mkParsed (Some n) e ph sk ed ex)); [by rewrite Hn|done..].
  - destruct (opt_str (prop_get o (js "name") ≫= value_json)) as [n|] eqn:En; simpl.
    + apply (decode_with_name _ (mkParsed None e ph sk ed ex)); [by rewrite Hn|done..].
    + unfold parsed_of_fields. by rewrite Hn, En.
Qed.

Lemma settle_ok ok ko b :
  settle ok ko (res_status_json fresh_response 200 b) = [ok b].
Proof. unfold settle, axios_settle. by rewrite res_status_json_fresh. Qed.

Lemma start_loading_nodup o : NoDup (map fst o) -> NoDup (map fst (start_loading o)).
Proof. intros H. by apply prop_put_nodup, prop_put_nodup. Qed.

(** C35: an upload that the route parses reaches the store whole.  After
    [parseResume] settles with the route's 200 answer, the resume slice
    is not loading and the components read back exactly the extraction of
    the decoded text.  When the text has no non-blank line the extraction
    has no [name], the JSON has no [name] key, and the spread keeps the
    name of the previous résumé. *)
Theorem upload_pipeline_view {B} rf pp er ul req files f t (buf : B) text s :
  reachable s ->
  rq_method req = js "POST" -> rq_files req = inr files -> files ≫= (fun l => l !! 0) = Some f ->
  mimetype f = Some t -> rf (filepath f) = inr buf -> decoded_by pp er t buf (inr text) ->
  ul (filepath f) = None ->
  let d := extractResumeData text in
  let s' := dispatch_all s (parseResume (resume_handler rf pp er ul req).1) in
  prop_get (resume s') (js "loading") = Some (VJson (JBool false)) /\
  resume_view (resume s') =
  match p_name d with
  | Some _ => Some d
  | None => (fun n => mkParsed n (p_email d) (p_phone d) (p_skills d) (p_education d) (p_experience d))
            <$> opt_str (prop_get (resume s) (js "name") ≫= value_json)
  end.
Proof.
  intros Hr Hm Hfs Hf Ht Hrf Hd Hu d s'. unfold s'.
  rewrite (resume_handler_ok rf pp er ul req files f t buf text) by assumption. cbn [fst].
  unfold parseResume. rewrite settle_ok. cbn [dispatch_all fold_left rootReducer resume resumeReducer].
  split; [by rewrite merge_payload_get|].
  rewrite merge_view by exact (start_loading_nodup _ (reachable_resume_nodup s Hr)).
  by rewrite start_loading_get.
Qed.

Lemma upload_pipeline_view_witness :
  reachable root_initial /\
  decoded_by decode_fail decode_ok docx_type tt (inr sample_resume) /\
  let d := extractResumeData sample_resume in
  let s' := dispatch_all root_initial
              (parseResume (resume_handler read_ok decode_fail decode_ok unlink_ok
                              (upload_request (Some docx_type))).1) in
  prop_get (resume s') (js "loading") = Some (VJson (JBool false)) /\
  resume_view (resume s') =
  match p_name d with
  | Some _ => Some d
  | None => (fun n => mkParsed n (p_email d) (p_phone d) (p_skills d) (p_education d) (p_experience d))
            <$> opt_str (prop_get (resume root_initial) (js "name") ≫= value_json)
  end.
Proof.
  assert (Hd : decoded_by decode_fail decode_ok docx_type tt (inr sample_resume))
    by (right; split; reflexivity).
  split; [exact reach_init|]. split; [exact Hd|].
  exact (upload_pipeline_view read_ok decode_fail decode_ok unlink_ok (upload_request (Some docx_type))
           _ (mkUploadedFile (Some docx_type) upload_path) docx_type tt sample_resume root_initial
           reach_init eq_refl eq_refl eq_refl eq_refl eq_refl Hd eq_refl).
Defined.

Lemma dispatch_all_nodup s l : NoDup (map fst (resume s)) -> NoDup (map fst (resume (dispatch_all s l))).
Proof.
  unfold dispatch_all. revert s. induction l as [|a l IH]; intros s H; simpl; [exact H|].
  apply IH. exact (resumeReducer_nodup _ a H).
Qed.

(** C36: two uploads in flight settle in the order of their answers, not
    of their requests.  When the answer to the later upload [p2] arrives
    first and the answer to the earlier one [p1] last, the store shows
    [p1]: the reducer has no request identity to drop a stale answer, and
    [loading] is already [false] after the first answer. *)
Theorem parse_resume_last_answer_wins s p1 p2 :
  reachable s -> p_name p1 <> None ->
  resume_view (resume (dispatch_all s [ParseResumePending; ParseResumePending;
                                       ParseResumeFulfilled (parsed_json p2);
                                       ParseResumeFulfilled (parsed_json p1)])) = Some p1.
Proof.
  intros Hr Hn.
  pose proof (dispatch_all_nodup s [ParseResumePending; ParseResumePending; ParseResumeFulfilled (parsed_json p2)]
                (reachable_resume_nodup s Hr)) as Hd.
  change (dispatch_all s [ParseResumePending; ParseResumePending; ParseResumeFulfilled (parsed_json p2);
                          ParseResumeFulfilled (parsed_json p1)])
    with (rootReducer (dispatch_all s [ParseResumePending; ParseResumePending;
                                       ParseResumeFulfilled (parsed_json p2)])
                      (ParseResumeFulfilled (parsed_json p1))).
  cbn [rootReducer resume resumeReducer]. rewrite merge_view by exact Hd.
  by destruct (p_name p1).
Qed.

(** The answers to two uploads: the earlier names Jane Roe, the later
    John Doe. *)
Definition jane_resume : Parsed := mkParsed (Some (js "Jane Roe")) None None [js "Python"] [] [].
Definition john_resume : Parsed := mkParsed (Some (js "John Doe")) None None [js "Java"] [] [].

Lemma parse_resume_last_answer_wins_witness :
  reachable root_initial /\ p_name jane_resume <> None /\
  resume_view (resume (dispatch_all root_initial
                         [ParseResumePending; ParseResumePending;
                          ParseResumeFulfilled (parsed_json john_resume);
                          ParseResumeFulfilled (parsed_json jane_resume)])) = Some jane_resume.
Proof.
  assert (Hn : p_name jane_resume <> None) by discriminate.
  split; [exact reach_init|]. split; [exact Hn|].
  exact (parse_resume_last_answer_wins root_initial jane_resume john_resume reach_init Hn).
Defined.

(** C37: the suggestions thunk refuses a résumé with no skill before any
    request: it dispatches [pending] then [rejected] with "Resume skills
    are required for project suggestions", whatever the server would
    answer, and the projects slice ends not loading with that error. *)
Theorem generate_requires_skills s server :
  prop_get (resume s) (js "skills") = Some (VJson (JArr [])) ->
  let msg := js "Resume skills are required for project suggestions" in
  generateProjectSuggestions s server = [GeneratePending; GenerateRejected (Some msg)] /\
  prop_get (projects (dispatch_all s (generateProjectSuggestions s server))) (js "loading")
    = Some (VJson (JBool false)) /\
  prop_get (projects (dispatch_all s (generateProjectSuggestions s server))) (js "error")
    = Some (VJson (JStr msg)).
Proof.
  intros Hs msg.
  assert (Hg : generateProjectSuggestions s server = [GeneratePending; GenerateRejected (Some msg)])
    by (unfold generateProjectSuggestions, skills_missing; cbn [rootReducer resume resumeReducer];
        by rewrite Hs).
  rewrite Hg. split; [done|].
  cbn [dispatch_all fold_left rootReducer projects projectsReducer]. unfold fail_loading.
  rewrite !prop_get_put. split; reflexivity.
Qed.

Lemma generate_requires_skills_witness :
  prop_get (resume root_initial) (js "skills") = Some (VJson (JArr [])) /\
  let msg := js "Resume skills are required for project suggestions" in
  generateProjectSuggestions root_initial (fun _ => fresh_response) = [GeneratePending; GenerateRejected (Some msg)] /\
  prop_get (projects (dispatch_all root_initial (generateProjectSuggestions root_initial (fun _ => fresh_response))))
    (js "loading") = Some (VJson (JBool false)) /\
  prop_get (projects (dispatch_all root_initial (generateProjectSuggestions root_initial (fun _ => fresh_response))))
    (js "error") = Some (VJson (JStr msg)).
Proof.
  assert (Hs : prop_get (resume root_initial) (js "skills") = Some (VJson (JArr []))) by reflexivity.
  split; [exact Hs|]. exact (generate_requires_skills root_initial (fun _ => fresh_response) Hs).
Defined.
